(** * Xilinx PCIe end-point register driver (xlnx_pcie_platform_drv.c)

    A shallow embedding of the register protocol of the driver: the file
    operations (open, release, ioctl, read, write, llseek) and the three
    interrupt handlers, written over an explicit register file, the fields
    of [struct pciep_driver_data] that the protocol uses, and a log of the
    kernel services each function calls, in program order. *)

From Stdlib Require Import ZArith List Bool Lia.
Import ListNotations.
Local Open Scope Z_scope.

(** ** Machine integers

    C integer conversions are written out: a value stored in a [u32]
    ([unsigned int]), a [u64] or an [int] is reduced to that type. *)

Definition to_u32 (z : Z) : Z := z mod 2 ^ 32.
Definition to_u64 (z : Z) : Z := z mod 2 ^ 64.
Definition to_int (z : Z) : Z := (z + 2 ^ 31) mod 2 ^ 32 - 2 ^ 31.

(** ** Register map and constants (the #defines of the source) *)

Definition PCIEP_READ_BUFFER_READY : Z := 0x00.
Definition PCIEP_READ_BUFFER_ADDR : Z := 0x04.
Definition PCIEP_READ_BUFFER_OFFSET : Z := 0x08.
Definition PCIEP_READ_BUFFER_SIZE : Z := 0x0c.
Definition PCIEP_WRITE_BUFFER_READY : Z := 0x10.
Definition PCIEP_WRITE_BUFFER_ADDR : Z := 0x14.
Definition PCIEP_WRITE_BUFFER_OFFSET : Z := 0x18.
Definition PCIEP_WRITE_BUFFER_SIZE : Z := 0x1c.
Definition PCIEP_READ_TRANSFER_DONE : Z := 0x20.
Definition PCIEP_WRITE_TRANSFER_DONE : Z := 0x24.
Definition PCIEP_READ_TRANSFER_CLR : Z := 0x28.
Definition PCIEP_READ_BUFFER_HOST_INTR : Z := 0x2c.
Definition PCIEP_WRITE_TRANSFER_CLR : Z := 0x30.

Definition PCIRC_READ_FILE_LENGTH : Z := 0x40.
Definition PCIRC_READ_BUFFER_TRANSFER_DONE : Z := 0x44.
Definition PCIRC_WRITE_BUFFER_TRANSFER_DONE : Z := 0x48.
Definition PCIRC_ENC_PARAMS_1 : Z := 0x4c.
Definition PCIRC_ENC_PARAMS_2 : Z := 0x50.
Definition PCIRC_RAW_RESOLUTION : Z := 0x54.
Definition PCIRC_USECASE_MODE : Z := 0x58.
Definition PCIRC_ENC_PARAMS_3 : Z := 0x5c.
Definition PCIRC_ENC_PARAMS_4 : Z := 0x60.
Definition PCIRC_ENC_PARAMS_5 : Z := 0x64.
Definition PCIRC_READ_BUFFER_TRANSFER_DONE_INTR : Z := 0x68.
Definition PCIRC_WRITE_BUFFER_TRANSFER_DONE_INTR : Z := 0x6c.
Definition PCIRC_HOST_DONE_INTR : Z := 0x70.

Definition PCIEP_CLR_REG : Z := 0x0.
Definition SET_BUFFER_RDY : Z := 0x1.

Definition GET_FILE_LENGTH : Z := 0x0.
Definition GET_ENC_PARAMS : Z := 0x1.
Definition SET_READ_OFFSET : Z := 0x2.
Definition SET_WRITE_OFFSET : Z := 0x3.
Definition SET_READ_TRANSFER_DONE : Z := 0x5.
Definition CLR_READ_TRANSFER_DONE : Z := 0x6.
Definition SET_WRITE_TRANSFER_DONE : Z := 0x7.
Definition CLR_WRITE_TRANSFER_DONE : Z := 0x8.
Definition GET_RESOLUTION : Z := 0x9.
Definition GET_MODE : Z := 0xa.
Definition GET_FPS : Z := 0xb.
Definition GET_FORMAT : Z := 0xc.

Definition WIDTH_SHIFT : Z := 0x0.
Definition WIDTH_MASK : Z := 0xFFFF.
Definition HEIGHT_SHIFT : Z := 16.
Definition HEIGHT_MASK : Z := 0xFFFF.
Definition USE_CASE_MODE_SHIFT : Z := 0x0.
Definition USE_CASE_MODE_MASK : Z := 0x3.
Definition FPS_SHIFT : Z := 0x5.
Definition FPS_MASK : Z := 0x3FF.
Definition FORMAT_SHIFT : Z := 0x2.
Definition FORMAT_MASK : Z := 0x7.

Definition L2CACHE_SHIFT : Z := 0x0.
Definition L2CACHE_MASK : Z := 0x1.
Definition LOW_BANDWIDTH_SHIFT : Z := 0x1.
Definition LOW_BANDWIDTH_MASK : Z := 0x1.
Definition FILLER_DATA_SHIFT : Z := 0x2.
Definition FILLER_DATA_MASK : Z := 0x1.
Definition BITRATE_SHIFT : Z := 0x4.
Definition BITRATE_MASK : Z := 0xFFFF.
Definition GOP_LENGTH_SHIFT : Z := 20.
Definition GOP_LENGTH_MASK : Z := 0x3FF.
Definition MAX_PICTURE_SIZE_SHIFT : Z := 0x1E.
Definition MAX_PICTURE_SIZE_MASK : Z := 0x1.

Definition B_FRAME_SHIFT : Z := 0x0.
Definition B_FRAME_MASK : Z := 0x3.
Definition SLICE_SHIFT : Z := 0x3.
Definition SLICE_MASK : Z := 0x3F.
Definition QP_MODE_SHIFT : Z := 0x9.
Definition QP_MODE_MASK : Z := 0x3.
Definition RC_MODE_SHIFT : Z := 0xb.
Definition RC_MODE_MASK : Z := 0x3.
Definition ENC_TYPE_SHIFT : Z := 0xd.
Definition ENC_TYPE_MASK : Z := 0x3.
Definition GOP_MODE_SHIFT : Z := 0xf.
Definition GOP_MODE_MASK : Z := 0x7.
Definition PROFILE_SHIFT : Z := 0x12.
Definition PROFILE_MASK : Z := 0x3.
Definition MIN_QP_SHIFT : Z := 0x14.
Definition MIN_QP_MASK : Z := 0x3F.
Definition MAX_QP_SHIFT : Z := 0x1A.
Definition MAX_QP_MASK : Z := 0x3F.
Definition CPB_SIZE_SHIFT : Z := 0x0.
Definition CPB_SIZE_MASK : Z := 0xFFFF.
Definition INITIAL_DELAY_SHIFT : Z := 0x0.
Definition INITIAL_DELAY_MASK : Z := 0xFFFF.
Definition PERIODICITY_IDR_SHIFT : Z := 0x0.
Definition PERIODICITY_IDR_MASK : Z := 0xFFFF.

Definition READ_BUF_HIGH_OFFSET : Z := 0xFFFF0000.
Definition WRITE_BUF_HIGH_OFFSET : Z := 0xFFFF0000.

(** Modelled from the spec: the error codes the spec names InvalidArgument,
    OutOfMemory and Unsupported.  The source returns them as [-EINVAL],
    [-ENOMEM] and [-ENOTTY]; the constants are those of <linux/errno.h>,
    which the source includes and which is not part of the repository. *)
Definition EINVAL : Z := 22.
Definition ENOMEM : Z := 12.
Definition ENOTTY : Z := 25.

(** Modelled from the spec: the value an interrupt handler returns,
    [IRQ_HANDLED] of <linux/irqreturn.h>, not part of the repository. *)
Definition IRQ_HANDLED : Z := 1.

(** Modelled from the spec: the test for a buffer allocation failure,
    [IS_ERR_OR_NULL] of <linux/err.h>, not part of the repository: a null
    pointer, or one of the last 4095 addresses, which encode an errno.
    Pointers are 64-bit addresses. *)
Definition IS_ERR_OR_NULL (ptr : Z) : bool :=
  (ptr =? 0) || (2 ^ 64 - 4095 <=? ptr).

(** ** Data model *)

(** The mapped register block: one 32-bit word per byte offset. *)
Definition regfile : Type := Z -> Z.

Definition ioread32 (r : regfile) (reg : Z) : Z := to_u32 (r reg).

Definition iowrite32 (value : Z) (r : regfile) (reg : Z) : regfile :=
  fun o => if o =? reg then to_u32 value else r o.

(** [struct pciep_driver_data], restricted to the fields the file operations
    and the interrupt handlers use.  A [struct completion] is its [done]
    counter. *)
Record pciep_driver_data : Type := mk_driver_data {
  regs : regfile;
  read_complete : nat;
  write_complete : nat;
  is_open : bool;
  read_virt_addr : Z;
  write_virt_addr : Z;
  read_phys_addr : Z;
  write_phys_addr : Z
}.

Definition set_regs (r : regfile) (d : pciep_driver_data) :=
  mk_driver_data r (read_complete d) (write_complete d) (is_open d)
    (read_virt_addr d) (write_virt_addr d) (read_phys_addr d) (write_phys_addr d).
Definition set_read_complete (n : nat) (d : pciep_driver_data) :=
  mk_driver_data (regs d) n (write_complete d) (is_open d)
    (read_virt_addr d) (write_virt_addr d) (read_phys_addr d) (write_phys_addr d).
Definition set_write_complete (n : nat) (d : pciep_driver_data) :=
  mk_driver_data (regs d) (read_complete d) n (is_open d)
    (read_virt_addr d) (write_virt_addr d) (read_phys_addr d) (write_phys_addr d).
Definition set_is_open (b : bool) (d : pciep_driver_data) :=
  mk_driver_data (regs d) (read_complete d) (write_complete d) b
    (read_virt_addr d) (write_virt_addr d) (read_phys_addr d) (write_phys_addr d).
Definition set_read_buffer (virt phys : Z) (d : pciep_driver_data) :=
  mk_driver_data (regs d) (read_complete d) (write_complete d) (is_open d)
    virt (write_virt_addr d) phys (write_phys_addr d).
Definition set_write_buffer (virt phys : Z) (d : pciep_driver_data) :=
  mk_driver_data (regs d) (read_complete d) (write_complete d) (is_open d)
    (read_virt_addr d) virt (read_phys_addr d) phys.
Definition set_read_virt_addr (virt : Z) (d : pciep_driver_data) :=
  set_read_buffer virt (read_phys_addr d) d.
Definition set_write_virt_addr (virt : Z) (d : pciep_driver_data) :=
  set_write_buffer virt (write_phys_addr d) d.

Record enc_params : Type := mk_enc_params {
  enable_l2Cache : bool;
  low_bandwidth : bool;
  filler_data : bool;
  max_picture_size : bool;
  bitrate : Z;
  gop_len : Z;
  b_frame : Z;
  slice : Z;
  qp_mode : Z;
  rc_mode : Z;
  enc_type : Z;
  gop_mode : Z;
  profile : Z;
  min_qp : Z;
  max_qp : Z;
  cpb_size : Z;
  initial_delay : Z;
  periodicity_idr : Z
}.

Record resolution : Type := mk_resolution {
  width : Z;
  height : Z
}.

(** ** Kernel services and their log *)

(** The two completions of the driver data. *)
Inductive completion : Type := ReadComplete | WriteComplete.

(** What [copy_to_user] hands to the caller. *)
Inductive user_data : Type :=
| UserU64 (v : Z)
| UserU32 (v : Z)
| UserEncParams (p : enc_params)
| UserResolution (r : resolution)
| UserBuffer (cpu_addr n : Z).

(** One entry per kernel service called, in program order. *)
Inductive event : Type :=
| EvRegRead (reg value : Z)
| EvRegWrite (reg value : Z)
| EvDmaAlloc (size cpu_addr dma_handle : Z)
| EvDmaFree (size cpu_addr dma_handle : Z)
| EvCopyToUser (data : user_data) (left : Z)
| EvCopyFromUser (left : Z)
| EvWait (c : completion)
| EvComplete (c : completion).

(** A driver function runs on the driver data and either returns, or stays
    blocked in [wait_for_completion]; both carry the log of the call. *)
Inductive outcome (A : Type) : Type :=
| Returned (a : A) (d : pciep_driver_data) (tr : list event)
| Blocked (d : pciep_driver_data) (tr : list event).
Arguments Returned {A} a d tr.
Arguments Blocked {A} d tr.

Definition kern (A : Type) : Type := pciep_driver_data -> outcome A.

Definition ret {A} (a : A) : kern A := fun d => Returned a d [].

Definition bind {A B} (m : kern A) (f : A -> kern B) : kern B :=
  fun d =>
    match m d with
    | Returned a d1 tr1 =>
        match f a d1 with
        | Returned b d2 tr2 => Returned b d2 (tr1 ++ tr2)
        | Blocked d2 tr2 => Blocked d2 (tr1 ++ tr2)
        end
    | Blocked d1 tr1 => Blocked d1 tr1
    end.

Declare Scope kern_scope.
Delimit Scope kern_scope with kern.
Notation "x <- m ;; k" := (bind m (fun x => k))
  (at level 61, m at next level, right associativity) : kern_scope.
Notation "m ;; k" := (bind m (fun _ => k))
  (at level 61, right associativity) : kern_scope.
Local Open Scope kern_scope.

Definition emit (e : event) : kern unit := fun d => Returned tt d [e].
Definition get_data : kern pciep_driver_data := fun d => Returned d d [].
Definition modify (f : pciep_driver_data -> pciep_driver_data) : kern unit :=
  fun d => Returned tt (f d) [].

Definition log_of {A} (o : outcome A) : list event :=
  match o with Returned _ _ tr => tr | Blocked _ tr => tr end.
Definition data_of {A} (o : outcome A) : pciep_driver_data :=
  match o with Returned _ d _ => d | Blocked d _ => d end.
Definition result_of {A} (o : outcome A) : option A :=
  match o with Returned a _ _ => Some a | Blocked _ _ => None end.

(** [reg_read] and [reg_write] of the source. *)
Definition reg_read (reg : Z) : kern Z :=
  fun d => let v := ioread32 (regs d) reg in Returned v d [EvRegRead reg v].

Definition reg_write (reg value : Z) : kern unit :=
  fun d => Returned tt (set_regs (iowrite32 value (regs d) reg) d)
             [EvRegWrite reg (to_u32 value)].

(** [complete]: one more waiter may pass. *)
Definition complete (c : completion) : kern unit :=
  fun d =>
    Returned tt
      match c with
      | ReadComplete => set_read_complete (S (read_complete d)) d
      | WriteComplete => set_write_complete (S (write_complete d)) d
      end
      [EvComplete c].

(** ** Interrupt handlers *)

Definition xilinx_pciep_read_irq_handler : kern Z :=
  value <- reg_read PCIEP_READ_BUFFER_READY ;;
  let value := to_u32 (Z.land value (Z.lnot SET_BUFFER_RDY)) in
  reg_write PCIEP_READ_BUFFER_READY value ;;
  complete ReadComplete ;;
  _ <- reg_read PCIRC_READ_BUFFER_TRANSFER_DONE_INTR ;;
  ret IRQ_HANDLED.

Definition xilinx_pciep_write_irq_handler : kern Z :=
  value <- reg_read PCIEP_WRITE_BUFFER_READY ;;
  let value := to_u32 (Z.land value (Z.lnot SET_BUFFER_RDY)) in
  reg_write PCIEP_WRITE_BUFFER_READY value ;;
  complete WriteComplete ;;
  _ <- reg_read PCIRC_WRITE_BUFFER_TRANSFER_DONE_INTR ;;
  ret IRQ_HANDLED.

Definition xilinx_pciep_host_done_irq_handler : kern Z :=
  _ <- reg_read PCIRC_HOST_DONE_INTR ;;
  reg_write PCIEP_READ_TRANSFER_DONE PCIEP_CLR_REG ;;
  reg_write PCIEP_WRITE_TRANSFER_DONE PCIEP_CLR_REG ;;
  ret IRQ_HANDLED.

(** ** The environment of a call

    What happens while a caller sleeps in [wait_for_completion]: interrupt
    lines fire, which runs the handler registered for the line, and the
    remote side stores into words of the register block. *)
Inductive async : Type :=
| IrqRead
| IrqWrite
| IrqHostDone
| DeviceStore (reg value : Z).

Definition run_async (a : async) : kern unit :=
  match a with
  | IrqRead => _ <- xilinx_pciep_read_irq_handler ;; ret tt
  | IrqWrite => _ <- xilinx_pciep_write_irq_handler ;; ret tt
  | IrqHostDone => _ <- xilinx_pciep_host_done_irq_handler ;; ret tt
  | DeviceStore reg value =>
      modify (fun d => set_regs (iowrite32 value (regs d) reg) d)
  end.

Fixpoint run_asyncs (l : list async) : kern unit :=
  match l with
  | [] => ret tt
  | a :: l' => run_async a ;; run_asyncs l'
  end.

(** The answers of the kernel and of the caller's memory during one call:
    what [dma_alloc_coherent] returns (cpu address, dma handle), how many
    bytes [copy_to_user] or [copy_from_user] leaves uncopied, the eight bytes
    at the ioctl argument, and what happens while the call sleeps. *)
Record kernel : Type := mk_kernel {
  alloc_result : Z * Z;
  copy_left : Z;
  user_arg : Z;
  meanwhile : list async
}.

Definition dma_alloc_coherent (k : kernel) (size : Z) : kern (Z * Z) :=
  fun d =>
    Returned (alloc_result k) d
      [EvDmaAlloc size (fst (alloc_result k)) (snd (alloc_result k))].

Definition dma_free_coherent (size cpu_addr dma_handle : Z) : kern unit :=
  emit (EvDmaFree size cpu_addr dma_handle).

Definition copy_to_user (k : kernel) (data : user_data) : kern Z :=
  emit (EvCopyToUser data (copy_left k)) ;; ret (copy_left k).

Definition copy_from_user (k : kernel) : kern Z :=
  emit (EvCopyFromUser (copy_left k)) ;; ret (copy_left k).

(** Modelled from the spec: the copy across the user/kernel boundary,
    [copy_from_user] of <linux/uaccess.h>, not part of the repository, as it
    fills the eight-byte [value1] of the ioctl.  Of eight bytes the kernel
    reports between 0 and 8 as left; an answer outside that range is read as
    the nearer end of it. *)
Definition bytes_left_of_8 (k : kernel) : Z := Z.max 0 (Z.min 8 (copy_left k)).

(** Modelled from the spec: what that copy leaves in [value1].  It copies
    the first bytes, all but those it reports as left, and fills the rest of
    the destination with zeroes.  The destination is then read as a
    little-endian [u64]: the first [n] bytes are its low [8 * n] bits. *)
Definition copied_u64 (k : kernel) : Z :=
  to_u64 (user_arg k) mod 2 ^ (8 * (8 - bytes_left_of_8 k)).

(** [wait_for_completion]: the caller sleeps while the environment runs,
    then passes if the completion has been signalled, consuming the signal;
    otherwise it stays blocked. *)
Definition wait_for_completion (k : kernel) (c : completion) : kern unit :=
  emit (EvWait c) ;;
  run_asyncs (meanwhile k) ;;
  fun d =>
    match c with
    | ReadComplete =>
        match read_complete d with
        | O => Blocked d []
        | S n => Returned tt (set_read_complete n d) []
        end
    | WriteComplete =>
        match write_complete d with
        | O => Blocked d []
        | S n => Returned tt (set_write_complete n d) []
        end
    end.

(** ** File operations *)

(** [this] tells whether the pointer passed is non-null. *)
Definition pcie_reset_all (this : bool) : kern Z :=
  if this then
    reg_write PCIEP_READ_TRANSFER_DONE PCIEP_CLR_REG ;;
    reg_write PCIEP_WRITE_TRANSFER_DONE PCIEP_CLR_REG ;;
    reg_write PCIEP_READ_BUFFER_OFFSET PCIEP_CLR_REG ;;
    reg_write PCIEP_READ_BUFFER_SIZE PCIEP_CLR_REG ;;
    reg_write PCIEP_WRITE_BUFFER_SIZE PCIEP_CLR_REG ;;
    reg_write PCIEP_READ_BUFFER_READY PCIEP_CLR_REG ;;
    reg_write PCIEP_WRITE_BUFFER_READY PCIEP_CLR_REG ;;
    ret 0
  else
    ret (- EINVAL).

Definition pciep_driver_file_open : kern Z :=
  let status := 0 in
  modify (set_is_open true) ;;
  _ <- pcie_reset_all true ;;
  ret status.

Definition pciep_driver_file_release : kern Z :=
  modify (set_is_open false) ;;
  reg_write PCIEP_READ_BUFFER_OFFSET PCIEP_CLR_REG ;;
  value <- reg_read PCIEP_READ_BUFFER_READY ;;
  let value := to_u32 (Z.land value (Z.lnot READ_BUF_HIGH_OFFSET)) in
  reg_write PCIEP_READ_BUFFER_READY value ;;
  reg_write PCIEP_READ_BUFFER_SIZE PCIEP_CLR_REG ;;
  reg_write PCIEP_WRITE_BUFFER_SIZE PCIEP_CLR_REG ;;
  ret 0.

(** [field = (word >> shift) & mask], stored in an [unsigned int]. *)
Definition field (word shift mask : Z) : Z :=
  to_u32 (Z.land (Z.shiftr word shift) mask).

(** The same, stored in a [bool]. *)
Definition flag (word shift mask : Z) : bool :=
  negb (Z.land (Z.shiftr word shift) mask =? 0).

Definition pciep_driver_file_ioctl (k : kernel) (cmd : Z) : kern Z :=
  if cmd =? GET_FILE_LENGTH then
    value <- reg_read PCIRC_READ_FILE_LENGTH ;;
    value1 <- reg_read (PCIRC_READ_FILE_LENGTH - 4) ;;
    let size := to_u64 (Z.lor value (to_u64 (Z.shiftl value1 32))) in
    left <- copy_to_user k (UserU64 size) ;;
    ret (to_int left)
  else if cmd =? GET_ENC_PARAMS then
    value <- reg_read PCIRC_ENC_PARAMS_1 ;;
    value1 <- reg_read PCIRC_ENC_PARAMS_2 ;;
    value2 <- reg_read PCIRC_ENC_PARAMS_3 ;;
    value3 <- reg_read PCIRC_ENC_PARAMS_4 ;;
    value4 <- reg_read PCIRC_ENC_PARAMS_5 ;;
    let params :=
      {| enable_l2Cache := flag value L2CACHE_SHIFT L2CACHE_MASK;
         low_bandwidth := flag value LOW_BANDWIDTH_SHIFT LOW_BANDWIDTH_MASK;
         filler_data := flag value FILLER_DATA_SHIFT FILLER_DATA_MASK;
         bitrate := field value BITRATE_SHIFT BITRATE_MASK;
         gop_len := field value GOP_LENGTH_SHIFT GOP_LENGTH_MASK;
         max_picture_size :=
           flag value MAX_PICTURE_SIZE_SHIFT MAX_PICTURE_SIZE_MASK;
         b_frame := field value1 B_FRAME_SHIFT B_FRAME_MASK;
         slice := field value1 SLICE_SHIFT SLICE_MASK;
         qp_mode := field value1 QP_MODE_SHIFT QP_MODE_MASK;
         rc_mode := field value1 RC_MODE_SHIFT RC_MODE_MASK;
         enc_type := field value1 ENC_TYPE_SHIFT ENC_TYPE_MASK;
         gop_mode := field value1 GOP_MODE_SHIFT GOP_MODE_MASK;
         profile := field value1 PROFILE_SHIFT PROFILE_MASK;
         min_qp := field value1 MIN_QP_SHIFT MIN_QP_MASK;
         max_qp := field value1 MAX_QP_SHIFT MAX_QP_MASK;
         cpb_size := field value2 CPB_SIZE_SHIFT CPB_SIZE_MASK;
         initial_delay := field value3 INITIAL_DELAY_SHIFT INITIAL_DELAY_MASK;
         periodicity_idr :=
           field value4 PERIODICITY_IDR_SHIFT PERIODICITY_IDR_MASK |} in
    left <- copy_to_user k (UserEncParams params) ;;
    ret (to_int left)
  else if cmd =? GET_RESOLUTION then
    value <- reg_read PCIRC_RAW_RESOLUTION ;;
    let res :=
      {| width := field value WIDTH_SHIFT WIDTH_MASK;
         height := field value HEIGHT_SHIFT HEIGHT_MASK |} in
    left <- copy_to_user k (UserResolution res) ;;
    ret (to_int left)
  else if cmd =? GET_MODE then
    value <- reg_read PCIRC_USECASE_MODE ;;
    let value := field value USE_CASE_MODE_SHIFT USE_CASE_MODE_MASK in
    left <- copy_to_user k (UserU32 value) ;;
    ret (to_int left)
  else if cmd =? SET_READ_OFFSET then
    left <- copy_from_user k ;;
    let value1 := copied_u64 k in
    reg_write PCIEP_READ_BUFFER_OFFSET value1 ;;
    value <- reg_read PCIEP_READ_BUFFER_READY ;;
    let value := to_u32 (Z.land value (Z.lnot READ_BUF_HIGH_OFFSET)) in
    let value :=
      to_u32 (Z.lor value (Z.land (Z.shiftr value1 16) READ_BUF_HIGH_OFFSET)) in
    reg_write PCIEP_READ_BUFFER_READY value ;;
    ret (to_int left)
  else if cmd =? SET_WRITE_OFFSET then
    left <- copy_from_user k ;;
    let value1 := copied_u64 k in
    reg_write PCIEP_WRITE_BUFFER_OFFSET value1 ;;
    value <- reg_read PCIEP_WRITE_BUFFER_READY ;;
    let value := to_u32 (Z.land value (Z.lnot WRITE_BUF_HIGH_OFFSET)) in
    let value :=
      to_u32 (Z.lor value (Z.land (Z.shiftr value1 16) WRITE_BUF_HIGH_OFFSET)) in
    reg_write PCIEP_WRITE_BUFFER_READY value ;;
    ret (to_int left)
  else if cmd =? SET_READ_TRANSFER_DONE then
    reg_write PCIEP_READ_TRANSFER_DONE 0xef ;; ret 0
  else if cmd =? SET_WRITE_TRANSFER_DONE then
    reg_write PCIEP_WRITE_TRANSFER_DONE 0xef ;; ret 0
  else if cmd =? CLR_READ_TRANSFER_DONE then
    reg_write PCIEP_READ_TRANSFER_DONE 0x00 ;; ret 0
  else if cmd =? CLR_WRITE_TRANSFER_DONE then
    reg_write PCIEP_WRITE_TRANSFER_DONE 0x00 ;; ret 0
  else if cmd =? GET_FPS then
    value <- reg_read PCIRC_USECASE_MODE ;;
    let value := field value FPS_SHIFT FPS_MASK in
    left <- copy_to_user k (UserU32 value) ;;
    ret (to_int left)
  else if cmd =? GET_FORMAT then
    value <- reg_read PCIRC_USECASE_MODE ;;
    let value := field value FORMAT_SHIFT FORMAT_MASK in
    left <- copy_to_user k (UserU32 value) ;;
    ret (to_int left)
  else
    ret (- ENOTTY).

Definition pciep_driver_file_read (k : kernel) (count : Z) : kern Z :=
  if count <=? 0 then ret (- EINVAL)
  else
    buf <- dma_alloc_coherent k count ;;
    modify (set_read_buffer (fst buf) (snd buf)) ;;
    this <- get_data ;;
    if IS_ERR_OR_NULL (read_virt_addr this) then
      modify (set_read_virt_addr 0) ;;
      ret (- ENOMEM)
    else
      reg_write PCIEP_READ_BUFFER_ADDR (read_phys_addr this) ;;
      reg_write PCIEP_READ_BUFFER_SIZE count ;;
      value <- reg_read PCIEP_READ_BUFFER_READY ;;
      let value := to_u32 (Z.lor value SET_BUFFER_RDY) in
      reg_write PCIEP_READ_BUFFER_READY value ;;
      wait_for_completion k ReadComplete ;;
      this <- get_data ;;
      left <- copy_to_user k (UserBuffer (read_virt_addr this) count) ;;
      dma_free_coherent count (read_virt_addr this) (read_phys_addr this) ;;
      ret (to_int left).

Definition pciep_driver_file_write (k : kernel) (count : Z) : kern Z :=
  if count <=? 0 then ret (- EINVAL)
  else
    buf <- dma_alloc_coherent k count ;;
    modify (set_write_buffer (fst buf) (snd buf)) ;;
    this <- get_data ;;
    if IS_ERR_OR_NULL (write_virt_addr this) then
      modify (set_write_virt_addr 0) ;;
      ret (- ENOMEM)
    else
      left <- copy_from_user k ;;
      let ret_ := to_int left in
      (if negb (ret_ =? 0) then ret tt
       else
         reg_write PCIEP_WRITE_BUFFER_ADDR (write_phys_addr this) ;;
         reg_write PCIEP_WRITE_BUFFER_SIZE count ;;
         value <- reg_read PCIEP_WRITE_BUFFER_READY ;;
         let value := to_u32 (Z.lor value SET_BUFFER_RDY) in
         reg_write PCIEP_WRITE_BUFFER_READY value ;;
         wait_for_completion k WriteComplete) ;;
      this <- get_data ;;
      dma_free_coherent count (write_virt_addr this) (write_phys_addr this) ;;
      ret ret_.

Definition pciep_driver_file_lseek (offset : Z) : kern Z :=
  reg_write PCIEP_READ_BUFFER_OFFSET offset ;;
  value <- reg_read PCIEP_READ_BUFFER_READY ;;
  let value := to_u32 (Z.land value (Z.lnot READ_BUF_HIGH_OFFSET)) in
  let value :=
    to_u32 (Z.lor value (Z.land (Z.shiftr offset 16) READ_BUF_HIGH_OFFSET)) in
  reg_write PCIEP_READ_BUFFER_READY value ;;
  ret offset.

(** ** Reading a log *)

(** The register file after the register writes of a log. *)
Fixpoint replay (tr : list event) (r : regfile) : regfile :=
  match tr with
  | [] => r
  | EvRegWrite reg value :: tr' => replay tr' (iowrite32 value r reg)
  | _ :: tr' => replay tr' r
  end.


Definition is_reg_access (e : event) : bool :=
  match e with EvRegRead _ _ | EvRegWrite _ _ => true | _ => false end.

Definition is_reg_write (e : event) : bool :=
  match e with EvRegWrite _ _ => true | _ => false end.

(** Events an interrupt handler can log. *)
Definition is_irq_event (e : event) : bool :=
  match e with
  | EvRegRead _ _ | EvRegWrite _ _ | EvComplete _ => true
  | _ => false
  end.

(** A write that leaves bit 0, the ready flag, of register [ready] set. *)
Definition sets_ready (ready : Z) (e : event) : bool :=
  match e with
  | EvRegWrite reg value => (reg =? ready) && Z.testbit value 0
  | _ => false
  end.

(** What a call handed to its caller through [copy_to_user]. *)
Fixpoint delivered (tr : list event) : list user_data :=
  match tr with
  | [] => []
  | EvCopyToUser data _ :: tr' => data :: delivered tr'
  | _ :: tr' => delivered tr'
  end.

(** The [done] counter of a completion, and the counter after a waiter has
    passed. *)
Definition pending (c : completion) (d : pciep_driver_data) : nat :=
  match c with
  | ReadComplete => read_complete d
  | WriteComplete => write_complete d
  end.

Definition consume (c : completion) (d : pciep_driver_data) : pciep_driver_data :=
  match c with
  | ReadComplete => set_read_complete (pred (read_complete d)) d
  | WriteComplete => set_write_complete (pred (write_complete d)) d
  end.

(** How often the interrupt line of a completion fires in [l]. *)
Definition wakes (c : completion) (a : async) : bool :=
  match c, a with
  | ReadComplete, IrqRead => true
  | WriteComplete, IrqWrite => true
  | _, _ => false
  end.

Definition signals (c : completion) (l : list async) : nat :=
  length (filter (wakes c) l).

(** The buffer fields of the driver data are the same in [d] and [d']. *)
Definition same_buffers (d d' : pciep_driver_data) : Prop :=
  read_virt_addr d' = read_virt_addr d /\
  read_phys_addr d' = read_phys_addr d /\
  write_virt_addr d' = write_virt_addr d /\
  write_phys_addr d' = write_phys_addr d.

(** The register accesses of a submit call that hand the buffer over: the
    address, the size, then the ready bit. *)
Definition announce (count phys addr size ready old : Z) : list event :=
  [EvRegWrite addr (to_u32 phys);
   EvRegWrite size (to_u32 count);
   EvRegRead ready old;
   EvRegWrite ready (to_u32 (Z.lor old SET_BUFFER_RDY))].

(** The ready word that set-read-offset and the positional seek store: the
    low half of the old word under the high half of [offset >> 16]. *)
Definition packed_ready (old offset : Z) : Z :=
  Z.lor (Z.land old 0xFFFF) (Z.land (Z.shiftr offset 16) 0xFFFF0000).

(** The file length as the specification words it, with the high word taken
    from offset 0x44; compared below with what the ioctl computes. *)
Definition file_length_per_spec (r : regfile) : Z :=
  Z.lor (ioread32 r 0x40) (Z.shiftl (ioread32 r 0x44) 32).

(** The high bits of the ready word as the specification words them for
    set-read-offset: [(o >> 16) & 0xFFFF]; compared below with what the
    ioctl stores. *)
Definition ready_high_per_spec (o : Z) : Z :=
  Z.land (Z.shiftr o 16) 0xFFFF.

(** Driver data around a register file, nothing allocated or signalled. *)
Definition fresh_data (r : regfile) : pciep_driver_data :=
  mk_driver_data r 0 0 false 0 0 0 0.

(** A kernel where every copy succeeds, the allocation returns the buffer
    [(cpu_addr, dma_handle)], and [l] happens during the sleep. *)
Definition kernel_with (buf : Z * Z) (arg : Z) (l : list async) : kernel :=
  mk_kernel buf 0 arg l.

(** ** Observations on a control request *)

(** What a control request may log: register accesses and copies from or to
    the caller. *)
Definition is_ioctl_event (e : event) : bool :=
  match e with
  | EvRegRead _ _ | EvRegWrite _ _ | EvCopyToUser _ _ | EvCopyFromUser _ => true
  | _ => false
  end.

(** The operation codes the ioctl switch has a case for. *)
Definition ioctl_commands : list Z :=
  [GET_FILE_LENGTH; GET_ENC_PARAMS; SET_READ_OFFSET; SET_WRITE_OFFSET;
   SET_READ_TRANSFER_DONE; CLR_READ_TRANSFER_DONE; SET_WRITE_TRANSFER_DONE;
   CLR_WRITE_TRANSFER_DONE; GET_RESOLUTION; GET_MODE; GET_FPS; GET_FORMAT].

(** The byte offset a direction's two registers hold: the low 32 bits in the
    byte-offset register, the next 16 in the high half of the ready
    register. *)
Definition offset_held (r : regfile) (offset_reg ready_reg : Z) : Z :=
  Z.lor (ioread32 r offset_reg)
    (Z.shiftl (Z.shiftr (ioread32 r ready_reg) 16) 32).

(** ** Observations on a submit call *)

(** The driver data at the moment a read, or a write, goes to sleep: the
    buffer recorded, its address and the byte count written, the ready bit
    set. *)
Definition read_announced (k : kernel) (count : Z) (d : pciep_driver_data)
  : pciep_driver_data :=
  set_regs
    (iowrite32
       (to_u32 (Z.lor (ioread32 (regs d) PCIEP_READ_BUFFER_READY) SET_BUFFER_RDY))
       (iowrite32 count
          (iowrite32 (snd (alloc_result k)) (regs d) PCIEP_READ_BUFFER_ADDR)
          PCIEP_READ_BUFFER_SIZE)
       PCIEP_READ_BUFFER_READY)
    (set_read_buffer (fst (alloc_result k)) (snd (alloc_result k)) d).

Definition write_announced (k : kernel) (count : Z) (d : pciep_driver_data)
  : pciep_driver_data :=
  set_regs
    (iowrite32
       (to_u32 (Z.lor (ioread32 (regs d) PCIEP_WRITE_BUFFER_READY) SET_BUFFER_RDY))
       (iowrite32 count
          (iowrite32 (snd (alloc_result k)) (regs d) PCIEP_WRITE_BUFFER_ADDR)
          PCIEP_WRITE_BUFFER_SIZE)
       PCIEP_WRITE_BUFFER_READY)
    (set_write_buffer (fst (alloc_result k)) (snd (alloc_result k)) d).



(** ** Device registration and module life cycle

    The functions that create, probe, remove and destroy a device and that
    load and unload the module.  They call kernel services only; each call
    is logged with its arguments and its answer, and the answers are given
    by the environment.  Messages ([dev_err], [dev_info], [pr_err]) are not
    logged. *)

Definition DEVICE_MAX_NUM : Z := 256.
Definition MAX_INSTANCES : Z := 4.

Definition DONE_ALLOC_MINOR : Z := Z.shiftl 1 0.
Definition DONE_CHRDEV_ADD : Z := Z.shiftl 1 1.
Definition DONE_ALLOC_CMA : Z := Z.shiftl 1 2.
Definition DONE_DEVICE_CREATE : Z := Z.shiftl 1 3.

(** Modelled from the spec: the error code of a missing device, [ENODEV] of
    <linux/errno.h>, not part of the repository. *)
Definition ENODEV : Z := 19.

(** Modelled from the spec: device numbering, which the spec leaves to an
    external collaborator.  These are [MAJOR], [MINOR] and [MKDEV] of
    <linux/kdev_t.h>, not part of the repository: a [dev_t] is a 32-bit
    number with the minor in its low 20 bits. *)
Definition MAJOR (dev : Z) : Z := to_u32 (Z.shiftr dev 20).
Definition MINOR (dev : Z) : Z := to_u32 (Z.land dev 0xFFFFF).
Definition MKDEV (ma mi : Z) : Z := to_u32 (Z.lor (Z.shiftl ma 20) mi).

(** Modelled from the spec: [PTR_ERR] of <linux/err.h>, not part of the
    repository: the pointer read as a [long]. *)
Definition PTR_ERR (ptr : Z) : Z := (ptr + 2 ^ 63) mod 2 ^ 64 - 2 ^ 63.

(** The registration fields of [struct pciep_driver_data], with the address
    [kzalloc] returned for the structure.  [io_regs] is the field [regs]. *)
Record driver_object : Type := mk_driver_object {
  this_addr : Z;
  device_number : Z;
  size : Z;
  sys_dev : Z;
  dma_dev : Z;
  io_regs : Z;
  rd_irq : Z;
  wr_irq : Z;
  host_done_irq : Z
}.

Definition set_io_regs (p : Z) (t : driver_object) : driver_object :=
  mk_driver_object (this_addr t) (device_number t) (size t) (sys_dev t)
    (dma_dev t) p (rd_irq t) (wr_irq t) (host_done_irq t).
Definition set_rd_irq (i : Z) (t : driver_object) : driver_object :=
  mk_driver_object (this_addr t) (device_number t) (size t) (sys_dev t)
    (dma_dev t) (io_regs t) i (wr_irq t) (host_done_irq t).
Definition set_wr_irq (i : Z) (t : driver_object) : driver_object :=
  mk_driver_object (this_addr t) (device_number t) (size t) (sys_dev t)
    (dma_dev t) (io_regs t) (rd_irq t) i (host_done_irq t).
Definition set_host_done_irq (i : Z) (t : driver_object) : driver_object :=
  mk_driver_object (this_addr t) (device_number t) (size t) (sys_dev t)
    (dma_dev t) (io_regs t) (rd_irq t) (wr_irq t) i.

(** The module's static variables, and the driver data pointer of the
    platform device ([dev_set_drvdata] and [dev_get_drvdata]). *)
Record module_state : Type := mk_module_state {
  pciep_device_number : Z;
  pciep_platform_driver_done : bool;
  pciep_sys_class : Z;
  drvdata : option driver_object
}.

Definition set_pciep_device_number (n : Z) (s : module_state) :=
  mk_module_state n (pciep_platform_driver_done s) (pciep_sys_class s) (drvdata s).
Definition set_pciep_platform_driver_done (b : bool) (s : module_state) :=
  mk_module_state (pciep_device_number s) b (pciep_sys_class s) (drvdata s).
Definition set_pciep_sys_class (p : Z) (s : module_state) :=
  mk_module_state (pciep_device_number s) (pciep_platform_driver_done s) p
    (drvdata s).
Definition set_drvdata (t : option driver_object) (s : module_state) :=
  mk_module_state (pciep_device_number s) (pciep_platform_driver_done s)
    (pciep_sys_class s) t.

(** The interrupt handlers a probe installs. *)
Inductive handler : Type := ReadHandler | WriteHandler | HostDoneHandler.

(** One entry per kernel service called by the life-cycle functions, with
    its arguments and, last, its answer. *)
Inductive kcall : Type :=
| IdaSimpleGet (first last ret : Z)
| IdaSimpleRemove (id : Z)
| Kzalloc (ptr : Z)
| Kfree (ptr : Z)
| DeviceCreate (class parent devt name_minor ret : Z)
| DeviceDestroy (class devt : Z)
| OfDmaConfigure (dev : Z)
| DmaSetMask (dev bits : Z)
| DmaSetCoherentMask (dev bits : Z)
| CdevInit (this : Z)
| CdevAdd (this devt count ret : Z)
| CdevDel (this : Z)
| InitCompletion (this : Z) (c : completion)
| DevmIoremapResource (ret : Z)
| IrqOfParseAndMap (index ret : Z)
| DevmRequestIrq (irq : Z) (h : handler) (this ret : Z)
| IdaInit
| IdaDestroy
| AllocChrdevRegion (first count ret dev : Z)
| UnregisterChrdevRegion (dev count : Z)
| ClassCreate (ret : Z)
| PlatformDriverRegister (ret : Z)
| PlatformDriverUnregister.

(** The answers of the kernel during one call. *)
Record answers : Type := mk_answers {
  ida_simple_get_ret : Z;
  kzalloc_ret : Z;
  device_create_ret : Z;
  cdev_add_ret : Z;
  sizeof_dma_addr_t : Z;
  devm_ioremap_resource_ret : Z;
  irq_of_parse_and_map_ret : Z -> Z;
  devm_request_irq_ret : handler -> Z;
  alloc_chrdev_region_ret : Z * Z;
  class_create_ret : Z;
  platform_driver_register_ret : Z
}.

Definition sys (A : Type) : Type :=
  module_state -> A * module_state * list kcall.

Definition sys_ret {A} (a : A) : sys A := fun s => (a, s, []).

Definition sys_bind {A B} (m : sys A) (f : A -> sys B) : sys B :=
  fun s =>
    let '(a, s1, tr1) := m s in
    let '(b, s2, tr2) := f a s1 in
    (b, s2, tr1 ++ tr2).

Declare Scope sys_scope.
Delimit Scope sys_scope with sys.
Notation "x <- m ;; k" := (sys_bind m (fun x => k))
  (at level 61, m at next level, right associativity) : sys_scope.
Notation "m ;; k" := (sys_bind m (fun _ => k))
  (at level 61, right associativity) : sys_scope.
Local Open Scope sys_scope.

Definition call {A} (a : A) (c : kcall) : sys A := fun s => (a, s, [c]).
Definition get_state : sys module_state := fun s => (s, s, []).
Definition update (f : module_state -> module_state) : sys unit :=
  fun s => (tt, f s, []).
Definition when (b : bool) (m : sys unit) : sys unit :=
  if b then m else sys_ret tt.

Definition value_of {A} (x : A * module_state * list kcall) : A :=
  fst (fst x).
Definition state_of {A} (x : A * module_state * list kcall) : module_state :=
  snd (fst x).
Definition calls_of {A} (x : A * module_state * list kcall) : list kcall :=
  snd x.

(** The label [failed] of [pciep_driver_create]: undo what [done] records,
    free the structure if there is one, return NULL. *)
Definition pciep_driver_create_failed (done this device_number minor : Z)
  : sys (option driver_object) :=
  s <- get_state ;;
  when (negb (Z.land done DONE_CHRDEV_ADD =? 0)) (call tt (CdevDel this)) ;;
  when (negb (Z.land done DONE_DEVICE_CREATE =? 0))
    (call tt (DeviceDestroy (pciep_sys_class s) device_number)) ;;
  when (negb (Z.land done DONE_ALLOC_MINOR =? 0)) (call tt (IdaSimpleRemove minor)) ;;
  when (negb (this =? 0)) (call tt (Kfree this)) ;;
  sys_ret None.

(** [pciep_driver_create]; the arguments [name] and [channel], which the
    body does not use, are left out. *)
Definition pciep_driver_create (o : answers) (parent minor size : Z)
  : sys (option driver_object) :=
  let this := 0 in
  let done := 0 in
  if minor <? DEVICE_MAX_NUM then
    r <- call (ida_simple_get_ret o)
           (IdaSimpleGet minor (to_u32 (minor + 1)) (ida_simple_get_ret o)) ;;
    if r <? 0 then pciep_driver_create_failed done this 0 minor
    else
      let done := Z.lor done DONE_ALLOC_MINOR in
      this <- call (kzalloc_ret o) (Kzalloc (kzalloc_ret o)) ;;
      if IS_ERR_OR_NULL this then pciep_driver_create_failed done this 0 minor
      else
        s <- get_state ;;
        let device_number := MKDEV (MAJOR (pciep_device_number s)) minor in
        sys_dev <- call (device_create_ret o)
                     (DeviceCreate (pciep_sys_class s) parent device_number
                        (MINOR device_number) (device_create_ret o)) ;;
        if IS_ERR_OR_NULL sys_dev then
          pciep_driver_create_failed done this device_number minor
        else
          let done := Z.lor done DONE_DEVICE_CREATE in
          let dma_dev := parent in
          call tt (OfDmaConfigure dma_dev) ;;
          call tt (DmaSetMask dma_dev (sizeof_dma_addr_t o * 4)) ;;
          call tt (DmaSetCoherentMask dma_dev (sizeof_dma_addr_t o * 4)) ;;
          let done := Z.lor done DONE_ALLOC_CMA in
          call tt (CdevInit this) ;;
          r <- call (cdev_add_ret o)
                 (CdevAdd this device_number MAX_INSTANCES (cdev_add_ret o)) ;;
          if negb (r =? 0) then
            pciep_driver_create_failed done this device_number minor
          else
            let done := Z.lor done DONE_CHRDEV_ADD in
            call tt (InitCompletion this ReadComplete) ;;
            call tt (InitCompletion this WriteComplete) ;;
            sys_ret
              (Some (mk_driver_object this device_number size sys_dev dma_dev
                       0 0 0 0))
  else pciep_driver_create_failed done this 0 minor.

(** [pciep_platform_driver_probe] on the platform device [pdev]. *)
Definition pciep_platform_driver_probe (o : answers) (pdev : Z) : sys Z :=
  let retval := 0 in
  let minor_number := 0 in
  let size := 4096 in
  driver_data <- pciep_driver_create o pdev minor_number size ;;
  match driver_data with
  | None =>
      (* IS_ERR_OR_NULL (NULL) holds *)
      let retval := to_int (PTR_ERR 0) in
      sys_ret retval
  | Some driver_data =>
      if IS_ERR_OR_NULL (this_addr driver_data) then
        sys_ret (to_int (PTR_ERR (this_addr driver_data)))
      else
        p <- call (devm_ioremap_resource_ret o)
               (DevmIoremapResource (devm_ioremap_resource_ret o)) ;;
        let driver_data := set_io_regs p driver_data in
        if IS_ERR_OR_NULL (io_regs driver_data) then
          sys_ret (to_int (PTR_ERR (io_regs driver_data)))
        else
          i <- call (irq_of_parse_and_map_ret o 0)
                 (IrqOfParseAndMap 0 (irq_of_parse_and_map_ret o 0)) ;;
          let driver_data := set_rd_irq (to_int i) driver_data in
          if rd_irq driver_data <? 0 then sys_ret (rd_irq driver_data)
          else
            ret_ <- call (devm_request_irq_ret o ReadHandler)
                      (DevmRequestIrq (rd_irq driver_data) ReadHandler
                         (this_addr driver_data)
                         (devm_request_irq_ret o ReadHandler)) ;;
            if ret_ <? 0 then sys_ret retval
            else
              i <- call (irq_of_parse_and_map_ret o 1)
                     (IrqOfParseAndMap 1 (irq_of_parse_and_map_ret o 1)) ;;
              let driver_data := set_wr_irq (to_int i) driver_data in
              if wr_irq driver_data <? 0 then sys_ret (wr_irq driver_data)
              else
                ret_ <- call (devm_request_irq_ret o WriteHandler)
                          (DevmRequestIrq (wr_irq driver_data) WriteHandler
                             (this_addr driver_data)
                             (devm_request_irq_ret o WriteHandler)) ;;
                if ret_ <? 0 then sys_ret retval
                else
                  i <- call (irq_of_parse_and_map_ret o 2)
                         (IrqOfParseAndMap 2 (irq_of_parse_and_map_ret o 2)) ;;
                  let driver_data := set_host_done_irq (to_int i) driver_data in
                  if host_done_irq driver_data <? 0 then
                    sys_ret (host_done_irq driver_data)
                  else
                    ret_ <- call (devm_request_irq_ret o HostDoneHandler)
                              (DevmRequestIrq (host_done_irq driver_data)
                                 HostDoneHandler (this_addr driver_data)
                                 (devm_request_irq_ret o HostDoneHandler)) ;;
                    if ret_ <? 0 then sys_ret retval
                    else
                      update (set_drvdata (Some driver_data)) ;;
                      sys_ret 0
  end.

Definition pciep_driver_destroy (this : option driver_object) : sys Z :=
  match this with
  | None => sys_ret (- ENODEV)
  | Some this =>
      call tt (IdaSimpleRemove (MINOR (device_number this))) ;;
      call tt (CdevDel (this_addr this)) ;;
      call tt (Kfree (this_addr this)) ;;
      sys_ret 0
  end.

Definition pciep_platform_driver_remove : sys Z :=
  s <- get_state ;;
  let this := drvdata s in
  retval <- pciep_driver_destroy this ;;
  if negb (retval =? 0) then sys_ret retval
  else
    update (set_drvdata None) ;;
    sys_ret 0.

Definition pciep_module_exit : sys unit :=
  s <- get_state ;;
  when (pciep_platform_driver_done s) (call tt PlatformDriverUnregister) ;;
  when (negb (pciep_device_number s =? 0))
    (call tt (UnregisterChrdevRegion (pciep_device_number s) 0)) ;;
  call tt IdaDestroy.

Definition pciep_module_init (o : answers) : sys Z :=
  call tt IdaInit ;;
  let '(retval, dev) := alloc_chrdev_region_ret o in
  call tt (AllocChrdevRegion 0 MAX_INSTANCES retval dev) ;;
  update (set_pciep_device_number dev) ;;
  if negb (retval =? 0) then
    update (set_pciep_device_number 0) ;;
    pciep_module_exit ;;
    sys_ret retval
  else
    p <- call (class_create_ret o) (ClassCreate (class_create_ret o)) ;;
    update (set_pciep_sys_class p) ;;
    if IS_ERR_OR_NULL p then
      let retval := to_int (PTR_ERR p) in
      update (set_pciep_sys_class 0) ;;
      pciep_module_exit ;;
      sys_ret retval
    else
      retval <- call (platform_driver_register_ret o)
                  (PlatformDriverRegister (platform_driver_register_ret o)) ;;
      (if negb (retval =? 0) then sys_ret tt
       else update (set_pciep_platform_driver_done true)) ;;
      sys_ret 0.

Close Scope sys_scope.

(** ** What a log of life-cycle calls leaves held *)

Inductive resource : Type :=
| MinorId (id : Z)
| Structure (ptr : Z)
| SysfsDevice (devt : Z)
| CharDevice (this : Z)
| ChrdevRegion (dev count : Z)
| DeviceClass (ptr : Z)
| PlatformDriver.

Definition resource_eqb (a b : resource) : bool :=
  match a, b with
  | MinorId x, MinorId y => x =? y
  | Structure x, Structure y => x =? y
  | SysfsDevice x, SysfsDevice y => x =? y
  | CharDevice x, CharDevice y => x =? y
  | ChrdevRegion x n, ChrdevRegion y m => (x =? y) && (n =? m)
  | DeviceClass x, DeviceClass y => x =? y
  | PlatformDriver, PlatformDriver => true
  | _, _ => false
  end.

(** Gives back one [r], if held. *)
Fixpoint give_back (r : resource) (held : list resource) : list resource :=
  match held with
  | [] => []
  | h :: held' => if resource_eqb r h then held' else h :: give_back r held'
  end.

(** The effect of one call: a successful acquisition adds what it acquired,
    a release gives it back.  [ida_simple_get] over the one-element range
    [first, first + 1) can only yield [first].

    The registry of device numbers is the kernel's, [alloc_chrdev_region]
    and [unregister_chrdev_region] of fs/char_dev.c, not part of the
    repository.  A successful allocation holds the [count] numbers from
    [dev].
    [unregister_chrdev_region (dev, count)] walks the numbers of
    [dev, dev + count) and gives back the region that starts at [dev] and
    counts exactly [count] numbers; with a count of 0 it walks nothing and
    gives nothing back. *)
Definition hold (held : list resource) (c : kcall) : list resource :=
  match c with
  | IdaSimpleGet first _ ret =>
      if ret <? 0 then held else MinorId first :: held
  | IdaSimpleRemove id => give_back (MinorId id) held
  | Kzalloc ptr => if IS_ERR_OR_NULL ptr then held else Structure ptr :: held
  | Kfree ptr => give_back (Structure ptr) held
  | DeviceCreate _ _ devt _ ret =>
      if IS_ERR_OR_NULL ret then held else SysfsDevice devt :: held
  | DeviceDestroy _ devt => give_back (SysfsDevice devt) held
  | CdevAdd this _ _ ret =>
      if ret =? 0 then CharDevice this :: held else held
  | CdevDel this => give_back (CharDevice this) held
  | AllocChrdevRegion _ count ret dev =>
      if ret =? 0 then ChrdevRegion dev count :: held else held
  | UnregisterChrdevRegion dev count =>
      if 0 <? count then give_back (ChrdevRegion dev count) held else held
  | ClassCreate ret =>
      if IS_ERR_OR_NULL ret then held else DeviceClass ret :: held
  | PlatformDriverRegister ret =>
      if ret =? 0 then PlatformDriver :: held else held
  | PlatformDriverUnregister => give_back PlatformDriver held
  | _ => held
  end.

Definition held_after (tr : list kcall) : list resource :=
  fold_left hold tr [].

Definition is_release (c : kcall) : bool :=
  match c with
  | IdaSimpleRemove _ | Kfree _ | DeviceDestroy _ _ | CdevDel _
  | UnregisterChrdevRegion _ _ | PlatformDriverUnregister => true
  | _ => false
  end.

(** Every step of a probe after the creation succeeds. *)
Definition probe_steps_ok (o : answers) : bool :=
  negb (IS_ERR_OR_NULL (devm_ioremap_resource_ret o)) &&
  negb (to_int (irq_of_parse_and_map_ret o 0) <? 0) &&
  negb (devm_request_irq_ret o ReadHandler <? 0) &&
  negb (to_int (irq_of_parse_and_map_ret o 1) <? 0) &&
  negb (devm_request_irq_ret o WriteHandler <? 0) &&
  negb (to_int (irq_of_parse_and_map_ret o 2) <? 0) &&
  negb (devm_request_irq_ret o HostDoneHandler <? 0).

(** The creation of a device succeeds. *)
Definition create_ok (o : answers) (minor : Z) : bool :=
  (minor <? DEVICE_MAX_NUM) &&
  negb (ida_simple_get_ret o <? 0) &&
  negb (IS_ERR_OR_NULL (kzalloc_ret o)) &&
  negb (IS_ERR_OR_NULL (device_create_ret o)) &&
  (cdev_add_ret o =? 0).

(** A kernel in which every life-cycle call succeeds: minor 0 is granted,
    the three interrupt lines map to 40, 41 and 42, the device numbers
    start at major 240. *)
Definition willing_kernel : answers :=
  mk_answers 0 0xffff888000100000 0xffff888000200000 0 8
    0xffff000010000000 (fun index => 40 + index) (fun _ => 0)
    (0, 0x0F000000) 0xffff888000300000 0.

(** The module's variables before the module is loaded. *)
Definition unloaded : module_state := mk_module_state 0 false 0 None.

Arguments to_u32 : simpl never.
Arguments to_u64 : simpl never.
Arguments to_int : simpl never.
Arguments ioread32 : simpl never.
Arguments iowrite32 : simpl never.

(** ** Tactics *)

(** Runs the monadic code on the driver data, leaving the integer
    arithmetic alone. *)
Ltac run :=
  cbv beta iota zeta delta
    [bind reg_read reg_write complete copy_to_user copy_from_user emit ret
     get_data modify dma_alloc_coherent dma_free_coherent];
  cbn [app log_of data_of result_of
       regs read_complete write_complete is_open read_virt_addr
       write_virt_addr read_phys_addr write_phys_addr
       set_regs set_read_complete set_write_complete set_is_open
       set_read_buffer set_write_buffer set_read_virt_addr
       set_write_virt_addr fst snd].

Ltac split_cmp :=
  repeat match goal with
  | |- context [?a <? ?b] => destruct (Z.ltb_spec a b)
  | |- context [?a <=? ?b] => destruct (Z.leb_spec a b)
  | |- context [?a =? ?b] => destruct (Z.eqb_spec a b)
  end.

(** ** Bit-level facts about the integer conversions *)

Lemma testbit_to_u32 (z i : Z) :
  Z.testbit (to_u32 z) i = (i <? 32) && Z.testbit z i.
Proof. unfold to_u32. apply Z.testbit_mod_pow2. lia. Qed.

Lemma testbit_to_u64 (z i : Z) :
  Z.testbit (to_u64 z) i = (i <? 64) && Z.testbit z i.
Proof. unfold to_u64. apply Z.testbit_mod_pow2. lia. Qed.

Lemma to_u32_idem (z : Z) : to_u32 (to_u32 z) = to_u32 z.
Proof. unfold to_u32. apply Z.mod_mod. discriminate. Qed.

Lemma testbit_high_half (i : Z) :
  0 <= i -> Z.testbit 0xFFFF0000 i = (16 <=? i) && (i <? 32).
Proof.
  intros Hi.
  change 0xFFFF0000 with (Z.shiftl (Z.ones 16) 16).
  rewrite Z.shiftl_spec by exact Hi.
  rewrite Z.testbit_ones by lia.
  split_cmp; simpl; try reflexivity; lia.
Qed.

Lemma testbit_low_half (i : Z) :
  0 <= i -> Z.testbit 0xFFFF i = (i <? 16).
Proof.
  intros Hi. change 0xFFFF with (Z.ones 16).
  apply Z.testbit_ones_nonneg; lia.
Qed.

Lemma testbit_one (i : Z) : 0 <= i -> Z.testbit 1 i = (i =? 0).
Proof.
  intros Hi. change 1 with (Z.ones 1).
  rewrite Z.testbit_ones_nonneg by lia.
  split_cmp; try reflexivity; lia.
Qed.

(** Rewrites a bit of an expression built from the conversions and the
    bitwise operators down to bits of its leaves. *)
Ltac bitwise :=
  repeat first
    [ rewrite testbit_to_u32
    | rewrite testbit_to_u64
    | rewrite Z.lor_spec
    | rewrite Z.land_spec
    | rewrite Z.lnot_spec by lia
    | rewrite Z.shiftr_spec by lia
    | rewrite Z.shiftl_spec by lia
    | rewrite testbit_high_half by lia
    | rewrite testbit_low_half by lia
    | rewrite testbit_one by lia ].

Ltac by_bits :=
  let i := fresh "i" in
  let Hi := fresh "Hi" in
  apply Z.bits_inj'; intros i Hi; bitwise.

Ltac bits_done :=
  split_cmp; try lia;
  rewrite ?andb_false_r, ?andb_true_r, ?orb_false_r, ?orb_true_r,
    ?andb_false_l, ?andb_true_l, ?orb_false_l, ?orb_true_l;
  cbn [andb orb negb];
  try reflexivity; try (f_equal; lia).

(** [value &= ~0xFFFF0000] on a 32-bit value keeps its low half. *)
Lemma clear_high_half (v : Z) :
  to_u32 (Z.land (to_u32 v) (Z.lnot 0xFFFF0000)) = Z.land (to_u32 v) 0xFFFF.
Proof. by_bits. bits_done. Qed.

(** [value &= ~1] on a 32-bit value fits 32 bits. *)
Lemma clear_ready_fits (v : Z) :
  to_u32 (Z.land (to_u32 v) (Z.lnot 1)) = Z.land (to_u32 v) (Z.lnot 1).
Proof. by_bits. bits_done. Qed.

(** The packed ready word fits 32 bits. *)
Lemma packed_ready_fits (old offset : Z) :
  to_u32 (packed_ready (to_u32 old) offset) = packed_ready (to_u32 old) offset.
Proof. unfold packed_ready. by_bits. bits_done. Qed.

(** Its bits 16..31 are bits 32..47 of the offset. *)
Lemma packed_ready_high (old offset : Z) :
  Z.shiftr (packed_ready (to_u32 old) offset) 16 =
  Z.land (Z.shiftr offset 32) 0xFFFF.
Proof. unfold packed_ready. by_bits. bits_done. Qed.

Lemma packed_ready_low (old offset : Z) :
  Z.land (packed_ready (to_u32 old) offset) 0xFFFF = Z.land (to_u32 old) 0xFFFF.
Proof. unfold packed_ready. by_bits. bits_done. Qed.

Lemma packed_ready_bit0 (old offset : Z) :
  Z.testbit (packed_ready old offset) 0 = Z.testbit old 0.
Proof. unfold packed_ready. bitwise. bits_done. Qed.

(** Converting a signed 64-bit offset to [u64] changes neither its low 32
    bits nor the ready word packed from it. *)
Lemma packed_ready_u64 (old offset : Z) :
  packed_ready old (to_u64 offset) = packed_ready old offset.
Proof. unfold packed_ready. by_bits. bits_done. Qed.

Lemma to_u32_to_u64 (x : Z) : to_u32 (to_u64 x) = to_u32 x.
Proof. by_bits. bits_done. Qed.

(** ** The value a copy from the caller leaves *)

(** A copy that leaves no byte behind delivers the caller's eight bytes. *)
Lemma copied_u64_all (k : kernel) :
  copy_left k = 0 -> copied_u64 k = to_u64 (user_arg k).
Proof.
  intros H. unfold copied_u64, bytes_left_of_8. rewrite H.
  change (8 * (8 - Z.max 0 (Z.min 8 0))) with 64.
  unfold to_u64. apply Z.mod_mod. discriminate.
Qed.

(** A copy that leaves all eight bytes behind delivers zero. *)
Lemma copied_u64_none (k : kernel) :
  8 <= copy_left k -> copied_u64 k = 0.
Proof.
  intros H. unfold copied_u64, bytes_left_of_8.
  rewrite Z.min_l by lia. change (8 * (8 - Z.max 0 8)) with 0.
  apply Z.mod_1_r.
Qed.

(** In between it delivers the bytes copied, the low ones of the caller's
    value. *)
Lemma copied_u64_prefix (k : kernel) :
  0 <= copy_left k <= 8 ->
  copied_u64 k = user_arg k mod 2 ^ (8 * (8 - copy_left k)).
Proof.
  intros H. unfold copied_u64, bytes_left_of_8.
  rewrite Z.min_r, Z.max_r by lia.
  apply Z.bits_inj'. intros i Hi.
  rewrite !Z.testbit_mod_pow2 by lia. rewrite testbit_to_u64.
  destruct (Z.ltb_spec i (8 * (8 - copy_left k))) as [Hlt | Hge];
    [| reflexivity].
  destruct (Z.ltb_spec i 64) as [_ | Hbig]; [reflexivity | lia].
Qed.

(** [low | high << 32] of two 32-bit words fits 64 bits. *)
Lemma file_length_fits (a b : Z) :
  to_u64 (Z.lor (to_u32 a) (to_u64 (Z.shiftl (to_u32 b) 32))) =
  Z.lor (to_u32 a) (Z.shiftl (to_u32 b) 32).
Proof. by_bits. bits_done. Qed.

(** A field cut out by a 16-bit mask fits an [unsigned int]. *)
Lemma field_16 (word shift : Z) :
  0 <= shift ->
  field word shift 0xFFFF = Z.land (Z.shiftr word shift) 0xFFFF.
Proof. intros H. unfold field. by_bits. bits_done. Qed.

(** ** Registers *)

Lemma ioread32_iowrite32_same (v : Z) (r : regfile) (reg : Z) :
  ioread32 (iowrite32 v r reg) reg = to_u32 v.
Proof.
  unfold ioread32, iowrite32. rewrite Z.eqb_refl. apply to_u32_idem.
Qed.

Lemma ioread32_iowrite32_other (v : Z) (r : regfile) (reg reg' : Z) :
  reg' <> reg -> ioread32 (iowrite32 v r reg) reg' = ioread32 r reg'.
Proof.
  intros H. unfold ioread32, iowrite32.
  destruct (Z.eqb_spec reg' reg); [contradiction | reflexivity].
Qed.

Lemma iowrite32_other (v : Z) (r : regfile) (reg reg' : Z) :
  reg' <> reg -> iowrite32 v r reg reg' = r reg'.
Proof.
  intros H. unfold iowrite32.
  destruct (Z.eqb_spec reg' reg); [contradiction | reflexivity].
Qed.

(** ** The environment: interrupts never block, never touch the buffers *)

Lemma same_buffers_trans (d1 d2 d3 : pciep_driver_data) :
  same_buffers d1 d2 -> same_buffers d2 d3 -> same_buffers d1 d3.
Proof.
  unfold same_buffers. intros (A & B & C & D) (A' & B' & C' & D').
  repeat split; congruence.
Qed.

Lemma run_async_returns (a : async) (d : pciep_driver_data) :
  exists d' tr,
    run_async a d = Returned tt d' tr /\
    same_buffers d d' /\
    forallb is_irq_event tr = true /\
    forall c, pending c d' = (pending c d + signals c [a])%nat.
Proof.
  destruct a;
    unfold run_async, xilinx_pciep_read_irq_handler,
      xilinx_pciep_write_irq_handler, xilinx_pciep_host_done_irq_handler;
    run; eexists; eexists;
    (split; [reflexivity |]);
    (split; [repeat split |]);
    (split; [reflexivity |]);
    intros [|]; cbn; lia.
Qed.

Lemma run_asyncs_returns (l : list async) (d : pciep_driver_data) :
  exists d' tr,
    run_asyncs l d = Returned tt d' tr /\
    same_buffers d d' /\
    forallb is_irq_event tr = true /\
    forall c, pending c d' = (pending c d + signals c l)%nat.
Proof.
  revert d. induction l as [|a l IH]; intros d.
  - exists d, []. repeat split. intros c. cbn. lia.
  - destruct (run_async_returns a d) as (d1 & tr1 & E1 & B1 & F1 & P1).
    destruct (IH d1) as (d2 & tr2 & E2 & B2 & F2 & P2).
    exists d2, (tr1 ++ tr2).
    split; [| split; [| split]].
    + cbn [run_asyncs]. unfold bind at 1. rewrite E1, E2. reflexivity.
    + eapply same_buffers_trans; eassumption.
    + rewrite forallb_app, F1, F2. reflexivity.
    + intros c. rewrite P2, P1. unfold signals. cbn [filter].
      destruct (wakes c a); cbn [length]; lia.
Qed.

Lemma wait_for_completion_run (k : kernel) (c : completion) (d : pciep_driver_data) :
  exists d1 tr1,
    same_buffers d d1 /\
    forallb is_irq_event tr1 = true /\
    pending c d1 = (pending c d + signals c (meanwhile k))%nat /\
    wait_for_completion k c d =
      match pending c d1 with
      | O => Blocked d1 (EvWait c :: tr1)
      | S _ => Returned tt (consume c d1) (EvWait c :: tr1)
      end.
Proof.
  destruct (run_asyncs_returns (meanwhile k) d) as (d1 & tr1 & E & B & F & P).
  exists d1, tr1. repeat split; try assumption; try apply B; try apply P.
  unfold wait_for_completion. run. rewrite E.
  destruct c; cbn [pending consume];
    [destruct (read_complete d1) | destruct (write_complete d1)];
    cbn [pred]; rewrite ?app_nil_r; reflexivity.
Qed.

(** ** The submit calls, run *)

(** submit-outbound-transfer ([read]) once the buffer is allocated: it
    announces the buffer, sleeps, and returns after copying out and freeing
    the buffer if the read completion was signalled. *)
Lemma file_read_run (k : kernel) (count : Z) (d : pciep_driver_data) :
  0 < count ->
  IS_ERR_OR_NULL (fst (alloc_result k)) = false ->
  let virt := fst (alloc_result k) in
  let phys := snd (alloc_result k) in
  let old := ioread32 (regs d) PCIEP_READ_BUFFER_READY in
  let submit :=
    EvDmaAlloc count virt phys ::
    announce count phys PCIEP_READ_BUFFER_ADDR PCIEP_READ_BUFFER_SIZE
      PCIEP_READ_BUFFER_READY old in
  exists d1 tr1,
    forallb is_irq_event tr1 = true /\
    read_complete d1 =
      (read_complete d + signals ReadComplete (meanwhile k))%nat /\
    pciep_driver_file_read k count d =
      match read_complete d1 with
      | O => Blocked d1 (submit ++ EvWait ReadComplete :: tr1)
      | S n =>
          Returned (to_int (copy_left k)) (set_read_complete n d1)
            (submit ++ EvWait ReadComplete :: tr1 ++
             [EvCopyToUser (UserBuffer virt count) (copy_left k);
              EvDmaFree count virt phys])
      end.
Proof.
  intros Hpos Hok virt phys old submit.
  unfold pciep_driver_file_read.
  destruct (Z.leb_spec count 0) as [Hle | _]; [lia |].
  run. rewrite Hok. run.
  rewrite !ioread32_iowrite32_other by discriminate.
  rewrite to_u32_idem.
  match goal with
  | |- context [wait_for_completion k ?c ?dx] =>
      destruct (wait_for_completion_run k c dx) as (d1 & tr1 & B & F & P & ->)
  end.
  exists d1, tr1. split; [exact F |]. split; [exact P |].
  destruct B as (Bv & Bp & _ & _). cbn in Bv, Bp.
  cbn [pending consume]. destruct (read_complete d1) as [|n].
  - reflexivity.
  - run. rewrite Bv, Bp. reflexivity.
Qed.

(** submit-inbound-transfer ([write]) when the copy from the caller fails:
    the buffer is freed and the call returns without touching a register. *)
Lemma file_write_copy_failure (k : kernel) (count : Z) (d : pciep_driver_data) :
  0 < count ->
  IS_ERR_OR_NULL (fst (alloc_result k)) = false ->
  to_int (copy_left k) <> 0 ->
  let virt := fst (alloc_result k) in
  let phys := snd (alloc_result k) in
  pciep_driver_file_write k count d =
    Returned (to_int (copy_left k)) (set_write_buffer virt phys d)
      [EvDmaAlloc count virt phys;
       EvCopyFromUser (copy_left k);
       EvDmaFree count virt phys].
Proof.
  intros Hpos Hok Hcopy virt phys.
  unfold pciep_driver_file_write.
  destruct (Z.leb_spec count 0) as [Hle | _]; [lia |].
  run. rewrite Hok. run.
  destruct (Z.eqb_spec (to_int (copy_left k)) 0) as [E | _]; [contradiction |].
  reflexivity.
Qed.

(** The same call when the copy succeeds. *)
Lemma file_write_run (k : kernel) (count : Z) (d : pciep_driver_data) :
  0 < count ->
  IS_ERR_OR_NULL (fst (alloc_result k)) = false ->
  to_int (copy_left k) = 0 ->
  let virt := fst (alloc_result k) in
  let phys := snd (alloc_result k) in
  let old := ioread32 (regs d) PCIEP_WRITE_BUFFER_READY in
  let submit :=
    EvDmaAlloc count virt phys ::
    EvCopyFromUser (copy_left k) ::
    announce count phys PCIEP_WRITE_BUFFER_ADDR PCIEP_WRITE_BUFFER_SIZE
      PCIEP_WRITE_BUFFER_READY old in
  exists d1 tr1,
    forallb is_irq_event tr1 = true /\
    write_complete d1 =
      (write_complete d + signals WriteComplete (meanwhile k))%nat /\
    pciep_driver_file_write k count d =
      match write_complete d1 with
      | O => Blocked d1 (submit ++ EvWait WriteComplete :: tr1)
      | S n =>
          Returned 0 (set_write_complete n d1)
            (submit ++ EvWait WriteComplete :: tr1 ++
             [EvDmaFree count virt phys])
      end.
Proof.
  intros Hpos Hok Hcopy virt phys old submit.
  unfold pciep_driver_file_write.
  destruct (Z.leb_spec count 0) as [Hle | _]; [lia |].
  run. rewrite Hok. run. rewrite Hcopy. cbn [Z.eqb negb]. run.
  rewrite !ioread32_iowrite32_other by discriminate.
  rewrite to_u32_idem.
  match goal with
  | |- context [wait_for_completion k ?c ?dx] =>
      destruct (wait_for_completion_run k c dx) as (d1 & tr1 & B & F & P & ->)
  end.
  exists d1, tr1. split; [exact F |]. split; [exact P |].
  destruct B as (_ & _ & Bv & Bp). cbn in Bv, Bp.
  cbn [pending consume]. destruct (write_complete d1) as [|n].
  - reflexivity.
  - run. rewrite Bv, Bp. reflexivity.
Qed.

(** ** Control requests *)

Lemma ioctl_get_file_length (k : kernel) :
  pciep_driver_file_ioctl k GET_FILE_LENGTH =
    (value <- reg_read PCIRC_READ_FILE_LENGTH ;;
     value1 <- reg_read (PCIRC_READ_FILE_LENGTH - 4) ;;
     let size := to_u64 (Z.lor value (to_u64 (Z.shiftl value1 32))) in
     left <- copy_to_user k (UserU64 size) ;;
     ret (to_int left)).
Proof. reflexivity. Qed.

Lemma ioctl_get_resolution (k : kernel) :
  pciep_driver_file_ioctl k GET_RESOLUTION =
    (value <- reg_read PCIRC_RAW_RESOLUTION ;;
     let res :=
       {| width := field value WIDTH_SHIFT WIDTH_MASK;
          height := field value HEIGHT_SHIFT HEIGHT_MASK |} in
     left <- copy_to_user k (UserResolution res) ;;
     ret (to_int left)).
Proof. reflexivity. Qed.

Lemma ioctl_set_read_offset (k : kernel) :
  pciep_driver_file_ioctl k SET_READ_OFFSET =
    (left <- copy_from_user k ;;
     let value1 := copied_u64 k in
     reg_write PCIEP_READ_BUFFER_OFFSET value1 ;;
     value <- reg_read PCIEP_READ_BUFFER_READY ;;
     let value := to_u32 (Z.land value (Z.lnot READ_BUF_HIGH_OFFSET)) in
     let value :=
       to_u32 (Z.lor value (Z.land (Z.shiftr value1 16) READ_BUF_HIGH_OFFSET)) in
     reg_write PCIEP_READ_BUFFER_READY value ;;
     ret (to_int left)).
Proof. reflexivity. Qed.

(** C1, as amended: get-file-length hands the caller a 64-bit value
    assembled from two 32-bit register words: the low word, at offset 0x40,
    is read first, the high word is read from offset 0x3c (the word below,
    [PCIRC_READ_FILE_LENGTH - 4]), and the value is [low | (high << 32)]. *)
Theorem get_file_length_words :
  forall (k : kernel) (d : pciep_driver_data),
    let low := ioread32 (regs d) 0x40 in
    let high := ioread32 (regs d) 0x3c in
    pciep_driver_file_ioctl k GET_FILE_LENGTH d =
      Returned (to_int (copy_left k)) d
        [EvRegRead 0x40 low; EvRegRead 0x3c high;
         EvCopyToUser (UserU64 (Z.lor low (Z.shiftl high 32))) (copy_left k)].
Proof.
  intros k d low high.
  rewrite ioctl_get_file_length. run.
  change (PCIRC_READ_FILE_LENGTH - 4) with 0x3c.
  change PCIRC_READ_FILE_LENGTH with 0x40.
  fold low high. unfold low, high, ioread32.
  rewrite file_length_fits. reflexivity.
Qed.

(** C1 as stated fails: with 1 in the word at offset 0x44 and 0 elsewhere
    the length as the claim assembles it is [2 ^ 32], but the ioctl never
    reads offset 0x44 and hands out 0. *)
Lemma get_file_length_not_from_0x44 :
  let d := fresh_data (fun reg => if reg =? 0x44 then 1 else 0) in
  let k := kernel_with (0, 0) 0 [] in
  let tr := log_of (pciep_driver_file_ioctl k GET_FILE_LENGTH d) in
  file_length_per_spec (regs d) = 2 ^ 32 /\
  delivered tr = [UserU64 0] /\
  delivered tr <> [UserU64 (file_length_per_spec (regs d))] /\
  filter is_reg_access tr = [EvRegRead 0x40 0; EvRegRead 0x3c 0].
Proof.
  repeat split; try reflexivity.
  vm_compute. discriminate.
Qed.

(** C8: get-resolution reads the resolution word [w] and hands the caller
    width [(w >> 0) & 0xFFFF] and height [(w >> 16) & 0xFFFF]; on
    [w = 0x04380780] these are 1920 and 1080. *)
Theorem get_resolution_decodes :
  (forall (k : kernel) (d : pciep_driver_data),
     let w := ioread32 (regs d) PCIRC_RAW_RESOLUTION in
     pciep_driver_file_ioctl k GET_RESOLUTION d =
       Returned (to_int (copy_left k)) d
         [EvRegRead PCIRC_RAW_RESOLUTION w;
          EvCopyToUser
            (UserResolution
               {| width := Z.land (Z.shiftr w 0) 0xFFFF;
                  height := Z.land (Z.shiftr w 16) 0xFFFF |})
            (copy_left k)])
  /\
  (forall (k : kernel),
     delivered
       (log_of (pciep_driver_file_ioctl k GET_RESOLUTION
                  (fresh_data (fun _ => 0x04380780)))) =
     [UserResolution {| width := 1920; height := 1080 |}]).
Proof.
  split.
  - intros k d w.
    rewrite ioctl_get_resolution. run. fold w.
    unfold WIDTH_SHIFT, WIDTH_MASK, HEIGHT_SHIFT, HEIGHT_MASK.
    rewrite !field_16 by lia. reflexivity.
  - intros k. reflexivity.
Qed.

(** What set-read-offset does, in full. *)
Lemma set_read_offset_run (k : kernel) (d : pciep_driver_data) :
  let o := copied_u64 k in
  let old := ioread32 (regs d) PCIEP_READ_BUFFER_READY in
  pciep_driver_file_ioctl k SET_READ_OFFSET d =
    Returned (to_int (copy_left k))
      (set_regs (iowrite32 (packed_ready old o)
                   (iowrite32 o (regs d) PCIEP_READ_BUFFER_OFFSET)
                   PCIEP_READ_BUFFER_READY) d)
      [EvCopyFromUser (copy_left k);
       EvRegWrite PCIEP_READ_BUFFER_OFFSET (to_u32 o);
       EvRegRead PCIEP_READ_BUFFER_READY old;
       EvRegWrite PCIEP_READ_BUFFER_READY (packed_ready old o)].
Proof.
  intros o old. rewrite ioctl_set_read_offset. run.
  rewrite (ioread32_iowrite32_other _ _ PCIEP_READ_BUFFER_OFFSET
             PCIEP_READ_BUFFER_READY) by discriminate.
  fold o old. unfold old, ioread32 at 1 2 3. unfold READ_BUF_HIGH_OFFSET.
  rewrite clear_high_half. fold (packed_ready (to_u32 (regs d PCIEP_READ_BUFFER_READY)) o).
  rewrite !packed_ready_fits. reflexivity.
Qed.

(** What the positional seek does, in full. *)
Lemma lseek_run (offset : Z) (d : pciep_driver_data) :
  let old := ioread32 (regs d) PCIEP_READ_BUFFER_READY in
  pciep_driver_file_lseek offset d =
    Returned offset
      (set_regs (iowrite32 (packed_ready old offset)
                   (iowrite32 offset (regs d) PCIEP_READ_BUFFER_OFFSET)
                   PCIEP_READ_BUFFER_READY) d)
      [EvRegWrite PCIEP_READ_BUFFER_OFFSET (to_u32 offset);
       EvRegRead PCIEP_READ_BUFFER_READY old;
       EvRegWrite PCIEP_READ_BUFFER_READY (packed_ready old offset)].
Proof.
  intros old. unfold pciep_driver_file_lseek. run.
  rewrite (ioread32_iowrite32_other _ _ PCIEP_READ_BUFFER_OFFSET
             PCIEP_READ_BUFFER_READY) by discriminate.
  fold old. unfold old, ioread32 at 1 2 3. unfold READ_BUF_HIGH_OFFSET.
  rewrite clear_high_half. fold (packed_ready (to_u32 (regs d PCIEP_READ_BUFFER_READY)) offset).
  rewrite !packed_ready_fits. reflexivity.
Qed.

(** C2, as amended: for every 64-bit offset [o] that the copy from the
    caller delivers and every prior value of the read-ready register,
    set-read-offset writes the low 32 bits of [o] to the read byte-offset
    register and sets bits [16:32) of the read-ready register to bits
    [32:48) of [o], that is [(o >> 32) & 0xFFFF], leaving bits [0:16), so
    bit 0 (the ready flag), unchanged. *)
Theorem set_read_offset_packs_bits_32_to_47 :
  forall (k : kernel) (d : pciep_driver_data),
    copy_left k = 0 ->
    let o := to_u64 (user_arg k) in
    let old := ioread32 (regs d) PCIEP_READ_BUFFER_READY in
    let r' := regs (data_of (pciep_driver_file_ioctl k SET_READ_OFFSET d)) in
    ioread32 r' PCIEP_READ_BUFFER_OFFSET = to_u32 o /\
    Z.shiftr (ioread32 r' PCIEP_READ_BUFFER_READY) 16 =
      Z.land (Z.shiftr o 32) 0xFFFF /\
    Z.land (ioread32 r' PCIEP_READ_BUFFER_READY) 0xFFFF = Z.land old 0xFFFF /\
    Z.testbit (ioread32 r' PCIEP_READ_BUFFER_READY) 0 = Z.testbit old 0.
Proof.
  intros k d Hcopy o old r'. subst r'.
  rewrite set_read_offset_run, (copied_u64_all k Hcopy). fold o old. run.
  rewrite ioread32_iowrite32_same.
  rewrite (ioread32_iowrite32_other _ _ PCIEP_READ_BUFFER_READY
             PCIEP_READ_BUFFER_OFFSET) by discriminate.
  rewrite ioread32_iowrite32_same.
  unfold old, ioread32.
  rewrite packed_ready_fits, packed_ready_high, packed_ready_low,
    packed_ready_bit0.
  repeat split.
Qed.

(** An offset beyond 4 GiB, with the ready flag set and offset bits of an
    earlier request in the ready word. *)
Lemma set_read_offset_packs_bits_32_to_47_witness :
  let k := kernel_with (0, 0) 0x700000010 [] in
  let d := fresh_data (fun _ => 0x00050001) in
  let r' := regs (data_of (pciep_driver_file_ioctl k SET_READ_OFFSET d)) in
  copy_left k = 0 /\
  ioread32 r' PCIEP_READ_BUFFER_OFFSET = 0x10 /\
  Z.shiftr (ioread32 r' PCIEP_READ_BUFFER_READY) 16 = 7 /\
  Z.testbit (ioread32 r' PCIEP_READ_BUFFER_READY) 0 = true.
Proof.
  intros k d r'.
  assert (H0 : copy_left k = 0) by reflexivity.
  destruct (set_read_offset_packs_bits_32_to_47 k d H0)
    as (Hlow & Hhigh & _ & Hbit).
  exact (conj H0 (conj Hlow (conj Hhigh Hbit))).
Defined.

(** For an offset below [2 ^ 32] the high half of the ready word is
    cleared. *)
Lemma set_read_offset_32bit (k : kernel) (d : pciep_driver_data) :
  copy_left k = 0 ->
  0 <= user_arg k < 2 ^ 32 ->
  let r' := regs (data_of (pciep_driver_file_ioctl k SET_READ_OFFSET d)) in
  Z.shiftr (ioread32 r' PCIEP_READ_BUFFER_READY) 16 = 0.
Proof.
  intros Hcopy H r'. subst r'.
  rewrite set_read_offset_run, (copied_u64_all k Hcopy). run.
  rewrite ioread32_iowrite32_same. unfold ioread32.
  rewrite packed_ready_fits, packed_ready_high.
  unfold to_u64. rewrite (Z.mod_small (user_arg k)) by lia.
  rewrite Z.shiftr_div_pow2 by lia.
  rewrite Z.div_small by lia. reflexivity.
Qed.

(** C2 as stated fails: set-read-offset(0x1_0000) with the ready flag set
    writes 0x10000 to the offset register and keeps bit 0, but leaves bit 16
    of the read-ready register clear, where the claim has
    [(o >> 16) & 0xFFFF = 1] in bits [16:32). *)
Lemma set_read_offset_0x10000_bit16_clear :
  let d := fresh_data (fun reg => if reg =? PCIEP_READ_BUFFER_READY then 1 else 0) in
  let k := kernel_with (0, 0) 0x10000 [] in
  let r' := regs (data_of (pciep_driver_file_ioctl k SET_READ_OFFSET d)) in
  ioread32 r' PCIEP_READ_BUFFER_OFFSET = 0x10000 /\
  Z.testbit (ioread32 r' PCIEP_READ_BUFFER_READY) 0 = true /\
  Z.testbit (ioread32 r' PCIEP_READ_BUFFER_READY) 16 = false /\
  ready_high_per_spec 0x10000 = 1 /\
  Z.land (Z.shiftr (ioread32 r' PCIEP_READ_BUFFER_READY) 16) 0xFFFF <>
    ready_high_per_spec 0x10000.
Proof.
  repeat split; try reflexivity.
  vm_compute. discriminate.
Qed.

(** C9: for every offset, the positional seek makes exactly the register
    accesses of set-read-offset with that value, copied in full from the
    caller, and leaves the same register file: it writes the offset to the
    read byte-offset register and replaces the high 16 bits of the
    read-ready register by [(offset >> 16)] masked to those bits, the low 16
    bits staying as they were. *)
Theorem lseek_same_as_set_read_offset :
  forall (offset : Z) (buf : Z * Z) (l : list async) (d : pciep_driver_data),
    let k := mk_kernel buf 0 offset l in
    let old := ioread32 (regs d) PCIEP_READ_BUFFER_READY in
    let seek := pciep_driver_file_lseek offset d in
    let ioctl := pciep_driver_file_ioctl k SET_READ_OFFSET d in
    log_of seek = filter is_reg_access (log_of ioctl) /\
    (forall reg, regs (data_of seek) reg = regs (data_of ioctl) reg) /\
    log_of seek =
      [EvRegWrite PCIEP_READ_BUFFER_OFFSET (to_u32 offset);
       EvRegRead PCIEP_READ_BUFFER_READY old;
       EvRegWrite PCIEP_READ_BUFFER_READY
         (Z.lor (Z.land old 0xFFFF)
            (Z.land (Z.shiftr offset 16) READ_BUF_HIGH_OFFSET))] /\
    ioread32 (regs (data_of seek)) PCIEP_READ_BUFFER_OFFSET = to_u32 offset /\
    ioread32 (regs (data_of seek)) PCIEP_READ_BUFFER_READY =
      Z.lor (Z.land old 0xFFFF)
        (Z.land (Z.shiftr offset 16) READ_BUF_HIGH_OFFSET) /\
    Z.land (ioread32 (regs (data_of seek)) PCIEP_READ_BUFFER_READY) 0xFFFF =
      Z.land old 0xFFFF.
Proof.
  intros offset buf l d k old seek ioctl.
  subst seek ioctl.
  rewrite lseek_run, set_read_offset_run, (copied_u64_all k eq_refl). fold old.
  cbn [user_arg k log_of data_of regs set_regs filter is_reg_access].
  rewrite packed_ready_u64, to_u32_to_u64.
  split; [reflexivity |].
  split.
  { intros reg. unfold iowrite32.
    destruct (reg =? PCIEP_READ_BUFFER_READY); [reflexivity |].
    destruct (reg =? PCIEP_READ_BUFFER_OFFSET); [| reflexivity].
    symmetry. apply to_u32_to_u64. }
  split; [reflexivity |].
  rewrite ioread32_iowrite32_same.
  rewrite (ioread32_iowrite32_other _ _ PCIEP_READ_BUFFER_READY
             PCIEP_READ_BUFFER_OFFSET) by discriminate.
  rewrite ioread32_iowrite32_same.
  unfold old, ioread32.
  rewrite packed_ready_fits, packed_ready_low.
  repeat split.
Qed.

(** ** Open *)

(** What the open-time reset leaves in the register block: seven words are
    zeroed, every other word, the write byte-offset register at 0x18 among
    them, keeps its value. *)
Lemma open_run (d : pciep_driver_data) :
  let d' := data_of (pciep_driver_file_open d) in
  result_of (pciep_driver_file_open d) = Some 0 /\
  is_open d' = true /\
  ioread32 (regs d') PCIEP_READ_BUFFER_READY = 0 /\
  ioread32 (regs d') PCIEP_WRITE_BUFFER_READY = 0 /\
  ioread32 (regs d') PCIEP_READ_TRANSFER_DONE = 0 /\
  ioread32 (regs d') PCIEP_WRITE_TRANSFER_DONE = 0 /\
  ioread32 (regs d') PCIEP_READ_BUFFER_OFFSET = 0 /\
  ioread32 (regs d') PCIEP_READ_BUFFER_SIZE = 0 /\
  ioread32 (regs d') PCIEP_WRITE_BUFFER_SIZE = 0 /\
  ioread32 (regs d') PCIEP_WRITE_BUFFER_OFFSET =
    ioread32 (regs d) PCIEP_WRITE_BUFFER_OFFSET /\
  filter is_reg_write (log_of (pciep_driver_file_open d)) =
    [EvRegWrite PCIEP_READ_TRANSFER_DONE 0;
     EvRegWrite PCIEP_WRITE_TRANSFER_DONE 0;
     EvRegWrite PCIEP_READ_BUFFER_OFFSET 0;
     EvRegWrite PCIEP_READ_BUFFER_SIZE 0;
     EvRegWrite PCIEP_WRITE_BUFFER_SIZE 0;
     EvRegWrite PCIEP_READ_BUFFER_READY 0;
     EvRegWrite PCIEP_WRITE_BUFFER_READY 0].
Proof.
  intros d'. subst d'.
  unfold pciep_driver_file_open, pcie_reset_all. run.
  repeat split.
Qed.

(** C3 on the code: after set-write-offset(0x1000) the write byte-offset
    register holds 0x1000, and it still does after the open-time reset,
    which zeroes the read byte-offset register but has no write to
    [PCIEP_WRITE_BUFFER_OFFSET]. *)
Theorem open_keeps_write_offset :
  let k := kernel_with (0, 0) 0x1000 [] in
  let d :=
    data_of (pciep_driver_file_ioctl k SET_WRITE_OFFSET
               (fresh_data (fun _ => 0))) in
  let d' := data_of (pciep_driver_file_open d) in
  ioread32 (regs d) PCIEP_WRITE_BUFFER_OFFSET = 0x1000 /\
  ioread32 (regs d') PCIEP_WRITE_BUFFER_OFFSET = 0x1000 /\
  ioread32 (regs d') PCIEP_READ_BUFFER_OFFSET = 0.
Proof. repeat split. Qed.

(** ** Interrupt handlers *)

(** A 32-bit word with bit 0 cleared: every other bit is as before. *)
Lemma clear_ready_other_bits (v i : Z) :
  i <> 0 ->
  Z.testbit (Z.land (to_u32 v) (Z.lnot SET_BUFFER_RDY)) i =
  Z.testbit (to_u32 v) i.
Proof.
  intros Hi. destruct (Z.lt_ge_cases i 0) as [Hneg | Hpos].
  - rewrite !Z.testbit_neg_r by exact Hneg. reflexivity.
  - unfold SET_BUFFER_RDY. bitwise. bits_done.
Qed.

Lemma clear_ready_high_half (v : Z) :
  Z.shiftr (Z.land (to_u32 v) (Z.lnot SET_BUFFER_RDY)) 16 =
  Z.shiftr (to_u32 v) 16.
Proof. unfold SET_BUFFER_RDY. by_bits. bits_done. Qed.

(** C10: each per-direction completion handler changes only bit 0 of its
    direction's ready register: every other bit of that register, so the
    packed offset bits [16:32), reads as before; its only register write is
    the one to that register; and every register other than it and the
    interrupt-acknowledge word the handler reads holds its old value. *)
Theorem irq_changes_only_ready_bit :
  forall (d : pciep_driver_data),
    let rd := ioread32 (regs d) PCIEP_READ_BUFFER_READY in
    let wr := ioread32 (regs d) PCIEP_WRITE_BUFFER_READY in
    let dr := data_of (xilinx_pciep_read_irq_handler d) in
    let dw := data_of (xilinx_pciep_write_irq_handler d) in
    ((forall i, i <> 0 ->
        Z.testbit (ioread32 (regs dr) PCIEP_READ_BUFFER_READY) i =
        Z.testbit rd i) /\
     Z.shiftr (ioread32 (regs dr) PCIEP_READ_BUFFER_READY) 16 = Z.shiftr rd 16 /\
     (forall reg,
        reg <> PCIEP_READ_BUFFER_READY ->
        reg <> PCIRC_READ_BUFFER_TRANSFER_DONE_INTR ->
        regs dr reg = regs d reg) /\
     filter is_reg_write (log_of (xilinx_pciep_read_irq_handler d)) =
       [EvRegWrite PCIEP_READ_BUFFER_READY (Z.land rd (Z.lnot SET_BUFFER_RDY))])
    /\
    ((forall i, i <> 0 ->
        Z.testbit (ioread32 (regs dw) PCIEP_WRITE_BUFFER_READY) i =
        Z.testbit wr i) /\
     Z.shiftr (ioread32 (regs dw) PCIEP_WRITE_BUFFER_READY) 16 = Z.shiftr wr 16 /\
     (forall reg,
        reg <> PCIEP_WRITE_BUFFER_READY ->
        reg <> PCIRC_WRITE_BUFFER_TRANSFER_DONE_INTR ->
        regs dw reg = regs d reg) /\
     filter is_reg_write (log_of (xilinx_pciep_write_irq_handler d)) =
       [EvRegWrite PCIEP_WRITE_BUFFER_READY (Z.land wr (Z.lnot SET_BUFFER_RDY))]).
Proof.
  intros d rd wr dr dw.
  assert (Hfit : forall r reg,
             to_u32 (Z.land (ioread32 r reg) (Z.lnot SET_BUFFER_RDY)) =
             Z.land (ioread32 r reg) (Z.lnot SET_BUFFER_RDY)).
  { intros r reg. unfold ioread32, SET_BUFFER_RDY. apply clear_ready_fits. }
  split.
  - subst dr. unfold xilinx_pciep_read_irq_handler. run.
    rewrite ioread32_iowrite32_same. fold rd. unfold rd.
    rewrite !Hfit. unfold ioread32.
    split; [| split; [| split]].
    + intros i Hi. apply clear_ready_other_bits. exact Hi.
    + apply clear_ready_high_half.
    + intros reg Hreg _. apply iowrite32_other. exact Hreg.
    + reflexivity.
  - subst dw. unfold xilinx_pciep_write_irq_handler. run.
    rewrite ioread32_iowrite32_same. fold wr. unfold wr.
    rewrite !Hfit. unfold ioread32.
    split; [| split; [| split]].
    + intros i Hi. apply clear_ready_other_bits. exact Hi.
    + apply clear_ready_high_half.
    + intros reg Hreg _. apply iowrite32_other. exact Hreg.
    + reflexivity.
Qed.

(** The handler run on a ready word with offset bits packed above the ready
    flag. *)
Lemma irq_changes_only_ready_bit_witness :
  let d := fresh_data (fun _ => 0x00050001) in
  (17 <> 0 /\
   Z.testbit
     (ioread32 (regs (data_of (xilinx_pciep_read_irq_handler d)))
        PCIEP_READ_BUFFER_READY) 17 =
   Z.testbit (ioread32 (regs d) PCIEP_READ_BUFFER_READY) 17) /\
  (PCIEP_WRITE_BUFFER_SIZE <> PCIEP_READ_BUFFER_READY /\
   PCIEP_WRITE_BUFFER_SIZE <> PCIRC_READ_BUFFER_TRANSFER_DONE_INTR /\
   regs (data_of (xilinx_pciep_read_irq_handler d)) PCIEP_WRITE_BUFFER_SIZE =
   regs d PCIEP_WRITE_BUFFER_SIZE) /\
  (18 <> 0 /\
   Z.testbit
     (ioread32 (regs (data_of (xilinx_pciep_write_irq_handler d)))
        PCIEP_WRITE_BUFFER_READY) 18 =
   Z.testbit (ioread32 (regs d) PCIEP_WRITE_BUFFER_READY) 18) /\
  (PCIEP_READ_BUFFER_SIZE <> PCIEP_WRITE_BUFFER_READY /\
   PCIEP_READ_BUFFER_SIZE <> PCIRC_WRITE_BUFFER_TRANSFER_DONE_INTR /\
   regs (data_of (xilinx_pciep_write_irq_handler d)) PCIEP_READ_BUFFER_SIZE =
   regs d PCIEP_READ_BUFFER_SIZE).
Proof.
  intros d.
  destruct (irq_changes_only_ready_bit d)
    as ((Rbits & _ & Rframe & _) & (Wbits & _ & Wframe & _)).
  assert (H17 : 17 <> 0) by discriminate.
  assert (H18 : 18 <> 0) by discriminate.
  assert (Hw1 : PCIEP_WRITE_BUFFER_SIZE <> PCIEP_READ_BUFFER_READY)
    by discriminate.
  assert (Hw2 : PCIEP_WRITE_BUFFER_SIZE <> PCIRC_READ_BUFFER_TRANSFER_DONE_INTR)
    by discriminate.
  assert (Hr1 : PCIEP_READ_BUFFER_SIZE <> PCIEP_WRITE_BUFFER_READY)
    by discriminate.
  assert (Hr2 : PCIEP_READ_BUFFER_SIZE <> PCIRC_WRITE_BUFFER_TRANSFER_DONE_INTR)
    by discriminate.
  exact (conj (conj H17 (Rbits 17 H17))
           (conj (conj Hw1 (conj Hw2 (Rframe _ Hw1 Hw2)))
              (conj (conj H18 (Wbits 18 H18))
                 (conj Hr1 (conj Hr2 (Wframe _ Hr1 Hr2)))))).
Defined.

(** ** Submitting a transfer *)

Lemma file_read_invalid (k : kernel) (count : Z) (d : pciep_driver_data) :
  count <= 0 -> pciep_driver_file_read k count d = Returned (- EINVAL) d [].
Proof.
  intros H. unfold pciep_driver_file_read.
  destruct (Z.leb_spec count 0); [reflexivity | lia].
Qed.

Lemma file_write_invalid (k : kernel) (count : Z) (d : pciep_driver_data) :
  count <= 0 -> pciep_driver_file_write k count d = Returned (- EINVAL) d [].
Proof.
  intros H. unfold pciep_driver_file_write.
  destruct (Z.leb_spec count 0); [reflexivity | lia].
Qed.

Lemma file_read_nomem (k : kernel) (count : Z) (d : pciep_driver_data) :
  0 < count ->
  IS_ERR_OR_NULL (fst (alloc_result k)) = true ->
  pciep_driver_file_read k count d =
    Returned (- ENOMEM) (set_read_buffer 0 (snd (alloc_result k)) d)
      [EvDmaAlloc count (fst (alloc_result k)) (snd (alloc_result k))].
Proof.
  intros Hpos Hfail. unfold pciep_driver_file_read.
  destruct (Z.leb_spec count 0); [lia |].
  run. rewrite Hfail. reflexivity.
Qed.

Lemma file_write_nomem (k : kernel) (count : Z) (d : pciep_driver_data) :
  0 < count ->
  IS_ERR_OR_NULL (fst (alloc_result k)) = true ->
  pciep_driver_file_write k count d =
    Returned (- ENOMEM) (set_write_buffer 0 (snd (alloc_result k)) d)
      [EvDmaAlloc count (fst (alloc_result k)) (snd (alloc_result k))].
Proof.
  intros Hpos Hfail. unfold pciep_driver_file_write.
  destruct (Z.leb_spec count 0); [lia |].
  run. rewrite Hfail. reflexivity.
Qed.

(** C7: for every byte count <= 0 both submit calls fail with [-EINVAL],
    log nothing, so access no register, and leave the driver data as it
    was; when the allocation fails they fail with [-ENOMEM], the allocation
    attempt is all they log, and the register file is as it was. *)
Theorem submit_fails_before_any_register :
  forall (k : kernel) (count : Z) (d : pciep_driver_data),
    (count <= 0 ->
       pciep_driver_file_read k count d = Returned (- EINVAL) d [] /\
       pciep_driver_file_write k count d = Returned (- EINVAL) d [])
    /\
    (0 < count ->
     IS_ERR_OR_NULL (fst (alloc_result k)) = true ->
       let rd := pciep_driver_file_read k count d in
       let wr := pciep_driver_file_write k count d in
       let attempt :=
         [EvDmaAlloc count (fst (alloc_result k)) (snd (alloc_result k))] in
       (result_of rd = Some (- ENOMEM) /\
        log_of rd = attempt /\
        filter is_reg_access (log_of rd) = [] /\
        regs (data_of rd) = regs d) /\
       (result_of wr = Some (- ENOMEM) /\
        log_of wr = attempt /\
        filter is_reg_access (log_of wr) = [] /\
        regs (data_of wr) = regs d)).
Proof.
  intros k count d. split.
  - intros H. split; [apply file_read_invalid | apply file_write_invalid];
      exact H.
  - intros Hpos Hfail rd wr attempt. subst rd wr attempt.
    rewrite file_read_nomem, file_write_nomem by assumption.
    repeat split.
Qed.

(** Both failures, at byte count 0 and at a null allocation. *)
Lemma submit_fails_before_any_register_witness :
  let k := kernel_with (0, 0) 0 [] in
  let d := fresh_data (fun _ => 7) in
  (0 <= 0 /\
   pciep_driver_file_read k 0 d = Returned (- EINVAL) d [] /\
   pciep_driver_file_write k 0 d = Returned (- EINVAL) d []) /\
  (0 < 4096 /\ IS_ERR_OR_NULL (fst (alloc_result k)) = true /\
   result_of (pciep_driver_file_read k 4096 d) = Some (- ENOMEM) /\
   result_of (pciep_driver_file_write k 4096 d) = Some (- ENOMEM) /\
   filter is_reg_access (log_of (pciep_driver_file_read k 4096 d)) = [] /\
   filter is_reg_access (log_of (pciep_driver_file_write k 4096 d)) = []).
Proof.
  intros k d.
  assert (H0 : 0 <= 0) by lia.
  assert (H1 : 0 < 4096) by lia.
  assert (H2 : IS_ERR_OR_NULL (fst (alloc_result k)) = true) by reflexivity.
  destruct (proj1 (submit_fails_before_any_register k 0 d) H0) as (R0 & W0).
  destruct (proj2 (submit_fails_before_any_register k 4096 d) H1 H2)
    as ((Rr & _ & Rl & _) & (Wr & _ & Wl & _)).
  exact (conj (conj H0 (conj R0 W0))
           (conj H1 (conj H2 (conj Rr (conj Wr (conj Rl Wl)))))).
Defined.

(** A log that starts with events that do not set the ready bit, then the
    address write [a], then the size write [s]: whatever sets the ready bit
    later has [a] and [s] before it. *)
Lemma ready_after_head (ready : Z) (a s : event) (rest : list event) :
  forall (head pre post : list event) (e : event),
    forallb (fun x => negb (sets_ready ready x)) (head ++ [a; s]) = true ->
    head ++ a :: s :: rest = pre ++ e :: post ->
    sets_ready ready e = true ->
    exists p3, pre = head ++ a :: s :: p3.
Proof.
  induction head as [|h head IH]; intros pre post e Hno Heq He.
  - cbn [app forallb] in Hno, Heq.
    apply andb_prop in Hno. destruct Hno as (Ha & Hs).
    apply andb_prop in Hs. destruct Hs as (Hs & _).
    destruct pre as [|x pre]; cbn [app] in Heq.
    + injection Heq as -> _. rewrite He in Ha. discriminate.
    + injection Heq as <- Heq.
      destruct pre as [|y pre]; cbn [app] in Heq.
      * injection Heq as -> _. rewrite He in Hs. discriminate.
      * injection Heq as <- _. exists pre. reflexivity.
  - cbn [app forallb] in Hno, Heq.
    apply andb_prop in Hno. destruct Hno as (Hh & Hno).
    destruct pre as [|x pre]; cbn [app] in Heq.
    + injection Heq as -> _. rewrite He in Hh. discriminate.
    + injection Heq as <- Heq.
      destruct (IH pre post e Hno Heq He) as (p3 & ->).
      exists p3. reflexivity.
Qed.

(** No event of [l] sets the ready bit: [l] has no place for one. *)
Lemma no_ready_in (ready : Z) (l pre post : list event) (e : event) :
  forallb (fun x => negb (sets_ready ready x)) l = true ->
  l = pre ++ e :: post ->
  sets_ready ready e = true ->
  False.
Proof.
  intros Hno -> He. rewrite forallb_app in Hno.
  apply andb_prop in Hno. destruct Hno as (_ & Hno).
  cbn [forallb] in Hno. rewrite He in Hno. discriminate.
Qed.

(** The last write of the announce step does set the ready bit. *)
Lemma announce_sets_ready (ready old : Z) :
  sets_ready ready (EvRegWrite ready (to_u32 (Z.lor old SET_BUFFER_RDY))) = true.
Proof.
  cbn [sets_ready]. rewrite Z.eqb_refl. unfold SET_BUFFER_RDY.
  bitwise. cbn [Z.ltb Z.compare Z.eqb andb]. apply orb_true_r.
Qed.

(** A submit call whose allocation (and, for the inbound direction, copy)
    succeeded does reach the announce step: its log has a write that sets the
    ready bit. *)
Lemma submit_reaches_announce (k : kernel) (count : Z) (d : pciep_driver_data) :
  0 < count ->
  IS_ERR_OR_NULL (fst (alloc_result k)) = false ->
  (exists pre e post,
     log_of (pciep_driver_file_read k count d) = pre ++ e :: post /\
     sets_ready PCIEP_READ_BUFFER_READY e = true) /\
  (to_int (copy_left k) = 0 ->
   exists pre e post,
     log_of (pciep_driver_file_write k count d) = pre ++ e :: post /\
     sets_ready PCIEP_WRITE_BUFFER_READY e = true).
Proof.
  intros Hpos Halloc. split.
  - destruct (file_read_run k count d Hpos Halloc) as (d1 & tr1 & _ & _ & E).
    rewrite E. unfold announce.
    destruct (read_complete d1); cbn [log_of app];
      eexists [_; _; _; _]; eexists; eexists;
      (split; [reflexivity | apply announce_sets_ready]).
  - intros Hcopy.
    destruct (file_write_run k count d Hpos Halloc Hcopy)
      as (d1 & tr1 & _ & _ & E).
    rewrite E. unfold announce.
    destruct (write_complete d1); cbn [log_of app];
      eexists [_; _; _; _; _]; eexists; eexists;
      (split; [reflexivity | apply announce_sets_ready]).
Qed.

(** A submit call that got its buffer returns exactly when its completion
    is signalled: by an interrupt during its sleep, or before the call. *)
Lemma submit_returns_when_signalled (k : kernel) (count : Z) (d : pciep_driver_data) :
  0 < count ->
  IS_ERR_OR_NULL (fst (alloc_result k)) = false ->
  (result_of (pciep_driver_file_read k count d) <> None <->
   (0 < read_complete d + signals ReadComplete (meanwhile k))%nat) /\
  (to_int (copy_left k) = 0 ->
   (result_of (pciep_driver_file_write k count d) <> None <->
    (0 < write_complete d + signals WriteComplete (meanwhile k))%nat)).
Proof.
  intros Hpos Halloc. split.
  - destruct (file_read_run k count d Hpos Halloc) as (d1 & tr1 & _ & P & E).
    rewrite E, <- P.
    destruct (read_complete d1); cbn [result_of]; split; intros H;
      try lia; try discriminate; contradiction.
  - intros Hcopy.
    destruct (file_write_run k count d Hpos Halloc Hcopy)
      as (d1 & tr1 & _ & P & E).
    rewrite E, <- P.
    destruct (write_complete d1); cbn [result_of]; split; intros H;
      try lia; try discriminate; contradiction.
Qed.




(** A read woken by its own interrupt finds the ready bit clear when it
    returns. *)
Lemma read_woken_finds_ready_clear (k : kernel) (count : Z) (d : pciep_driver_data) :
  0 < count ->
  IS_ERR_OR_NULL (fst (alloc_result k)) = false ->
  meanwhile k = [IrqRead] ->
  exists r d' tr,
    pciep_driver_file_read k count d = Returned r d' tr /\
    Z.testbit (ioread32 (regs d') PCIEP_READ_BUFFER_READY) 0 = false.
Proof.
  intros Hpos Hok Hirq.
  unfold pciep_driver_file_read.
  destruct (Z.leb_spec count 0) as [Hle | _]; [lia |].
  run. rewrite Hok. run.
  unfold wait_for_completion. rewrite Hirq.
  cbn [run_asyncs run_async]. unfold xilinx_pciep_read_irq_handler. run.
  eexists; eexists; eexists. split; [reflexivity |].
  cbn [regs set_read_complete set_regs].
  rewrite ioread32_iowrite32_same.
  unfold SET_BUFFER_RDY. bitwise. cbn. rewrite !andb_false_r. reflexivity.
Qed.

(** ** Release *)

(** What release does, in full. *)
Lemma release_run (d : pciep_driver_data) :
  let old := ioread32 (regs d) PCIEP_READ_BUFFER_READY in
  pciep_driver_file_release d =
    Returned 0
      (set_regs
         (iowrite32 0
            (iowrite32 0
               (iowrite32 (Z.land old 0xFFFF)
                  (iowrite32 0 (regs d) PCIEP_READ_BUFFER_OFFSET)
                  PCIEP_READ_BUFFER_READY)
               PCIEP_READ_BUFFER_SIZE)
            PCIEP_WRITE_BUFFER_SIZE)
         (set_is_open false d))
      [EvRegWrite PCIEP_READ_BUFFER_OFFSET 0;
       EvRegRead PCIEP_READ_BUFFER_READY old;
       EvRegWrite PCIEP_READ_BUFFER_READY (Z.land old 0xFFFF);
       EvRegWrite PCIEP_READ_BUFFER_SIZE 0;
       EvRegWrite PCIEP_WRITE_BUFFER_SIZE 0].
Proof.
  intros old. unfold pciep_driver_file_release. run.
  rewrite (ioread32_iowrite32_other _ _ PCIEP_READ_BUFFER_OFFSET
             PCIEP_READ_BUFFER_READY) by discriminate.
  unfold old, ioread32, READ_BUF_HIGH_OFFSET.
  rewrite !clear_high_half.
  assert (Hfit : to_u32 (Z.land (to_u32 (regs d PCIEP_READ_BUFFER_READY)) 0xFFFF)
                 = Z.land (to_u32 (regs d PCIEP_READ_BUFFER_READY)) 0xFFFF).
  { by_bits. bits_done. }
  rewrite !Hfit. reflexivity.
Qed.

(** Release closes the read position: it zeroes the read byte-offset
    register, the high half of the read-ready register and both byte-count
    registers, keeps the low half of the read-ready register, so the ready
    flag, and marks the device closed.  Every other register, the write
    byte-offset and write-ready registers among them, the completions and
    the buffer fields are as before. *)
Theorem release_resets_read_position :
  forall (d : pciep_driver_data),
    let old := ioread32 (regs d) PCIEP_READ_BUFFER_READY in
    let d' := data_of (pciep_driver_file_release d) in
    result_of (pciep_driver_file_release d) = Some 0 /\
    is_open d' = false /\
    ioread32 (regs d') PCIEP_READ_BUFFER_OFFSET = 0 /\
    ioread32 (regs d') PCIEP_READ_BUFFER_READY = Z.land old 0xFFFF /\
    Z.testbit (ioread32 (regs d') PCIEP_READ_BUFFER_READY) 0 = Z.testbit old 0 /\
    offset_held (regs d') PCIEP_READ_BUFFER_OFFSET PCIEP_READ_BUFFER_READY = 0 /\
    ioread32 (regs d') PCIEP_READ_BUFFER_SIZE = 0 /\
    ioread32 (regs d') PCIEP_WRITE_BUFFER_SIZE = 0 /\
    (forall reg,
       reg <> PCIEP_READ_BUFFER_OFFSET -> reg <> PCIEP_READ_BUFFER_READY ->
       reg <> PCIEP_READ_BUFFER_SIZE -> reg <> PCIEP_WRITE_BUFFER_SIZE ->
       regs d' reg = regs d reg) /\
    same_buffers d d' /\
    read_complete d' = read_complete d /\
    write_complete d' = write_complete d.
Proof.
  intros d old d'. subst d'. rewrite release_run. fold old. run.
  assert (Hready :
            ioread32
              (iowrite32 0
                 (iowrite32 0
                    (iowrite32 (Z.land old 0xFFFF)
                       (iowrite32 0 (regs d) PCIEP_READ_BUFFER_OFFSET)
                       PCIEP_READ_BUFFER_READY)
                    PCIEP_READ_BUFFER_SIZE)
                 PCIEP_WRITE_BUFFER_SIZE) PCIEP_READ_BUFFER_READY =
            Z.land old 0xFFFF).
  { rewrite !(ioread32_iowrite32_other _ _ _ PCIEP_READ_BUFFER_READY)
      by discriminate.
    rewrite ioread32_iowrite32_same. unfold old, ioread32.
    by_bits. bits_done. }
  split; [reflexivity |]. split; [reflexivity |].
  split; [reflexivity |]. split; [exact Hready |].
  split.
  { rewrite Hready. bitwise. change (0 <? 16) with true. apply andb_true_r. }
  split.
  { unfold offset_held. rewrite Hready.
    replace (ioread32 _ PCIEP_READ_BUFFER_OFFSET) with 0 by reflexivity.
    replace (Z.shiftr (Z.land old 0xFFFF) 16) with 0; [reflexivity |].
    symmetry. by_bits. rewrite Z.bits_0. bits_done. }
  split; [reflexivity |]. split; [reflexivity |].
  split.
  { intros reg H1 H2 H3 H4. rewrite !iowrite32_other by assumption.
    reflexivity. }
  repeat split.
Qed.

(** Release on a device positioned beyond 4 GiB with a transfer announced,
    seen at a register it clears and at one it leaves alone. *)
Lemma release_resets_read_position_witness :
  let d :=
    fresh_data (fun reg =>
                  if reg =? PCIEP_READ_BUFFER_READY then 0x00070001
                  else if reg =? PCIEP_WRITE_BUFFER_OFFSET then 0x2000
                  else 0x55) in
  let d' := data_of (pciep_driver_file_release d) in
  ioread32 (regs d') PCIEP_READ_BUFFER_READY = 1 /\
  PCIEP_WRITE_BUFFER_OFFSET <> PCIEP_READ_BUFFER_OFFSET /\
  PCIEP_WRITE_BUFFER_OFFSET <> PCIEP_READ_BUFFER_READY /\
  PCIEP_WRITE_BUFFER_OFFSET <> PCIEP_READ_BUFFER_SIZE /\
  PCIEP_WRITE_BUFFER_OFFSET <> PCIEP_WRITE_BUFFER_SIZE /\
  regs d' PCIEP_WRITE_BUFFER_OFFSET = regs d PCIEP_WRITE_BUFFER_OFFSET.
Proof.
  intros d d'.
  destruct (release_resets_read_position d)
    as (_ & _ & _ & Hready & _ & _ & _ & _ & Hframe & _).
  assert (H1 : PCIEP_WRITE_BUFFER_OFFSET <> PCIEP_READ_BUFFER_OFFSET)
    by discriminate.
  assert (H2 : PCIEP_WRITE_BUFFER_OFFSET <> PCIEP_READ_BUFFER_READY)
    by discriminate.
  assert (H3 : PCIEP_WRITE_BUFFER_OFFSET <> PCIEP_READ_BUFFER_SIZE)
    by discriminate.
  assert (H4 : PCIEP_WRITE_BUFFER_OFFSET <> PCIEP_WRITE_BUFFER_SIZE)
    by discriminate.
  exact (conj Hready
           (conj H1 (conj H2 (conj H3 (conj H4 (Hframe _ H1 H2 H3 H4)))))).
Defined.

(** Release forgets the read position: after a positional seek or a
    set-read-offset of any value, release leaves the register file it would
    have left without them. *)
Theorem release_undoes_seek :
  forall (offset : Z) (k : kernel) (d : pciep_driver_data) (reg : Z),
    let closed := regs (data_of (pciep_driver_file_release d)) in
    regs (data_of (pciep_driver_file_release
                     (data_of (pciep_driver_file_lseek offset d)))) reg =
      closed reg /\
    regs (data_of (pciep_driver_file_release
                     (data_of (pciep_driver_file_ioctl k SET_READ_OFFSET d))))
      reg = closed reg.
Proof.
  intros offset k d reg closed. subst closed.
  rewrite lseek_run, set_read_offset_run. run.
  rewrite !release_run. run.
  rewrite !ioread32_iowrite32_same.
  unfold ioread32.
  rewrite !packed_ready_fits, !packed_ready_low.
  unfold iowrite32.
  destruct (reg =? PCIEP_WRITE_BUFFER_SIZE); [split; reflexivity |].
  destruct (reg =? PCIEP_READ_BUFFER_SIZE); [split; reflexivity |].
  destruct (reg =? PCIEP_READ_BUFFER_READY); [split; reflexivity |].
  destruct (reg =? PCIEP_READ_BUFFER_OFFSET); split; reflexivity.
Qed.

(** ** Byte offsets *)

Lemma ioctl_set_write_offset (k : kernel) :
  pciep_driver_file_ioctl k SET_WRITE_OFFSET =
    (left <- copy_from_user k ;;
     let value1 := copied_u64 k in
     reg_write PCIEP_WRITE_BUFFER_OFFSET value1 ;;
     value <- reg_read PCIEP_WRITE_BUFFER_READY ;;
     let value := to_u32 (Z.land value (Z.lnot WRITE_BUF_HIGH_OFFSET)) in
     let value :=
       to_u32 (Z.lor value (Z.land (Z.shiftr value1 16) WRITE_BUF_HIGH_OFFSET)) in
     reg_write PCIEP_WRITE_BUFFER_READY value ;;
     ret (to_int left)).
Proof. reflexivity. Qed.

(** What set-write-offset does, in full. *)
Lemma set_write_offset_run (k : kernel) (d : pciep_driver_data) :
  let o := copied_u64 k in
  let old := ioread32 (regs d) PCIEP_WRITE_BUFFER_READY in
  pciep_driver_file_ioctl k SET_WRITE_OFFSET d =
    Returned (to_int (copy_left k))
      (set_regs (iowrite32 (packed_ready old o)
                   (iowrite32 o (regs d) PCIEP_WRITE_BUFFER_OFFSET)
                   PCIEP_WRITE_BUFFER_READY) d)
      [EvCopyFromUser (copy_left k);
       EvRegWrite PCIEP_WRITE_BUFFER_OFFSET (to_u32 o);
       EvRegRead PCIEP_WRITE_BUFFER_READY old;
       EvRegWrite PCIEP_WRITE_BUFFER_READY (packed_ready old o)].
Proof.
  intros o old. rewrite ioctl_set_write_offset. run.
  rewrite (ioread32_iowrite32_other _ _ PCIEP_WRITE_BUFFER_OFFSET
             PCIEP_WRITE_BUFFER_READY) by discriminate.
  fold o. unfold old, ioread32, WRITE_BUF_HIGH_OFFSET.
  rewrite !clear_high_half.
  fold (packed_ready (to_u32 (regs d PCIEP_WRITE_BUFFER_READY)) o).
  rewrite !packed_ready_fits. reflexivity.
Qed.

(** Set-write-offset writes the registers from what the copy from the
    caller left in [value1], and returns what [copy_from_user] returned,
    whether or not the copy succeeded.  The low 32 bits of [value1] go to the
    write byte-offset register and its bits [32:48) to the high half of the
    write-ready register; the low half of that register, so the ready flag,
    and every other register stay as they were.  After a full copy [value1]
    is the caller's 64-bit value; after a copy that left all eight bytes
    behind it is zero, so that both the byte-offset register and the high
    half read zero. *)
Theorem set_write_offset_registers :
  forall (k : kernel) (d : pciep_driver_data),
    let value1 := copied_u64 k in
    let old := ioread32 (regs d) PCIEP_WRITE_BUFFER_READY in
    let r' := regs (data_of (pciep_driver_file_ioctl k SET_WRITE_OFFSET d)) in
    result_of (pciep_driver_file_ioctl k SET_WRITE_OFFSET d) =
      Some (to_int (copy_left k)) /\
    ioread32 r' PCIEP_WRITE_BUFFER_OFFSET = to_u32 value1 /\
    Z.shiftr (ioread32 r' PCIEP_WRITE_BUFFER_READY) 16 =
      Z.land (Z.shiftr value1 32) 0xFFFF /\
    Z.land (ioread32 r' PCIEP_WRITE_BUFFER_READY) 0xFFFF = Z.land old 0xFFFF /\
    Z.testbit (ioread32 r' PCIEP_WRITE_BUFFER_READY) 0 = Z.testbit old 0 /\
    (forall reg,
       reg <> PCIEP_WRITE_BUFFER_OFFSET -> reg <> PCIEP_WRITE_BUFFER_READY ->
       r' reg = regs d reg) /\
    (copy_left k = 0 ->
     ioread32 r' PCIEP_WRITE_BUFFER_OFFSET = to_u32 (user_arg k) /\
     Z.shiftr (ioread32 r' PCIEP_WRITE_BUFFER_READY) 16 =
       Z.land (Z.shiftr (to_u64 (user_arg k)) 32) 0xFFFF) /\
    (copy_left k = 8 ->
     ioread32 r' PCIEP_WRITE_BUFFER_OFFSET = 0 /\
     Z.shiftr (ioread32 r' PCIEP_WRITE_BUFFER_READY) 16 = 0).
Proof.
  intros k d value1 old r'. subst r'.
  rewrite set_write_offset_run. fold value1 old. run.
  rewrite ioread32_iowrite32_same.
  rewrite (ioread32_iowrite32_other _ _ PCIEP_WRITE_BUFFER_READY
             PCIEP_WRITE_BUFFER_OFFSET) by discriminate.
  rewrite ioread32_iowrite32_same.
  unfold old, ioread32.
  rewrite packed_ready_fits, packed_ready_high, packed_ready_low,
    packed_ready_bit0.
  split; [reflexivity |]. split; [reflexivity |]. split; [reflexivity |].
  split; [reflexivity |]. split; [reflexivity |].
  split; [| split].
  - intros reg H1 H2. rewrite !iowrite32_other by assumption. reflexivity.
  - intros Hall. unfold value1. rewrite (copied_u64_all k Hall).
    rewrite to_u32_to_u64. split; reflexivity.
  - intros Hnone. unfold value1. rewrite (copied_u64_none k) by lia.
    split; reflexivity.
Qed.

(** Set-write-offset beyond 4 GiB: after a full copy, and after a copy that
    failed altogether, which zeroes the offset held so far; seen also at the
    read byte-offset register, which neither changes. *)
Lemma set_write_offset_registers_witness :
  let good := mk_kernel (0, 0) 0 0x300001000 [] in
  let bad := mk_kernel (0, 0) 8 0x300001000 [] in
  let d := fresh_data (fun _ => 0x00050009) in
  let r_good := regs (data_of (pciep_driver_file_ioctl good SET_WRITE_OFFSET d)) in
  let r_bad := regs (data_of (pciep_driver_file_ioctl bad SET_WRITE_OFFSET d)) in
  (copy_left good = 0 /\
   result_of (pciep_driver_file_ioctl good SET_WRITE_OFFSET d) = Some 0 /\
   ioread32 r_good PCIEP_WRITE_BUFFER_OFFSET = 0x1000 /\
   Z.shiftr (ioread32 r_good PCIEP_WRITE_BUFFER_READY) 16 = 3) /\
  (copy_left bad = 8 /\
   result_of (pciep_driver_file_ioctl bad SET_WRITE_OFFSET d) = Some 8 /\
   ioread32 r_bad PCIEP_WRITE_BUFFER_OFFSET = 0 /\
   Z.shiftr (ioread32 r_bad PCIEP_WRITE_BUFFER_READY) 16 = 0 /\
   Z.land (ioread32 r_bad PCIEP_WRITE_BUFFER_READY) 0xFFFF = 9) /\
  (PCIEP_READ_BUFFER_OFFSET <> PCIEP_WRITE_BUFFER_OFFSET /\
   PCIEP_READ_BUFFER_OFFSET <> PCIEP_WRITE_BUFFER_READY /\
   r_bad PCIEP_READ_BUFFER_OFFSET = regs d PCIEP_READ_BUFFER_OFFSET).
Proof.
  intros good bad d r_good r_bad.
  assert (Hg : copy_left good = 0) by reflexivity.
  assert (Hb : copy_left bad = 8) by reflexivity.
  assert (H1 : PCIEP_READ_BUFFER_OFFSET <> PCIEP_WRITE_BUFFER_OFFSET)
    by discriminate.
  assert (H2 : PCIEP_READ_BUFFER_OFFSET <> PCIEP_WRITE_BUFFER_READY)
    by discriminate.
  destruct (set_write_offset_registers good d)
    as (Gres & _ & _ & _ & _ & _ & Gall & _).
  destruct (set_write_offset_registers bad d)
    as (Bres & _ & _ & Blow & _ & Bframe & _ & Bnone).
  destruct (Gall Hg) as (G1 & G2). destruct (Bnone Hb) as (B1 & B2).
  exact (conj (conj Hg (conj Gres (conj G1 G2)))
           (conj (conj Hb (conj Bres (conj B1 (conj B2 Blow))))
              (conj H1 (conj H2 (Bframe _ H1 H2))))).
Defined.

(** The two registers of a direction hold the low 48 bits of an offset. *)
Lemma offset_48_bits (old o : Z) :
  Z.lor (to_u32 o) (Z.shiftl (Z.shiftr (packed_ready (to_u32 old) o) 16) 32) =
  o mod 2 ^ 48.
Proof.
  rewrite packed_ready_high.
  apply Z.bits_inj'. intros i Hi.
  rewrite Z.testbit_mod_pow2 by lia.
  rewrite Z.lor_spec, testbit_to_u32, Z.shiftl_spec by exact Hi.
  destruct (Z.lt_ge_cases i 32) as [Hlow | Hhigh].
  - rewrite (Z.testbit_neg_r _ (i - 32)) by lia. bits_done.
  - bitwise. bits_done.
Qed.

(** Round trip of a byte offset through the registers: after a
    set-read-offset or a set-write-offset whose copy from the caller was
    complete, and after a positional seek, the direction's byte-offset
    register together with the high half of its ready register holds the
    offset modulo [2 ^ 48]; the bits from 48 up are dropped. *)
Theorem offset_registers_hold_48_bits :
  forall (offset : Z) (k : kernel) (d : pciep_driver_data),
    (copy_left k = 0 ->
     offset_held (regs (data_of (pciep_driver_file_ioctl k SET_READ_OFFSET d)))
       PCIEP_READ_BUFFER_OFFSET PCIEP_READ_BUFFER_READY =
       user_arg k mod 2 ^ 48 /\
     offset_held (regs (data_of (pciep_driver_file_ioctl k SET_WRITE_OFFSET d)))
       PCIEP_WRITE_BUFFER_OFFSET PCIEP_WRITE_BUFFER_READY =
       user_arg k mod 2 ^ 48) /\
    offset_held (regs (data_of (pciep_driver_file_lseek offset d)))
      PCIEP_READ_BUFFER_OFFSET PCIEP_READ_BUFFER_READY =
      offset mod 2 ^ 48.
Proof.
  intros offset k d.
  assert (Hu64 : forall x, to_u64 x mod 2 ^ 48 = x mod 2 ^ 48).
  { intros x. apply Z.bits_inj'. intros i Hi.
    rewrite !Z.testbit_mod_pow2 by lia. rewrite testbit_to_u64. bits_done. }
  rewrite set_read_offset_run, set_write_offset_run, lseek_run.
  unfold offset_held. run.
  rewrite !ioread32_iowrite32_same.
  rewrite !(ioread32_iowrite32_other _ _ PCIEP_READ_BUFFER_READY
              PCIEP_READ_BUFFER_OFFSET) by discriminate.
  rewrite !(ioread32_iowrite32_other _ _ PCIEP_WRITE_BUFFER_READY
              PCIEP_WRITE_BUFFER_OFFSET) by discriminate.
  rewrite !ioread32_iowrite32_same.
  unfold ioread32. rewrite !packed_ready_fits, !offset_48_bits.
  split; [| reflexivity].
  intros Hcopy. rewrite (copied_u64_all k Hcopy), Hu64. split; reflexivity.
Qed.

(** An offset of more than 48 bits set for both directions on registers
    that hold the ready flags and older offset bits. *)
Lemma offset_registers_hold_48_bits_witness :
  let k := kernel_with (0, 0) 0x1234_5678_9abc_def0 [] in
  let d := fresh_data (fun _ => 0x00050001) in
  copy_left k = 0 /\
  offset_held (regs (data_of (pciep_driver_file_ioctl k SET_READ_OFFSET d)))
    PCIEP_READ_BUFFER_OFFSET PCIEP_READ_BUFFER_READY =
    user_arg k mod 2 ^ 48 /\
  offset_held (regs (data_of (pciep_driver_file_ioctl k SET_WRITE_OFFSET d)))
    PCIEP_WRITE_BUFFER_OFFSET PCIEP_WRITE_BUFFER_READY =
    user_arg k mod 2 ^ 48.
Proof.
  intros k d.
  assert (H0 : copy_left k = 0) by reflexivity.
  exact (conj H0 (proj1 (offset_registers_hold_48_bits 0 k d) H0)).
Defined.

(** The two directions' offsets do not interfere: set-read-offset and
    set-write-offset, done in either order, leave the same register file. *)
Theorem set_offsets_commute :
  forall (kr kw : kernel) (d : pciep_driver_data) (reg : Z),
    regs (data_of (pciep_driver_file_ioctl kw SET_WRITE_OFFSET
                     (data_of (pciep_driver_file_ioctl kr SET_READ_OFFSET d))))
      reg =
    regs (data_of (pciep_driver_file_ioctl kr SET_READ_OFFSET
                     (data_of (pciep_driver_file_ioctl kw SET_WRITE_OFFSET d))))
      reg.
Proof.
  intros kr kw d reg.
  rewrite (set_read_offset_run kr d), (set_write_offset_run kw d). run.
  rewrite set_write_offset_run, set_read_offset_run. run.
  rewrite !(ioread32_iowrite32_other _ _ _ PCIEP_WRITE_BUFFER_READY)
    by discriminate.
  rewrite !(ioread32_iowrite32_other _ _ _ PCIEP_READ_BUFFER_READY)
    by discriminate.
  unfold iowrite32.
  destruct (Z.eqb_spec reg PCIEP_WRITE_BUFFER_READY) as [-> | _];
    [reflexivity |].
  destruct (Z.eqb_spec reg PCIEP_WRITE_BUFFER_OFFSET) as [-> | _];
    [reflexivity |].
  destruct (reg =? PCIEP_READ_BUFFER_READY); [reflexivity |].
  destruct (reg =? PCIEP_READ_BUFFER_OFFSET); reflexivity.
Qed.

(** ** The control-request dispatcher as a whole *)

Ltac ioctl_cases cmd :=
  unfold pciep_driver_file_ioctl;
  repeat match goal with
  | |- context [if cmd =? ?c then _ else _] => destruct (Z.eqb_spec cmd c)
  end.

(** A control request never blocks and never allocates, frees, waits or
    signals: whatever the operation code, it returns, its log holds only
    register accesses and copies from or to the caller, and the buffer
    fields, the completions and the open flag are as before. *)
Theorem ioctl_always_returns :
  forall (k : kernel) (cmd : Z) (d : pciep_driver_data),
    exists r d' tr,
      pciep_driver_file_ioctl k cmd d = Returned r d' tr /\
      forallb is_ioctl_event tr = true /\
      same_buffers d d' /\
      read_complete d' = read_complete d /\
      write_complete d' = write_complete d /\
      is_open d' = is_open d.
Proof.
  intros k cmd d. ioctl_cases cmd; run;
    eexists; eexists; eexists;
    (split; [reflexivity | repeat split]).
Qed.

(** An operation code the switch has no case for, such as 4, fails with
    [-ENOTTY]: nothing is read, written or copied, and the driver data is
    untouched. *)
Theorem ioctl_unknown_command :
  forall (k : kernel) (cmd : Z) (d : pciep_driver_data),
    ~ In cmd ioctl_commands ->
    pciep_driver_file_ioctl k cmd d = Returned (- ENOTTY) d [].
Proof.
  intros k cmd d Hcmd. ioctl_cases cmd;
    try (exfalso; apply Hcmd; subst cmd; cbn; tauto).
  reflexivity.
Qed.

Lemma ioctl_unknown_command_witness :
  ~ In 4 ioctl_commands /\
  pciep_driver_file_ioctl (kernel_with (0, 0) 0 []) 4 (fresh_data (fun _ => 1)) =
    Returned (- ENOTTY) (fresh_data (fun _ => 1)) [].
Proof.
  assert (H : ~ In 4 ioctl_commands).
  { cbn. intros [E | [E | [E | [E | [E | [E | [E | [E | [E | [E | [E | [E | []]]]]]]]]]]]];
      discriminate E. }
  exact (conj H (ioctl_unknown_command _ 4 _ H)).
Defined.

(** The six get requests only read: each returns what [copy_to_user]
    returned after handing the caller exactly one value, writes no register
    and leaves the driver data as it was. *)
Theorem ioctl_get_is_read_only :
  forall (k : kernel) (cmd : Z) (d : pciep_driver_data),
    In cmd [GET_FILE_LENGTH; GET_ENC_PARAMS; GET_RESOLUTION; GET_MODE;
            GET_FPS; GET_FORMAT] ->
    let run := pciep_driver_file_ioctl k cmd d in
    result_of run = Some (to_int (copy_left k)) /\
    data_of run = d /\
    filter is_reg_write (log_of run) = [] /\
    length (delivered (log_of run)) = 1%nat.
Proof.
  intros k cmd d Hcmd run0. subst run0.
  cbn [In] in Hcmd.
  destruct Hcmd as [<- | [<- | [<- | [<- | [<- | [<- | []]]]]]];
    repeat split.
Qed.

Lemma ioctl_get_is_read_only_witness :
  let k := kernel_with (0, 0) 0 [] in
  let d := fresh_data (fun _ => 0x1234) in
  In GET_FPS [GET_FILE_LENGTH; GET_ENC_PARAMS; GET_RESOLUTION; GET_MODE;
              GET_FPS; GET_FORMAT] /\
  data_of (pciep_driver_file_ioctl k GET_FPS d) = d /\
  filter is_reg_write (log_of (pciep_driver_file_ioctl k GET_FPS d)) = [].
Proof.
  intros k d.
  assert (H : In GET_FPS [GET_FILE_LENGTH; GET_ENC_PARAMS; GET_RESOLUTION;
                          GET_MODE; GET_FPS; GET_FORMAT]).
  { cbn. tauto. }
  destruct (ioctl_get_is_read_only k GET_FPS d H) as (_ & Hd & Hw & _).
  exact (conj H (conj Hd Hw)).
Defined.

(** ** Transfer-done flags *)

Lemma ioctl_done_flag_run (k : kernel) (d : pciep_driver_data) :
  pciep_driver_file_ioctl k SET_READ_TRANSFER_DONE d =
    Returned 0 (set_regs (iowrite32 0xef (regs d) PCIEP_READ_TRANSFER_DONE) d)
      [EvRegWrite PCIEP_READ_TRANSFER_DONE 0xef] /\
  pciep_driver_file_ioctl k CLR_READ_TRANSFER_DONE d =
    Returned 0 (set_regs (iowrite32 0 (regs d) PCIEP_READ_TRANSFER_DONE) d)
      [EvRegWrite PCIEP_READ_TRANSFER_DONE 0] /\
  pciep_driver_file_ioctl k SET_WRITE_TRANSFER_DONE d =
    Returned 0 (set_regs (iowrite32 0xef (regs d) PCIEP_WRITE_TRANSFER_DONE) d)
      [EvRegWrite PCIEP_WRITE_TRANSFER_DONE 0xef] /\
  pciep_driver_file_ioctl k CLR_WRITE_TRANSFER_DONE d =
    Returned 0 (set_regs (iowrite32 0 (regs d) PCIEP_WRITE_TRANSFER_DONE) d)
      [EvRegWrite PCIEP_WRITE_TRANSFER_DONE 0].
Proof. repeat split. Qed.

(** Setting a transfer-done flag stores 0xef in the direction's
    transfer-done register, clearing it stores 0; neither reads a register
    nor copies anything from or to the caller, each returns 0, and every
    other register is as before.  A clear after a set leaves 0, a set after
    a clear leaves 0xef. *)
Theorem transfer_done_set_and_clear :
  forall (k : kernel) (d : pciep_driver_data),
    let after cmd := data_of (pciep_driver_file_ioctl k cmd d) in
    let log cmd := log_of (pciep_driver_file_ioctl k cmd d) in
    (log SET_READ_TRANSFER_DONE = [EvRegWrite PCIEP_READ_TRANSFER_DONE 0xef] /\
     log CLR_READ_TRANSFER_DONE = [EvRegWrite PCIEP_READ_TRANSFER_DONE 0] /\
     log SET_WRITE_TRANSFER_DONE = [EvRegWrite PCIEP_WRITE_TRANSFER_DONE 0xef] /\
     log CLR_WRITE_TRANSFER_DONE = [EvRegWrite PCIEP_WRITE_TRANSFER_DONE 0]) /\
    (ioread32 (regs (after SET_READ_TRANSFER_DONE)) PCIEP_READ_TRANSFER_DONE
       = 0xef /\
     ioread32 (regs (after SET_WRITE_TRANSFER_DONE)) PCIEP_WRITE_TRANSFER_DONE
       = 0xef /\
     ioread32
       (regs (data_of (pciep_driver_file_ioctl k CLR_READ_TRANSFER_DONE
                         (after SET_READ_TRANSFER_DONE))))
       PCIEP_READ_TRANSFER_DONE = 0 /\
     ioread32
       (regs (data_of (pciep_driver_file_ioctl k CLR_WRITE_TRANSFER_DONE
                         (after SET_WRITE_TRANSFER_DONE))))
       PCIEP_WRITE_TRANSFER_DONE = 0 /\
     ioread32
       (regs (data_of (pciep_driver_file_ioctl k SET_READ_TRANSFER_DONE
                         (after CLR_READ_TRANSFER_DONE))))
       PCIEP_READ_TRANSFER_DONE = 0xef) /\
    (forall reg,
       (reg <> PCIEP_READ_TRANSFER_DONE ->
        regs (after SET_READ_TRANSFER_DONE) reg = regs d reg /\
        regs (after CLR_READ_TRANSFER_DONE) reg = regs d reg) /\
       (reg <> PCIEP_WRITE_TRANSFER_DONE ->
        regs (after SET_WRITE_TRANSFER_DONE) reg = regs d reg /\
        regs (after CLR_WRITE_TRANSFER_DONE) reg = regs d reg)).
Proof.
  intros k d after log. subst after log. cbv beta.
  destruct (ioctl_done_flag_run k d) as (E1 & E2 & E3 & E4).
  rewrite E1, E2, E3, E4. run.
  split; [repeat split |].
  split.
  { destruct (ioctl_done_flag_run k
                (set_regs (iowrite32 0xef (regs d) PCIEP_READ_TRANSFER_DONE) d))
      as (_ & -> & _).
    destruct (ioctl_done_flag_run k
                (set_regs (iowrite32 0xef (regs d) PCIEP_WRITE_TRANSFER_DONE) d))
      as (_ & _ & _ & ->).
    destruct (ioctl_done_flag_run k
                (set_regs (iowrite32 0 (regs d) PCIEP_READ_TRANSFER_DONE) d))
      as (-> & _).
    run. rewrite !ioread32_iowrite32_same. repeat split. }
  intros reg. split; intros Hreg; rewrite !iowrite32_other by exact Hreg;
    split; reflexivity.
Qed.

Lemma transfer_done_set_and_clear_witness :
  let k := kernel_with (0, 0) 0 [] in
  let d := fresh_data (fun _ => 3) in
  PCIEP_READ_BUFFER_READY <> PCIEP_READ_TRANSFER_DONE /\
  PCIEP_READ_BUFFER_READY <> PCIEP_WRITE_TRANSFER_DONE /\
  (regs (data_of (pciep_driver_file_ioctl k SET_READ_TRANSFER_DONE d))
     PCIEP_READ_BUFFER_READY = regs d PCIEP_READ_BUFFER_READY /\
   regs (data_of (pciep_driver_file_ioctl k CLR_READ_TRANSFER_DONE d))
     PCIEP_READ_BUFFER_READY = regs d PCIEP_READ_BUFFER_READY) /\
  (regs (data_of (pciep_driver_file_ioctl k SET_WRITE_TRANSFER_DONE d))
     PCIEP_READ_BUFFER_READY = regs d PCIEP_READ_BUFFER_READY /\
   regs (data_of (pciep_driver_file_ioctl k CLR_WRITE_TRANSFER_DONE d))
     PCIEP_READ_BUFFER_READY = regs d PCIEP_READ_BUFFER_READY).
Proof.
  intros k d.
  destruct (transfer_done_set_and_clear k d) as (_ & _ & Hframe).
  destruct (Hframe PCIEP_READ_BUFFER_READY) as (Hr & Hw).
  assert (H1 : PCIEP_READ_BUFFER_READY <> PCIEP_READ_TRANSFER_DONE)
    by discriminate.
  assert (H2 : PCIEP_READ_BUFFER_READY <> PCIEP_WRITE_TRANSFER_DONE)
    by discriminate.
  exact (conj H1 (conj H2 (conj (Hr H1) (Hw H2)))).
Defined.

(** The host-done interrupt handler acknowledges the interrupt first, then
    zeroes both transfer-done registers, whatever they held.  It changes no
    other register and signals neither completion, and leaves the register
    file that clearing both flags by ioctl leaves. *)
Theorem host_done_clears_both_flags :
  forall (k : kernel) (d : pciep_driver_data),
    let d' := data_of (xilinx_pciep_host_done_irq_handler d) in
    xilinx_pciep_host_done_irq_handler d =
      Returned IRQ_HANDLED d'
        [EvRegRead PCIRC_HOST_DONE_INTR (ioread32 (regs d) PCIRC_HOST_DONE_INTR);
         EvRegWrite PCIEP_READ_TRANSFER_DONE 0;
         EvRegWrite PCIEP_WRITE_TRANSFER_DONE 0] /\
    ioread32 (regs d') PCIEP_READ_TRANSFER_DONE = 0 /\
    ioread32 (regs d') PCIEP_WRITE_TRANSFER_DONE = 0 /\
    read_complete d' = read_complete d /\
    write_complete d' = write_complete d /\
    (forall reg,
       reg <> PCIEP_READ_TRANSFER_DONE -> reg <> PCIEP_WRITE_TRANSFER_DONE ->
       regs d' reg = regs d reg) /\
    (forall reg,
       regs d' reg =
       regs (data_of (pciep_driver_file_ioctl k CLR_WRITE_TRANSFER_DONE
                        (data_of (pciep_driver_file_ioctl k
                                    CLR_READ_TRANSFER_DONE d)))) reg).
Proof.
  intros k d d'. subst d'.
  unfold xilinx_pciep_host_done_irq_handler. run.
  split; [reflexivity |]. split; [reflexivity |]. split; [reflexivity |].
  split; [reflexivity |]. split; [reflexivity |].
  split.
  - intros reg H1 H2. rewrite !iowrite32_other by assumption. reflexivity.
  - intros reg. reflexivity.
Qed.

Lemma host_done_clears_both_flags_witness :
  let k := kernel_with (0, 0) 0 [] in
  let d := fresh_data (fun _ => 0xef) in
  let d' := data_of (xilinx_pciep_host_done_irq_handler d) in
  ioread32 (regs d') PCIEP_READ_TRANSFER_DONE = 0 /\
  PCIEP_READ_BUFFER_READY <> PCIEP_READ_TRANSFER_DONE /\
  PCIEP_READ_BUFFER_READY <> PCIEP_WRITE_TRANSFER_DONE /\
  regs d' PCIEP_READ_BUFFER_READY = regs d PCIEP_READ_BUFFER_READY.
Proof.
  intros k d d'.
  destruct (host_done_clears_both_flags k d) as (_ & Hr & _ & _ & _ & Hframe & _).
  assert (H1 : PCIEP_READ_BUFFER_READY <> PCIEP_READ_TRANSFER_DONE)
    by discriminate.
  assert (H2 : PCIEP_READ_BUFFER_READY <> PCIEP_WRITE_TRANSFER_DONE)
    by discriminate.
  exact (conj Hr (conj H1 (conj H2 (Hframe _ H1 H2)))).
Defined.

Lemma ioread32_range_aux (r : regfile) (reg : Z) : 0 <= ioread32 r reg < 2 ^ 32.
Proof. unfold ioread32, to_u32. apply Z.mod_pos_bound. reflexivity. Qed.

(** ** Decoding the configuration words *)

(** Computes the powers of two with a literal exponent. *)
Ltac pows :=
  repeat match goal with
  | |- context [2 ^ ?n] =>
      let v := eval vm_compute in (2 ^ n) in change (2 ^ n) with v
  | H : context [2 ^ ?n] |- _ =>
      let v := eval vm_compute in (2 ^ n) in change (2 ^ n) with v in H
  end.

(** A field cut by a mask of [n] low ones, [n <= 32], is the shifted word
    modulo [2 ^ n]. *)
Lemma field_ones (word shift n : Z) :
  0 <= shift -> 0 <= n <= 32 ->
  field word shift (Z.ones n) = (word / 2 ^ shift) mod 2 ^ n.
Proof.
  intros Hs Hn. unfold field.
  rewrite Z.land_ones by lia. rewrite Z.shiftr_div_pow2 by exact Hs.
  unfold to_u32. apply Z.mod_small.
  assert (H1 : 0 < 2 ^ n) by (apply Z.pow_pos_nonneg; lia).
  assert (H2 : 2 ^ n <= 2 ^ 32) by (apply Z.pow_le_mono_r; lia).
  pose proof (Z.mod_pos_bound (word / 2 ^ shift) (2 ^ n) H1). lia.
Qed.

Lemma field_mask (word shift mask n : Z) :
  mask = Z.ones n -> 0 <= shift -> 0 <= n <= 32 ->
  field word shift mask = (word / 2 ^ shift) mod 2 ^ n.
Proof. intros ->. apply field_ones. Qed.

(** Rewrites every field of the goal cut by a mask of low ones. *)
Ltac fields :=
  repeat match goal with
  | |- context [field ?w ?s ?m] =>
      let n := eval vm_compute in (Z.log2 (m + 1)) in
      rewrite (field_mask w s m n eq_refl ltac:(lia) ltac:(lia))
  end.

(** A one-bit field stored in a [bool] is that bit of the word. *)
Lemma flag_bit (word shift : Z) :
  0 <= shift -> flag word shift 1 = Z.testbit word shift.
Proof.
  intros Hs. unfold flag. change 1 with (Z.ones 1) at 1.
  rewrite Z.land_ones by lia. rewrite Z.shiftr_div_pow2 by exact Hs.
  change (2 ^ 1) with 2. rewrite <- Z.testbit_spec' by exact Hs.
  destruct (Z.testbit word shift); reflexivity.
Qed.

Lemma ioctl_usecase_run (k : kernel) (d : pciep_driver_data) :
  let w := ioread32 (regs d) PCIRC_USECASE_MODE in
  pciep_driver_file_ioctl k GET_MODE d =
    Returned (to_int (copy_left k)) d
      [EvRegRead PCIRC_USECASE_MODE w;
       EvCopyToUser (UserU32 (field w USE_CASE_MODE_SHIFT USE_CASE_MODE_MASK))
         (copy_left k)] /\
  pciep_driver_file_ioctl k GET_FORMAT d =
    Returned (to_int (copy_left k)) d
      [EvRegRead PCIRC_USECASE_MODE w;
       EvCopyToUser (UserU32 (field w FORMAT_SHIFT FORMAT_MASK)) (copy_left k)] /\
  pciep_driver_file_ioctl k GET_FPS d =
    Returned (to_int (copy_left k)) d
      [EvRegRead PCIRC_USECASE_MODE w;
       EvCopyToUser (UserU32 (field w FPS_SHIFT FPS_MASK)) (copy_left k)].
Proof. repeat split. Qed.

(** Get-mode, get-format and get-fps all decode the use-case word at 0x58:
    the mode is its bits [0:2), the format bits [2:5), the frame rate bits
    [5:15).  The three fields do not overlap and together give back the low
    15 bits of the word; bits 15 and up reach no caller. *)
Theorem usecase_word_fields :
  forall (k : kernel) (d : pciep_driver_data),
    let w := ioread32 (regs d) PCIRC_USECASE_MODE in
    let mode := w mod 4 in
    let format := (w / 4) mod 8 in
    let fps := (w / 32) mod 1024 in
    delivered (log_of (pciep_driver_file_ioctl k GET_MODE d)) = [UserU32 mode] /\
    delivered (log_of (pciep_driver_file_ioctl k GET_FORMAT d)) =
      [UserU32 format] /\
    delivered (log_of (pciep_driver_file_ioctl k GET_FPS d)) = [UserU32 fps] /\
    mode + 4 * format + 32 * fps = w mod 2 ^ 15.
Proof.
  intros k d w mode format fps.
  destruct (ioctl_usecase_run k d) as (E1 & E2 & E3).
  rewrite E1, E2, E3. fold w. cbn [log_of delivered].
  unfold USE_CASE_MODE_SHIFT, USE_CASE_MODE_MASK, FORMAT_SHIFT, FORMAT_MASK,
    FPS_SHIFT, FPS_MASK.
  fields. pows. rewrite Z.div_1_r.
  fold mode format fps.
  repeat split.
  subst mode format fps.
  Z.to_euclidean_division_equations. lia.
Qed.

(** One step of cutting a word into fields: the part above bit position
    [a] splits into the field of width [b] and the part above [c = a * b]. *)
Lemma div_step (w a b c : Z) :
  0 < a -> 0 < b -> c = a * b -> w / a = b * (w / c) + (w / a) mod b.
Proof.
  intros Ha Hb ->. rewrite <- Z.div_div by lia. apply Z.div_mod. lia.
Qed.

(** Turns the quotients and remainders of the goal into variables. *)
Ltac hide_divs :=
  repeat match goal with
  | |- context [?a mod ?b] => generalize (a mod b); intro
  | |- context [?a / ?b] => generalize (a / b); intro
  end.

(** The six fields of encoding-parameter word 1 give back the word but for
    its bits 3 and 31. *)
Lemma enc_word1_fields (w : Z) :
  w mod 2 + 2 * ((w / 2) mod 2) + 4 * ((w / 4) mod 2) +
  16 * ((w / 16) mod 65536) + 1048576 * ((w / 1048576) mod 1024) +
  1073741824 * ((w / 1073741824) mod 2) =
  w - 8 * ((w / 8) mod 2) - 2147483648 * (w / 2147483648).
Proof.
  pose proof (Z.div_mod w 2 ltac:(lia)) as E0.
  pose proof (div_step w 2 2 4 ltac:(lia) ltac:(lia) eq_refl) as E1.
  pose proof (div_step w 4 2 8 ltac:(lia) ltac:(lia) eq_refl) as E2.
  pose proof (div_step w 8 2 16 ltac:(lia) ltac:(lia) eq_refl) as E3.
  pose proof (div_step w 16 65536 1048576 ltac:(lia) ltac:(lia) eq_refl) as E4.
  pose proof (div_step w 1048576 1024 1073741824 ltac:(lia) ltac:(lia) eq_refl)
    as E5.
  pose proof (div_step w 1073741824 2 2147483648 ltac:(lia) ltac:(lia) eq_refl)
    as E6.
  revert E0 E1 E2 E3 E4 E5 E6. hide_divs. lia.
Qed.

(** The nine fields of encoding-parameter word 2, a 32-bit word, give back
    the word but for its bit 2. *)
Lemma enc_word2_fields (w : Z) :
  0 <= w < 4294967296 ->
  w mod 4 + 8 * ((w / 8) mod 64) + 512 * ((w / 512) mod 4) +
  2048 * ((w / 2048) mod 4) + 8192 * ((w / 8192) mod 4) +
  32768 * ((w / 32768) mod 8) + 262144 * ((w / 262144) mod 4) +
  1048576 * ((w / 1048576) mod 64) + 67108864 * ((w / 67108864) mod 64) =
  w - 4 * ((w / 4) mod 2).
Proof.
  intros H.
  pose proof (Z.div_mod w 4 ltac:(lia)) as E0.
  pose proof (div_step w 4 2 8 ltac:(lia) ltac:(lia) eq_refl) as E1.
  pose proof (div_step w 8 64 512 ltac:(lia) ltac:(lia) eq_refl) as E2.
  pose proof (div_step w 512 4 2048 ltac:(lia) ltac:(lia) eq_refl) as E3.
  pose proof (div_step w 2048 4 8192 ltac:(lia) ltac:(lia) eq_refl) as E4.
  pose proof (div_step w 8192 4 32768 ltac:(lia) ltac:(lia) eq_refl) as E5.
  pose proof (div_step w 32768 8 262144 ltac:(lia) ltac:(lia) eq_refl) as E6.
  pose proof (div_step w 262144 4 1048576 ltac:(lia) ltac:(lia) eq_refl) as E7.
  pose proof (div_step w 1048576 64 67108864 ltac:(lia) ltac:(lia) eq_refl)
    as E8.
  pose proof (div_step w 67108864 64 4294967296 ltac:(lia) ltac:(lia) eq_refl)
    as E9.
  assert (E10 : w / 4294967296 = 0) by (apply Z.div_small; lia).
  rewrite E10 in E9. clear E10 H.
  revert E0 E1 E2 E3 E4 E5 E6 E7 E8 E9. hide_divs. lia.
Qed.

Lemma ioctl_get_enc_params (k : kernel) (d : pciep_driver_data) :
  let value := ioread32 (regs d) PCIRC_ENC_PARAMS_1 in
  let value1 := ioread32 (regs d) PCIRC_ENC_PARAMS_2 in
  let value2 := ioread32 (regs d) PCIRC_ENC_PARAMS_3 in
  let value3 := ioread32 (regs d) PCIRC_ENC_PARAMS_4 in
  let value4 := ioread32 (regs d) PCIRC_ENC_PARAMS_5 in
  pciep_driver_file_ioctl k GET_ENC_PARAMS d =
    Returned (to_int (copy_left k)) d
      [EvRegRead PCIRC_ENC_PARAMS_1 value;
       EvRegRead PCIRC_ENC_PARAMS_2 value1;
       EvRegRead PCIRC_ENC_PARAMS_3 value2;
       EvRegRead PCIRC_ENC_PARAMS_4 value3;
       EvRegRead PCIRC_ENC_PARAMS_5 value4;
       EvCopyToUser
         (UserEncParams
            {| enable_l2Cache := flag value L2CACHE_SHIFT L2CACHE_MASK;
               low_bandwidth := flag value LOW_BANDWIDTH_SHIFT LOW_BANDWIDTH_MASK;
               filler_data := flag value FILLER_DATA_SHIFT FILLER_DATA_MASK;
               bitrate := field value BITRATE_SHIFT BITRATE_MASK;
               gop_len := field value GOP_LENGTH_SHIFT GOP_LENGTH_MASK;
               max_picture_size :=
                 flag value MAX_PICTURE_SIZE_SHIFT MAX_PICTURE_SIZE_MASK;
               b_frame := field value1 B_FRAME_SHIFT B_FRAME_MASK;
               slice := field value1 SLICE_SHIFT SLICE_MASK;
               qp_mode := field value1 QP_MODE_SHIFT QP_MODE_MASK;
               rc_mode := field value1 RC_MODE_SHIFT RC_MODE_MASK;
               enc_type := field value1 ENC_TYPE_SHIFT ENC_TYPE_MASK;
               gop_mode := field value1 GOP_MODE_SHIFT GOP_MODE_MASK;
               profile := field value1 PROFILE_SHIFT PROFILE_MASK;
               min_qp := field value1 MIN_QP_SHIFT MIN_QP_MASK;
               max_qp := field value1 MAX_QP_SHIFT MAX_QP_MASK;
               cpb_size := field value2 CPB_SIZE_SHIFT CPB_SIZE_MASK;
               initial_delay :=
                 field value3 INITIAL_DELAY_SHIFT INITIAL_DELAY_MASK;
               periodicity_idr :=
                 field value4 PERIODICITY_IDR_SHIFT PERIODICITY_IDR_MASK |})
         (copy_left k)].
Proof. reflexivity. Qed.

(** Get-encoding-parameters reads the five parameter words in the order
    0x4c, 0x50, 0x5c, 0x60, 0x64 and hands the caller one record, each field
    of which is a run of bits of one word: of word 1, bit 0, bit 1, bit 2,
    bits [4:20), bits [20:30) and bit 30; of word 2, bits [0:2), [3:9),
    [9:11), [11:13), [13:15), [15:18), [18:20), [20:26) and [26:32); of
    words 3 to 5, the low 16 bits.  The runs of a word do not overlap: the
    fields of word 1 add up to the word less its bits 3 and 31, those of
    word 2 to the word less its bit 2. *)
Theorem enc_params_fields :
  forall (k : kernel) (d : pciep_driver_data),
    let w1 := ioread32 (regs d) PCIRC_ENC_PARAMS_1 in
    let w2 := ioread32 (regs d) PCIRC_ENC_PARAMS_2 in
    let w3 := ioread32 (regs d) PCIRC_ENC_PARAMS_3 in
    let w4 := ioread32 (regs d) PCIRC_ENC_PARAMS_4 in
    let w5 := ioread32 (regs d) PCIRC_ENC_PARAMS_5 in
    let p :=
      {| enable_l2Cache := Z.testbit w1 0;
         low_bandwidth := Z.testbit w1 1;
         filler_data := Z.testbit w1 2;
         bitrate := (w1 / 2 ^ 4) mod 2 ^ 16;
         gop_len := (w1 / 2 ^ 20) mod 2 ^ 10;
         max_picture_size := Z.testbit w1 30;
         b_frame := w2 mod 2 ^ 2;
         slice := (w2 / 2 ^ 3) mod 2 ^ 6;
         qp_mode := (w2 / 2 ^ 9) mod 2 ^ 2;
         rc_mode := (w2 / 2 ^ 11) mod 2 ^ 2;
         enc_type := (w2 / 2 ^ 13) mod 2 ^ 2;
         gop_mode := (w2 / 2 ^ 15) mod 2 ^ 3;
         profile := (w2 / 2 ^ 18) mod 2 ^ 2;
         min_qp := (w2 / 2 ^ 20) mod 2 ^ 6;
         max_qp := (w2 / 2 ^ 26) mod 2 ^ 6;
         cpb_size := w3 mod 2 ^ 16;
         initial_delay := w4 mod 2 ^ 16;
         periodicity_idr := w5 mod 2 ^ 16 |} in
    pciep_driver_file_ioctl k GET_ENC_PARAMS d =
      Returned (to_int (copy_left k)) d
        [EvRegRead 0x4c w1; EvRegRead 0x50 w2; EvRegRead 0x5c w3;
         EvRegRead 0x60 w4; EvRegRead 0x64 w5;
         EvCopyToUser (UserEncParams p) (copy_left k)] /\
    Z.b2z (enable_l2Cache p) + 2 * Z.b2z (low_bandwidth p) +
    4 * Z.b2z (filler_data p) + 2 ^ 4 * bitrate p + 2 ^ 20 * gop_len p +
    2 ^ 30 * Z.b2z (max_picture_size p) =
      w1 - 8 * ((w1 / 8) mod 2) - 2 ^ 31 * (w1 / 2 ^ 31) /\
    b_frame p + 2 ^ 3 * slice p + 2 ^ 9 * qp_mode p + 2 ^ 11 * rc_mode p +
    2 ^ 13 * enc_type p + 2 ^ 15 * gop_mode p + 2 ^ 18 * profile p +
    2 ^ 20 * min_qp p + 2 ^ 26 * max_qp p =
      w2 - 4 * ((w2 / 4) mod 2).
Proof.
  intros k d w1 w2 w3 w4 w5 p.
  rewrite ioctl_get_enc_params. fold w1 w2 w3 w4 w5.
  subst p.
  cbn [enable_l2Cache low_bandwidth filler_data max_picture_size bitrate
       gop_len b_frame slice qp_mode rc_mode enc_type gop_mode profile
       min_qp max_qp cpb_size initial_delay periodicity_idr].
  unfold L2CACHE_SHIFT, L2CACHE_MASK, LOW_BANDWIDTH_SHIFT, LOW_BANDWIDTH_MASK,
    FILLER_DATA_SHIFT, FILLER_DATA_MASK, BITRATE_SHIFT, BITRATE_MASK,
    GOP_LENGTH_SHIFT, GOP_LENGTH_MASK, MAX_PICTURE_SIZE_SHIFT,
    MAX_PICTURE_SIZE_MASK, B_FRAME_SHIFT, B_FRAME_MASK, SLICE_SHIFT, SLICE_MASK,
    QP_MODE_SHIFT, QP_MODE_MASK, RC_MODE_SHIFT, RC_MODE_MASK, ENC_TYPE_SHIFT,
    ENC_TYPE_MASK, GOP_MODE_SHIFT, GOP_MODE_MASK, PROFILE_SHIFT, PROFILE_MASK,
    MIN_QP_SHIFT, MIN_QP_MASK, MAX_QP_SHIFT, MAX_QP_MASK, CPB_SIZE_SHIFT,
    CPB_SIZE_MASK, INITIAL_DELAY_SHIFT, INITIAL_DELAY_MASK,
    PERIODICITY_IDR_SHIFT, PERIODICITY_IDR_MASK.
  rewrite !flag_bit by lia. fields.
  assert (H2 : 0 <= w2 < 2 ^ 32) by apply ioread32_range_aux.
  split; [| split].
  - pows. rewrite !Z.div_1_r. reflexivity.
  - rewrite !Z.testbit_spec' by lia. pows. rewrite ?Z.div_1_r.
    apply enc_word1_fields.
  - pows. rewrite ?Z.div_1_r. apply enc_word2_fields. exact H2.
Qed.

(** ** Submitting a transfer: the sleep and the wake-up *)

Lemma run_async_frame (a : async) (d : pciep_driver_data) :
  exists d' tr,
    run_async a d = Returned tt d' tr /\
    same_buffers d d' /\
    is_open d' = is_open d /\
    forallb is_irq_event tr = true /\
    forall c, pending c d' = (pending c d + signals c [a])%nat.
Proof.
  destruct a;
    unfold run_async, xilinx_pciep_read_irq_handler,
      xilinx_pciep_write_irq_handler, xilinx_pciep_host_done_irq_handler;
    run; eexists; eexists;
    (split; [reflexivity |]);
    (split; [repeat split |]);
    (split; [reflexivity |]);
    (split; [reflexivity |]);
    intros [|]; cbn; lia.
Qed.

Lemma run_asyncs_frame (l : list async) (d : pciep_driver_data) :
  exists d' tr,
    run_asyncs l d = Returned tt d' tr /\
    same_buffers d d' /\
    is_open d' = is_open d /\
    forallb is_irq_event tr = true /\
    forall c, pending c d' = (pending c d + signals c l)%nat.
Proof.
  revert d. induction l as [|a l IH]; intros d.
  - exists d, []. repeat split. intros c. cbn. lia.
  - destruct (run_async_frame a d) as (d1 & tr1 & E1 & B1 & O1 & F1 & P1).
    destruct (IH d1) as (d2 & tr2 & E2 & B2 & O2 & F2 & P2).
    exists d2, (tr1 ++ tr2).
    split; [| split; [| split; [| split]]].
    + cbn [run_asyncs]. unfold bind at 1. rewrite E1, E2. reflexivity.
    + eapply same_buffers_trans; eassumption.
    + congruence.
    + rewrite forallb_app, F1, F2. reflexivity.
    + intros c. rewrite P2, P1. unfold signals. cbn [filter].
      destruct (wakes c a); cbn [length]; lia.
Qed.

(** The environment runs in the order given. *)
Lemma run_asyncs_app (l1 l2 : list async) (d : pciep_driver_data) :
  run_asyncs (l1 ++ l2) d = (run_asyncs l1 ;; run_asyncs l2) d.
Proof.
  revert d. induction l1 as [|a l1 IH]; intros d.
  - cbn [app run_asyncs]. unfold bind, ret.
    destruct (run_asyncs l2 d); reflexivity.
  - cbn [app run_asyncs]. unfold bind.
    destruct (run_async_frame a d) as (d1 & tr1 & -> & _).
    rewrite IH. unfold bind.
    destruct (run_asyncs l1 d1) as [[] d2 tr2 | d2 tr2].
    + destruct (run_asyncs l2 d2); rewrite app_assoc; reflexivity.
    + reflexivity.
Qed.

(** A read from the moment it goes to sleep, given what the environment
    did meanwhile. *)
Lemma file_read_from_sleep (k : kernel) (count : Z)
      (d d1 : pciep_driver_data) (tr1 : list event) :
  0 < count ->
  IS_ERR_OR_NULL (fst (alloc_result k)) = false ->
  run_asyncs (meanwhile k) (read_announced k count d) = Returned tt d1 tr1 ->
  let virt := fst (alloc_result k) in
  let phys := snd (alloc_result k) in
  let submit :=
    EvDmaAlloc count virt phys ::
    announce count phys PCIEP_READ_BUFFER_ADDR PCIEP_READ_BUFFER_SIZE
      PCIEP_READ_BUFFER_READY (ioread32 (regs d) PCIEP_READ_BUFFER_READY) in
  pciep_driver_file_read k count d =
    match read_complete d1 with
    | O => Blocked d1 (submit ++ EvWait ReadComplete :: tr1)
    | S n =>
        Returned (to_int (copy_left k)) (set_read_complete n d1)
          (submit ++ EvWait ReadComplete :: tr1 ++
           [EvCopyToUser (UserBuffer virt count) (copy_left k);
            EvDmaFree count virt phys])
    end.
Proof.
  intros Hpos Hok Henv virt phys submit.
  destruct (run_asyncs_frame (meanwhile k) (read_announced k count d))
    as (d1' & tr1' & E & (Bv & Bp & _ & _) & _).
  rewrite Henv in E. injection E as <- <-.
  unfold read_announced in Bv, Bp. cbn in Bv, Bp.
  unfold pciep_driver_file_read.
  destruct (Z.leb_spec count 0) as [Hle | _]; [lia |].
  run. rewrite Hok. run.
  rewrite !ioread32_iowrite32_other by discriminate.
  rewrite to_u32_idem.
  unfold wait_for_completion. run.
  match goal with
  | |- context [run_asyncs (meanwhile k) ?dx] =>
      change (run_asyncs (meanwhile k) dx)
        with (run_asyncs (meanwhile k) (read_announced k count d))
  end.
  rewrite Henv.
  destruct (read_complete d1) as [|n].
  - rewrite app_nil_r. reflexivity.
  - run. rewrite Bv, Bp, app_nil_r. reflexivity.
Qed.

(** The same for a write whose copy from the caller succeeded. *)
Lemma file_write_from_sleep (k : kernel) (count : Z)
      (d d1 : pciep_driver_data) (tr1 : list event) :
  0 < count ->
  IS_ERR_OR_NULL (fst (alloc_result k)) = false ->
  to_int (copy_left k) = 0 ->
  run_asyncs (meanwhile k) (write_announced k count d) = Returned tt d1 tr1 ->
  let virt := fst (alloc_result k) in
  let phys := snd (alloc_result k) in
  let submit :=
    EvDmaAlloc count virt phys ::
    EvCopyFromUser (copy_left k) ::
    announce count phys PCIEP_WRITE_BUFFER_ADDR PCIEP_WRITE_BUFFER_SIZE
      PCIEP_WRITE_BUFFER_READY (ioread32 (regs d) PCIEP_WRITE_BUFFER_READY) in
  pciep_driver_file_write k count d =
    match write_complete d1 with
    | O => Blocked d1 (submit ++ EvWait WriteComplete :: tr1)
    | S n =>
        Returned 0 (set_write_complete n d1)
          (submit ++ EvWait WriteComplete :: tr1 ++
           [EvDmaFree count virt phys])
    end.
Proof.
  intros Hpos Hok Hcopy Henv virt phys submit.
  destruct (run_asyncs_frame (meanwhile k) (write_announced k count d))
    as (d1' & tr1' & E & (_ & _ & Bv & Bp) & _).
  rewrite Henv in E. injection E as <- <-.
  unfold write_announced in Bv, Bp. cbn in Bv, Bp.
  unfold pciep_driver_file_write.
  destruct (Z.leb_spec count 0) as [Hle | _]; [lia |].
  run. rewrite Hok. run. rewrite Hcopy. cbn [Z.eqb negb]. run.
  rewrite !ioread32_iowrite32_other by discriminate.
  rewrite to_u32_idem.
  unfold wait_for_completion. run.
  match goal with
  | |- context [run_asyncs (meanwhile k) ?dx] =>
      change (run_asyncs (meanwhile k) dx)
        with (run_asyncs (meanwhile k) (write_announced k count d))
  end.
  rewrite Henv.
  destruct (write_complete d1) as [|n].
  - rewrite app_nil_r. reflexivity.
  - run. rewrite Bv, Bp, app_nil_r. reflexivity.
Qed.

(** ** The handshake: announce and completion *)

(** C4: in every run of a submit call, a register write that sets the ready
    bit of the call's direction has, earlier in the log, the write of the
    buffer's device address to the direction's address register and, after
    that, the write of the byte count to its size register.  And the
    registers hold them: in the driver data on which the call goes to
    sleep, just after the ready bit is set, the address register reads the
    device address, the size register the byte count and the ready bit is
    set; the environment runs from that data, and the call leaves the
    register file the environment leaves, which with a quiet environment is
    that of the moment of the sleep. *)
Theorem ready_set_after_address_and_size :
  forall (k : kernel) (count : Z) (d : pciep_driver_data),
    let phys := snd (alloc_result k) in
    (forall pre e post,
       log_of (pciep_driver_file_read k count d) = pre ++ e :: post ->
       sets_ready PCIEP_READ_BUFFER_READY e = true ->
       exists p1 p2 p3,
         pre = p1 ++ EvRegWrite PCIEP_READ_BUFFER_ADDR (to_u32 phys) ::
               p2 ++ EvRegWrite PCIEP_READ_BUFFER_SIZE (to_u32 count) :: p3)
    /\
    (forall pre e post,
       log_of (pciep_driver_file_write k count d) = pre ++ e :: post ->
       sets_ready PCIEP_WRITE_BUFFER_READY e = true ->
       exists p1 p2 p3,
         pre = p1 ++ EvRegWrite PCIEP_WRITE_BUFFER_ADDR (to_u32 phys) ::
               p2 ++ EvRegWrite PCIEP_WRITE_BUFFER_SIZE (to_u32 count) :: p3)
    /\
    (0 < count -> IS_ERR_OR_NULL (fst (alloc_result k)) = false ->
     exists asleep,
       ioread32 (regs asleep) PCIEP_READ_BUFFER_ADDR = to_u32 phys /\
       ioread32 (regs asleep) PCIEP_READ_BUFFER_SIZE = to_u32 count /\
       Z.testbit (ioread32 (regs asleep) PCIEP_READ_BUFFER_READY) 0 = true /\
       (exists d1 tr1,
          run_asyncs (meanwhile k) asleep = Returned tt d1 tr1 /\
          regs (data_of (pciep_driver_file_read k count d)) = regs d1) /\
       (meanwhile k = [] ->
        regs (data_of (pciep_driver_file_read k count d)) = regs asleep))
    /\
    (0 < count -> IS_ERR_OR_NULL (fst (alloc_result k)) = false ->
     to_int (copy_left k) = 0 ->
     exists asleep,
       ioread32 (regs asleep) PCIEP_WRITE_BUFFER_ADDR = to_u32 phys /\
       ioread32 (regs asleep) PCIEP_WRITE_BUFFER_SIZE = to_u32 count /\
       Z.testbit (ioread32 (regs asleep) PCIEP_WRITE_BUFFER_READY) 0 = true /\
       (exists d1 tr1,
          run_asyncs (meanwhile k) asleep = Returned tt d1 tr1 /\
          regs (data_of (pciep_driver_file_write k count d)) = regs d1) /\
       (meanwhile k = [] ->
        regs (data_of (pciep_driver_file_write k count d)) = regs asleep)).
Proof.
  intros k count d phys.
  assert (Hbit : forall old,
             Z.testbit (to_u32 (to_u32 (Z.lor old SET_BUFFER_RDY))) 0 = true).
  { intros old. unfold SET_BUFFER_RDY. bitwise.
    change (0 <? 32) with true. change (0 =? 0) with true.
    rewrite orb_true_r. reflexivity. }
  assert (Horder :
    (forall pre e post,
       log_of (pciep_driver_file_read k count d) = pre ++ e :: post ->
       sets_ready PCIEP_READ_BUFFER_READY e = true ->
       exists p1 p2 p3,
         pre = p1 ++ EvRegWrite PCIEP_READ_BUFFER_ADDR (to_u32 phys) ::
               p2 ++ EvRegWrite PCIEP_READ_BUFFER_SIZE (to_u32 count) :: p3)
    /\
    (forall pre e post,
       log_of (pciep_driver_file_write k count d) = pre ++ e :: post ->
       sets_ready PCIEP_WRITE_BUFFER_READY e = true ->
       exists p1 p2 p3,
         pre = p1 ++ EvRegWrite PCIEP_WRITE_BUFFER_ADDR (to_u32 phys) ::
               p2 ++ EvRegWrite PCIEP_WRITE_BUFFER_SIZE (to_u32 count) :: p3)).
  {
    destruct (Z.le_gt_cases count 0) as [Hle | Hpos].
    { rewrite file_read_invalid, file_write_invalid by exact Hle.
      split; intros pre e post Heq _; destruct pre; discriminate Heq. }
    destruct (IS_ERR_OR_NULL (fst (alloc_result k))) eqn:Halloc.
    { rewrite file_read_nomem, file_write_nomem by assumption.
      split; intros pre e post Heq He; exfalso;
        eapply no_ready_in; try exact Heq; try exact He; reflexivity. }
    split.
    - intros pre e post Heq He.
      destruct (file_read_run k count d Hpos Halloc) as (d1 & tr1 & _ & _ & E).
      rewrite E in Heq. clear E. unfold announce in Heq.
      assert (Hshape : exists rest,
                 [EvDmaAlloc count (fst (alloc_result k)) (snd (alloc_result k))] ++
                 EvRegWrite PCIEP_READ_BUFFER_ADDR (to_u32 phys) ::
                 EvRegWrite PCIEP_READ_BUFFER_SIZE (to_u32 count) :: rest =
                 pre ++ e :: post).
      { destruct (read_complete d1); cbn [log_of app] in Heq;
          eexists; cbn [app]; exact Heq. }
      destruct Hshape as (rest & Hshape).
      destruct (ready_after_head PCIEP_READ_BUFFER_READY
                  (EvRegWrite PCIEP_READ_BUFFER_ADDR (to_u32 phys))
                  (EvRegWrite PCIEP_READ_BUFFER_SIZE (to_u32 count)) rest
                  [EvDmaAlloc count (fst (alloc_result k)) (snd (alloc_result k))]
                  pre post e eq_refl Hshape He) as (p3 & ->).
      eexists; exists []; exists p3. reflexivity.
    - intros pre e post Heq He.
      destruct (Z.eq_dec (to_int (copy_left k)) 0) as [Hcopy | Hcopy].
      + destruct (file_write_run k count d Hpos Halloc Hcopy)
          as (d1 & tr1 & _ & _ & E).
        rewrite E in Heq. clear E. unfold announce in Heq.
        assert (Hshape : exists rest,
                   [EvDmaAlloc count (fst (alloc_result k)) (snd (alloc_result k));
                    EvCopyFromUser (copy_left k)] ++
                   EvRegWrite PCIEP_WRITE_BUFFER_ADDR (to_u32 phys) ::
                   EvRegWrite PCIEP_WRITE_BUFFER_SIZE (to_u32 count) :: rest =
                   pre ++ e :: post).
        { destruct (write_complete d1); cbn [log_of app] in Heq;
            eexists; cbn [app]; exact Heq. }
        destruct Hshape as (rest & Hshape).
        destruct (ready_after_head PCIEP_WRITE_BUFFER_READY
                    (EvRegWrite PCIEP_WRITE_BUFFER_ADDR (to_u32 phys))
                    (EvRegWrite PCIEP_WRITE_BUFFER_SIZE (to_u32 count)) rest
                    [EvDmaAlloc count (fst (alloc_result k)) (snd (alloc_result k));
                     EvCopyFromUser (copy_left k)]
                    pre post e eq_refl Hshape He) as (p3 & ->).
        eexists; exists []; exists p3. reflexivity.
      + rewrite (file_write_copy_failure k count d Hpos Halloc Hcopy) in Heq.
        exfalso. eapply no_ready_in; try exact Heq; try exact He. reflexivity.
  }
  destruct Horder as (Hr & Hw).
  split; [exact Hr |]. split; [exact Hw |]. split.
  - intros Hpos Hok.
    exists (read_announced k count d).
    destruct (run_asyncs_frame (meanwhile k) (read_announced k count d))
      as (d1 & tr1 & E & _).
    split; [| split; [| split; [| split]]].
    + unfold read_announced. cbn [regs set_regs].
      rewrite !(ioread32_iowrite32_other _ _ _ PCIEP_READ_BUFFER_ADDR)
        by discriminate.
      apply ioread32_iowrite32_same.
    + unfold read_announced. cbn [regs set_regs].
      rewrite !(ioread32_iowrite32_other _ _ _ PCIEP_READ_BUFFER_SIZE)
        by discriminate.
      apply ioread32_iowrite32_same.
    + unfold read_announced. cbn [regs set_regs].
      rewrite ioread32_iowrite32_same. apply Hbit.
    + exists d1, tr1. split; [exact E |].
      rewrite (file_read_from_sleep k count d d1 tr1 Hpos Hok E).
      destruct (read_complete d1); reflexivity.
    + intros Hquiet. rewrite Hquiet in E. injection E as <- _.
      assert (E : run_asyncs (meanwhile k) (read_announced k count d) =
                  Returned tt (read_announced k count d) [])
        by (rewrite Hquiet; reflexivity).
      rewrite (file_read_from_sleep k count d _ _ Hpos Hok E).
      destruct (read_complete (read_announced k count d)); reflexivity.
  - intros Hpos Hok Hcopy.
    exists (write_announced k count d).
    destruct (run_asyncs_frame (meanwhile k) (write_announced k count d))
      as (d1 & tr1 & E & _).
    split; [| split; [| split; [| split]]].
    + unfold write_announced. cbn [regs set_regs].
      rewrite !(ioread32_iowrite32_other _ _ _ PCIEP_WRITE_BUFFER_ADDR)
        by discriminate.
      apply ioread32_iowrite32_same.
    + unfold write_announced. cbn [regs set_regs].
      rewrite !(ioread32_iowrite32_other _ _ _ PCIEP_WRITE_BUFFER_SIZE)
        by discriminate.
      apply ioread32_iowrite32_same.
    + unfold write_announced. cbn [regs set_regs].
      rewrite ioread32_iowrite32_same. apply Hbit.
    + exists d1, tr1. split; [exact E |].
      rewrite (file_write_from_sleep k count d d1 tr1 Hpos Hok Hcopy E).
      destruct (write_complete d1); reflexivity.
    + intros Hquiet. rewrite Hquiet in E. injection E as <- _.
      assert (E : run_asyncs (meanwhile k) (write_announced k count d) =
                  Returned tt (write_announced k count d) [])
        by (rewrite Hquiet; reflexivity).
      rewrite (file_write_from_sleep k count d _ _ Hpos Hok Hcopy E).
      destruct (write_complete (write_announced k count d)); reflexivity.
Qed.

(** A read and a write of 4096 bytes, each woken by its interrupt; and the
    same calls on a quiet device, where they stay asleep on the registers
    they announced. *)
Lemma ready_set_after_address_and_size_witness :
  let k := kernel_with (0xffff800012340000, 0x80001000) 0 [IrqWrite; IrqRead] in
  let quiet := kernel_with (0xffff800012340000, 0x80001000) 0 [] in
  let d := fresh_data (fun _ => 0) in
  let alloc := EvDmaAlloc 4096 0xffff800012340000 0x80001000 in
  (log_of (pciep_driver_file_read k 4096 d) =
     [alloc;
      EvRegWrite PCIEP_READ_BUFFER_ADDR 0x80001000;
      EvRegWrite PCIEP_READ_BUFFER_SIZE 4096;
      EvRegRead PCIEP_READ_BUFFER_READY 0] ++
     EvRegWrite PCIEP_READ_BUFFER_READY 1 ::
     [EvWait ReadComplete;
      EvRegRead PCIEP_WRITE_BUFFER_READY 0;
      EvRegWrite PCIEP_WRITE_BUFFER_READY 0;
      EvComplete WriteComplete;
      EvRegRead PCIRC_WRITE_BUFFER_TRANSFER_DONE_INTR 0;
      EvRegRead PCIEP_READ_BUFFER_READY 1;
      EvRegWrite PCIEP_READ_BUFFER_READY 0;
      EvComplete ReadComplete;
      EvRegRead PCIRC_READ_BUFFER_TRANSFER_DONE_INTR 0;
      EvCopyToUser (UserBuffer 0xffff800012340000 4096) 0;
      EvDmaFree 4096 0xffff800012340000 0x80001000] /\
   sets_ready PCIEP_READ_BUFFER_READY (EvRegWrite PCIEP_READ_BUFFER_READY 1)
     = true /\
   exists p1 p2 p3,
     [alloc;
      EvRegWrite PCIEP_READ_BUFFER_ADDR 0x80001000;
      EvRegWrite PCIEP_READ_BUFFER_SIZE 4096;
      EvRegRead PCIEP_READ_BUFFER_READY 0] =
     p1 ++ EvRegWrite PCIEP_READ_BUFFER_ADDR (to_u32 0x80001000) ::
     p2 ++ EvRegWrite PCIEP_READ_BUFFER_SIZE (to_u32 4096) :: p3)
  /\
  (log_of (pciep_driver_file_write k 4096 d) =
     [alloc;
      EvCopyFromUser 0;
      EvRegWrite PCIEP_WRITE_BUFFER_ADDR 0x80001000;
      EvRegWrite PCIEP_WRITE_BUFFER_SIZE 4096;
      EvRegRead PCIEP_WRITE_BUFFER_READY 0] ++
     EvRegWrite PCIEP_WRITE_BUFFER_READY 1 ::
     [EvWait WriteComplete;
      EvRegRead PCIEP_WRITE_BUFFER_READY 1;
      EvRegWrite PCIEP_WRITE_BUFFER_READY 0;
      EvComplete WriteComplete;
      EvRegRead PCIRC_WRITE_BUFFER_TRANSFER_DONE_INTR 0;
      EvRegRead PCIEP_READ_BUFFER_READY 0;
      EvRegWrite PCIEP_READ_BUFFER_READY 0;
      EvComplete ReadComplete;
      EvRegRead PCIRC_READ_BUFFER_TRANSFER_DONE_INTR 0;
      EvDmaFree 4096 0xffff800012340000 0x80001000] /\
   sets_ready PCIEP_WRITE_BUFFER_READY (EvRegWrite PCIEP_WRITE_BUFFER_READY 1)
     = true /\
   exists p1 p2 p3,
     [alloc;
      EvCopyFromUser 0;
      EvRegWrite PCIEP_WRITE_BUFFER_ADDR 0x80001000;
      EvRegWrite PCIEP_WRITE_BUFFER_SIZE 4096;
      EvRegRead PCIEP_WRITE_BUFFER_READY 0] =
     p1 ++ EvRegWrite PCIEP_WRITE_BUFFER_ADDR (to_u32 0x80001000) ::
     p2 ++ EvRegWrite PCIEP_WRITE_BUFFER_SIZE (to_u32 4096) :: p3)
  /\
  (0 < 4096 /\
   IS_ERR_OR_NULL (fst (alloc_result quiet)) = false /\
   to_int (copy_left quiet) = 0 /\
   meanwhile quiet = [] /\
   (let r := regs (data_of (pciep_driver_file_read quiet 4096 d)) in
    result_of (pciep_driver_file_read quiet 4096 d) = None /\
    ioread32 r PCIEP_READ_BUFFER_ADDR = 0x80001000 /\
    ioread32 r PCIEP_READ_BUFFER_SIZE = 4096 /\
    Z.testbit (ioread32 r PCIEP_READ_BUFFER_READY) 0 = true) /\
   (let r := regs (data_of (pciep_driver_file_write quiet 4096 d)) in
    result_of (pciep_driver_file_write quiet 4096 d) = None /\
    ioread32 r PCIEP_WRITE_BUFFER_ADDR = 0x80001000 /\
    ioread32 r PCIEP_WRITE_BUFFER_SIZE = 4096 /\
    Z.testbit (ioread32 r PCIEP_WRITE_BUFFER_READY) 0 = true)).
Proof.
  intros k quiet d alloc.
  pose proof (ready_set_after_address_and_size k 4096 d) as (Hr & Hw & _).
  pose proof (ready_set_after_address_and_size quiet 4096 d)
    as (_ & _ & Hsr & Hsw).
  assert (H1 : 0 < 4096) by lia.
  assert (H2 : IS_ERR_OR_NULL (fst (alloc_result quiet)) = false)
    by reflexivity.
  assert (H3 : to_int (copy_left quiet) = 0) by reflexivity.
  assert (H4 : meanwhile quiet = []) by reflexivity.
  destruct (Hsr H1 H2) as (ar & Ra & Rs & Rb & _ & Rq).
  destruct (Hsw H1 H2 H3) as (aw & Wa & Ws & Wb & _ & Wq).
  rewrite <- (Rq H4) in Ra, Rs, Rb.
  rewrite <- (Wq H4) in Wa, Ws, Wb.
  split; [| split].
  - assert (Hlog : log_of (pciep_driver_file_read k 4096 d) =
       [alloc;
        EvRegWrite PCIEP_READ_BUFFER_ADDR 0x80001000;
        EvRegWrite PCIEP_READ_BUFFER_SIZE 4096;
        EvRegRead PCIEP_READ_BUFFER_READY 0] ++
       EvRegWrite PCIEP_READ_BUFFER_READY 1 ::
       [EvWait ReadComplete;
        EvRegRead PCIEP_WRITE_BUFFER_READY 0;
        EvRegWrite PCIEP_WRITE_BUFFER_READY 0;
        EvComplete WriteComplete;
        EvRegRead PCIRC_WRITE_BUFFER_TRANSFER_DONE_INTR 0;
        EvRegRead PCIEP_READ_BUFFER_READY 1;
        EvRegWrite PCIEP_READ_BUFFER_READY 0;
        EvComplete ReadComplete;
        EvRegRead PCIRC_READ_BUFFER_TRANSFER_DONE_INTR 0;
        EvCopyToUser (UserBuffer 0xffff800012340000 4096) 0;
        EvDmaFree 4096 0xffff800012340000 0x80001000]) by reflexivity.
    exact (conj Hlog (conj eq_refl (Hr _ _ _ Hlog eq_refl))).
  - assert (Hlog : log_of (pciep_driver_file_write k 4096 d) =
       [alloc;
        EvCopyFromUser 0;
        EvRegWrite PCIEP_WRITE_BUFFER_ADDR 0x80001000;
        EvRegWrite PCIEP_WRITE_BUFFER_SIZE 4096;
        EvRegRead PCIEP_WRITE_BUFFER_READY 0] ++
       EvRegWrite PCIEP_WRITE_BUFFER_READY 1 ::
       [EvWait WriteComplete;
        EvRegRead PCIEP_WRITE_BUFFER_READY 1;
        EvRegWrite PCIEP_WRITE_BUFFER_READY 0;
        EvComplete WriteComplete;
        EvRegRead PCIRC_WRITE_BUFFER_TRANSFER_DONE_INTR 0;
        EvRegRead PCIEP_READ_BUFFER_READY 0;
        EvRegWrite PCIEP_READ_BUFFER_READY 0;
        EvComplete ReadComplete;
        EvRegRead PCIRC_READ_BUFFER_TRANSFER_DONE_INTR 0;
        EvDmaFree 4096 0xffff800012340000 0x80001000]) by reflexivity.
    exact (conj Hlog (conj eq_refl (Hw _ _ _ Hlog eq_refl))).
  - exact (conj H1 (conj H2 (conj H3 (conj H4
             (conj (conj eq_refl (conj Ra (conj Rs Rb)))
                   (conj eq_refl (conj Wa (conj Ws Wb)))))))).
Defined.

(** C5: in each per-direction completion handler the write that clears bit 0
    of the direction's ready register comes before [complete] in the log,
    and no register is written after it; the register file the handler
    leaves is the one the logged writes produce, and in it that bit reads as
    clear; the completion is signalled once.  A waiter whose sleep ends with
    the handler, whatever happened earlier in the sleep, passes
    [wait_for_completion] and resumes on a register file in which the bit
    is clear. *)
Theorem irq_clears_ready_before_complete :
  forall (d : pciep_driver_data),
    let rd := ioread32 (regs d) PCIEP_READ_BUFFER_READY in
    let wr := ioread32 (regs d) PCIEP_WRITE_BUFFER_READY in
    let dr := data_of (xilinx_pciep_read_irq_handler d) in
    let dw := data_of (xilinx_pciep_write_irq_handler d) in
    (log_of (xilinx_pciep_read_irq_handler d) =
       [EvRegRead PCIEP_READ_BUFFER_READY rd;
        EvRegWrite PCIEP_READ_BUFFER_READY (Z.land rd (Z.lnot SET_BUFFER_RDY));
        EvComplete ReadComplete;
        EvRegRead PCIRC_READ_BUFFER_TRANSFER_DONE_INTR
          (ioread32 (regs d) PCIRC_READ_BUFFER_TRANSFER_DONE_INTR)] /\
     Z.testbit (Z.land rd (Z.lnot SET_BUFFER_RDY)) 0 = false /\
     Z.testbit (ioread32 (regs dr) PCIEP_READ_BUFFER_READY) 0 = false /\
     (forall reg,
        regs dr reg = replay (log_of (xilinx_pciep_read_irq_handler d)) (regs d) reg) /\
     result_of (xilinx_pciep_read_irq_handler d) = Some IRQ_HANDLED /\
     read_complete dr = S (read_complete d) /\
     (forall (buf : Z * Z) (left arg : Z) (l : list async),
        let k := mk_kernel buf left arg (l ++ [IrqRead]) in
        exists d' tr,
          wait_for_completion k ReadComplete d = Returned tt d' tr /\
          Z.testbit (ioread32 (regs d') PCIEP_READ_BUFFER_READY) 0 = false))
    /\
    (log_of (xilinx_pciep_write_irq_handler d) =
       [EvRegRead PCIEP_WRITE_BUFFER_READY wr;
        EvRegWrite PCIEP_WRITE_BUFFER_READY (Z.land wr (Z.lnot SET_BUFFER_RDY));
        EvComplete WriteComplete;
        EvRegRead PCIRC_WRITE_BUFFER_TRANSFER_DONE_INTR
          (ioread32 (regs d) PCIRC_WRITE_BUFFER_TRANSFER_DONE_INTR)] /\
     Z.testbit (Z.land wr (Z.lnot SET_BUFFER_RDY)) 0 = false /\
     Z.testbit (ioread32 (regs dw) PCIEP_WRITE_BUFFER_READY) 0 = false /\
     (forall reg,
        regs dw reg = replay (log_of (xilinx_pciep_write_irq_handler d)) (regs d) reg) /\
     result_of (xilinx_pciep_write_irq_handler d) = Some IRQ_HANDLED /\
     write_complete dw = S (write_complete d) /\
     (forall (buf : Z * Z) (left arg : Z) (l : list async),
        let k := mk_kernel buf left arg (l ++ [IrqWrite]) in
        exists d' tr,
          wait_for_completion k WriteComplete d = Returned tt d' tr /\
          Z.testbit (ioread32 (regs d') PCIEP_WRITE_BUFFER_READY) 0 = false)).
Proof.
  intros d rd wr dr dw.
  assert (Hbit : forall v, Z.testbit (Z.land v (Z.lnot SET_BUFFER_RDY)) 0 = false).
  { intros v. unfold SET_BUFFER_RDY. bitwise. cbn. apply andb_false_r. }
  assert (Hfit : forall r reg,
             to_u32 (Z.land (ioread32 r reg) (Z.lnot SET_BUFFER_RDY)) =
             Z.land (ioread32 r reg) (Z.lnot SET_BUFFER_RDY)).
  { intros r reg. unfold ioread32, SET_BUFFER_RDY. apply clear_ready_fits. }
  assert (Hstored : forall r reg,
             Z.testbit
               (ioread32
                  (iowrite32
                     (to_u32 (Z.land (ioread32 r reg) (Z.lnot SET_BUFFER_RDY)))
                     r reg) reg) 0 = false).
  { intros r reg. rewrite ioread32_iowrite32_same, to_u32_idem, Hfit.
    apply Hbit. }
  split.
  - subst dr. unfold xilinx_pciep_read_irq_handler. run.
    rewrite (ioread32_iowrite32_other _ _ PCIEP_READ_BUFFER_READY
               PCIRC_READ_BUFFER_TRANSFER_DONE_INTR) by discriminate.
    fold rd. unfold rd at 1 2. rewrite !Hfit.
    split; [reflexivity |]. split; [apply Hbit |].
    split; [unfold rd; apply Hstored |].
    split; [intros reg; cbn [replay]; unfold rd, iowrite32;
            repeat rewrite Hfit; reflexivity |].
    split; [reflexivity |]. split; [reflexivity |].
    intros buf left arg l.
    destruct (run_asyncs_frame l d) as (d1 & tr1 & E1 & _).
    unfold wait_for_completion, bind, emit. cbn [meanwhile].
    rewrite run_asyncs_app. unfold bind. rewrite E1.
    cbn [run_asyncs run_async]. unfold xilinx_pciep_read_irq_handler. run.
    eexists; eexists. split; [reflexivity |].
    apply Hstored.
  - subst dw. unfold xilinx_pciep_write_irq_handler. run.
    rewrite (ioread32_iowrite32_other _ _ PCIEP_WRITE_BUFFER_READY
               PCIRC_WRITE_BUFFER_TRANSFER_DONE_INTR) by discriminate.
    fold wr. unfold wr at 1 2. rewrite !Hfit.
    split; [reflexivity |]. split; [apply Hbit |].
    split; [unfold wr; apply Hstored |].
    split; [intros reg; cbn [replay]; unfold wr, iowrite32;
            repeat rewrite Hfit; reflexivity |].
    split; [reflexivity |]. split; [reflexivity |].
    intros buf left arg l.
    destruct (run_asyncs_frame l d) as (d1 & tr1 & E1 & _).
    unfold wait_for_completion, bind, emit. cbn [meanwhile].
    rewrite run_asyncs_app. unfold bind. rewrite E1.
    cbn [run_asyncs run_async]. unfold xilinx_pciep_write_irq_handler. run.
    eexists; eexists. split; [reflexivity |].
    apply Hstored.
Qed.



(** A submit call that returns has passed its completion exactly once: the
    direction's count of pending signals is what it was, plus the
    direction's interrupts during the sleep, minus one; the other
    direction's count only grows by its own interrupts.  The open flag is
    untouched, and the buffer fields still hold the address of the buffer
    the call has freed. *)
Theorem submit_consumes_one_signal :
  forall (k : kernel) (count : Z) (d : pciep_driver_data),
    0 < count ->
    IS_ERR_OR_NULL (fst (alloc_result k)) = false ->
    (forall r d' tr,
       pciep_driver_file_read k count d = Returned r d' tr ->
       (read_complete d' + 1 =
          read_complete d + signals ReadComplete (meanwhile k))%nat /\
       (write_complete d' =
          write_complete d + signals WriteComplete (meanwhile k))%nat /\
       is_open d' = is_open d /\
       read_virt_addr d' = fst (alloc_result k) /\
       read_phys_addr d' = snd (alloc_result k))
    /\
    (to_int (copy_left k) = 0 ->
     forall r d' tr,
       pciep_driver_file_write k count d = Returned r d' tr ->
       (write_complete d' + 1 =
          write_complete d + signals WriteComplete (meanwhile k))%nat /\
       (read_complete d' =
          read_complete d + signals ReadComplete (meanwhile k))%nat /\
       is_open d' = is_open d /\
       write_virt_addr d' = fst (alloc_result k) /\
       write_phys_addr d' = snd (alloc_result k)).
Proof.
  intros k count d Hpos Hok. split.
  - intros r d' tr Hrun.
    destruct (run_asyncs_frame (meanwhile k) (read_announced k count d))
      as (d1 & tr1 & E & (Bv & Bp & _ & _) & O & _ & P).
    rewrite (file_read_from_sleep k count d d1 tr1 Hpos Hok E) in Hrun.
    pose proof (P ReadComplete) as Pr. pose proof (P WriteComplete) as Pw.
    cbn [pending] in Pr, Pw. unfold read_announced in Pr, Pw, O, Bv, Bp.
    cbn in Pr, Pw, O, Bv, Bp.
    destruct (read_complete d1) as [|n] eqn:En; [discriminate Hrun |].
    injection Hrun as _ <- _. cbn.
    repeat split; try assumption; lia.
  - intros Hcopy r d' tr Hrun.
    destruct (run_asyncs_frame (meanwhile k) (write_announced k count d))
      as (d1 & tr1 & E & (_ & _ & Bv & Bp) & O & _ & P).
    rewrite (file_write_from_sleep k count d d1 tr1 Hpos Hok Hcopy E) in Hrun.
    pose proof (P ReadComplete) as Pr. pose proof (P WriteComplete) as Pw.
    cbn [pending] in Pr, Pw. unfold write_announced in Pr, Pw, O, Bv, Bp.
    cbn in Pr, Pw, O, Bv, Bp.
    destruct (write_complete d1) as [|n] eqn:En; [discriminate Hrun |].
    injection Hrun as _ <- _. cbn.
    repeat split; try assumption; lia.
Qed.

(** A read during whose sleep the read interrupt fires twice and the write
    interrupt once, and a write in the same environment. *)
Lemma submit_consumes_one_signal_witness :
  let k := kernel_with (0xffff800012340000, 0x80001000) 0
             [IrqRead; IrqWrite; IrqRead] in
  let d := fresh_data (fun _ => 0) in
  0 < 512 /\
  IS_ERR_OR_NULL (fst (alloc_result k)) = false /\
  to_int (copy_left k) = 0 /\
  (read_complete (data_of (pciep_driver_file_read k 512 d)) = 1%nat /\
   write_complete (data_of (pciep_driver_file_read k 512 d)) = 1%nat) /\
  (write_complete (data_of (pciep_driver_file_write k 512 d)) = 0%nat /\
   read_complete (data_of (pciep_driver_file_write k 512 d)) = 2%nat).
Proof.
  intros k d.
  assert (H1 : 0 < 512) by lia.
  assert (H2 : IS_ERR_OR_NULL (fst (alloc_result k)) = false) by reflexivity.
  assert (H3 : to_int (copy_left k) = 0) by reflexivity.
  destruct (submit_consumes_one_signal k 512 d H1 H2) as (Hr & Hw).
  assert (Er : exists r d' tr,
             pciep_driver_file_read k 512 d = Returned r d' tr)
    by (eexists; eexists; eexists; reflexivity).
  assert (Ew : exists r d' tr,
             pciep_driver_file_write k 512 d = Returned r d' tr)
    by (eexists; eexists; eexists; reflexivity).
  destruct Er as (rr & dr & trr & Er). destruct Ew as (rw & dw & trw & Ew).
  destruct (Hr _ _ _ Er) as (R1 & R2 & _).
  destruct (Hw H3 _ _ _ Ew) as (W1 & W2 & _).
  rewrite Er, Ew. cbn [data_of].
  cbn in R1, R2, W1, W2.
  assert (R1' : read_complete dr = 1%nat) by lia.
  assert (W1' : write_complete dw = 0%nat) by lia.
  exact (conj H1 (conj H2 (conj H3 (conj (conj R1' R2) (conj W1' W2))))).
Defined.

(** A completion signalled before the call, and not yet consumed, lets a
    submit call through at once: with nothing happening during the sleep
    the call returns, having freed the buffer, while the ready bit it set is
    still set in the register. *)
Theorem pending_completion_skips_the_wait :
  forall (k : kernel) (count : Z) (d : pciep_driver_data),
    0 < count ->
    IS_ERR_OR_NULL (fst (alloc_result k)) = false ->
    meanwhile k = [] ->
    let free_buffer :=
      EvDmaFree count (fst (alloc_result k)) (snd (alloc_result k)) in
    (read_complete d <> O ->
     exists d' tr,
       pciep_driver_file_read k count d =
         Returned (to_int (copy_left k)) d' tr /\
       In free_buffer tr /\
       Z.testbit (ioread32 (regs d') PCIEP_READ_BUFFER_READY) 0 = true /\
       read_complete d' = pred (read_complete d))
    /\
    (write_complete d <> O -> to_int (copy_left k) = 0 ->
     exists d' tr,
       pciep_driver_file_write k count d = Returned 0 d' tr /\
       In free_buffer tr /\
       Z.testbit (ioread32 (regs d') PCIEP_WRITE_BUFFER_READY) 0 = true /\
       write_complete d' = pred (write_complete d)).
Proof.
  intros k count d Hpos Hok Hquiet free_buffer.
  assert (Hbit : forall old, Z.testbit (to_u32 (to_u32 (Z.lor old SET_BUFFER_RDY))) 0
                             = true).
  { intros old. unfold SET_BUFFER_RDY. bitwise.
    change (0 <? 32) with true. change (0 =? 0) with true.
    rewrite orb_true_r. reflexivity. }
  split.
  - intros Hpending.
    assert (E : run_asyncs (meanwhile k) (read_announced k count d) =
                Returned tt (read_announced k count d) []).
    { rewrite Hquiet. reflexivity. }
    rewrite (file_read_from_sleep k count d _ _ Hpos Hok E).
    unfold read_announced at 1. cbn [read_complete set_regs set_read_buffer].
    destruct (read_complete d) as [|n]; [contradiction |].
    eexists; eexists. split; [reflexivity |].
    split; [| split; [| reflexivity]].
    + apply in_or_app. right. right. apply in_or_app. right. right. left.
      reflexivity.
    + unfold read_announced. cbn [regs set_read_complete set_regs].
      rewrite ioread32_iowrite32_same. apply Hbit.
  - intros Hpending Hcopy.
    assert (E : run_asyncs (meanwhile k) (write_announced k count d) =
                Returned tt (write_announced k count d) []).
    { rewrite Hquiet. reflexivity. }
    rewrite (file_write_from_sleep k count d _ _ Hpos Hok Hcopy E).
    unfold write_announced at 1. cbn [write_complete set_regs set_write_buffer].
    destruct (write_complete d) as [|n]; [contradiction |].
    eexists; eexists. split; [reflexivity |].
    split; [| split; [| reflexivity]].
    + apply in_or_app. right. right. apply in_or_app. right. left.
      reflexivity.
    + unfold write_announced. cbn [regs set_write_complete set_regs].
      rewrite ioread32_iowrite32_same. apply Hbit.
Qed.

(** Both directions with one completion pending and a quiet device. *)
Lemma pending_completion_skips_the_wait_witness :
  let k := kernel_with (0xffff800012340000, 0x80001000) 0 [] in
  let d := mk_driver_data (fun _ => 0) 1 1 true 0 0 0 0 in
  0 < 512 /\
  IS_ERR_OR_NULL (fst (alloc_result k)) = false /\
  meanwhile k = [] /\
  read_complete d <> O /\
  write_complete d <> O /\
  to_int (copy_left k) = 0 /\
  (exists d' tr,
     pciep_driver_file_read k 512 d = Returned (to_int (copy_left k)) d' tr /\
     Z.testbit (ioread32 (regs d') PCIEP_READ_BUFFER_READY) 0 = true) /\
  (exists d' tr,
     pciep_driver_file_write k 512 d = Returned 0 d' tr /\
     Z.testbit (ioread32 (regs d') PCIEP_WRITE_BUFFER_READY) 0 = true).
Proof.
  intros k d.
  assert (H1 : 0 < 512) by lia.
  assert (H2 : IS_ERR_OR_NULL (fst (alloc_result k)) = false) by reflexivity.
  assert (H3 : meanwhile k = []) by reflexivity.
  assert (H4 : read_complete d <> O) by discriminate.
  assert (H5 : write_complete d <> O) by discriminate.
  assert (H6 : to_int (copy_left k) = 0) by reflexivity.
  destruct (pending_completion_skips_the_wait k 512 d H1 H2 H3) as (Hr & Hw).
  destruct (Hr H4) as (dr & trr & Er & _ & Br & _).
  destruct (Hw H5 H6) as (dw & trw & Ew & _ & Bw & _).
  exact (conj H1 (conj H2 (conj H3 (conj H4 (conj H5 (conj H6
           (conj (ex_intro _ dr (ex_intro _ trr (conj Er Br)))
                 (ex_intro _ dw (ex_intro _ trw (conj Ew Bw)))))))))).
Defined.

(** A submit call whose sleep ends with its own interrupt returns, and finds
    the ready bit clear: whatever happened earlier in the sleep, the handler
    cleared the bit before it signalled. *)
Theorem woken_submit_finds_ready_clear :
  forall (k : kernel) (count : Z) (d : pciep_driver_data) (l : list async),
    0 < count ->
    IS_ERR_OR_NULL (fst (alloc_result k)) = false ->
    (meanwhile k = l ++ [IrqRead] ->
     exists d' tr,
       pciep_driver_file_read k count d =
         Returned (to_int (copy_left k)) d' tr /\
       Z.testbit (ioread32 (regs d') PCIEP_READ_BUFFER_READY) 0 = false)
    /\
    (meanwhile k = l ++ [IrqWrite] -> to_int (copy_left k) = 0 ->
     exists d' tr,
       pciep_driver_file_write k count d = Returned 0 d' tr /\
       Z.testbit (ioread32 (regs d') PCIEP_WRITE_BUFFER_READY) 0 = false).
Proof.
  intros k count d l Hpos Hok.
  assert (Hbit : forall v,
             Z.testbit (to_u32 (to_u32 (Z.land v (Z.lnot SET_BUFFER_RDY)))) 0
             = false).
  { intros v. unfold SET_BUFFER_RDY. bitwise.
    change (0 =? 0) with true. cbn [negb]. rewrite !andb_false_r.
    reflexivity. }
  split.
  - intros Hlast.
    destruct (run_asyncs_frame l (read_announced k count d))
      as (d1 & tr1 & E1 & _).
    assert (E : exists d2 tr2,
               run_asyncs (meanwhile k) (read_announced k count d) =
                 Returned tt d2 tr2 /\
               read_complete d2 = S (read_complete d1) /\
               Z.testbit (ioread32 (regs d2) PCIEP_READ_BUFFER_READY) 0 = false).
    { rewrite Hlast, run_asyncs_app. unfold bind at 1. rewrite E1.
      cbn [run_asyncs run_async]. unfold xilinx_pciep_read_irq_handler. run.
      eexists; eexists. split; [reflexivity |]. split; [reflexivity |].
      cbn [regs set_regs set_read_complete set_write_complete].
      rewrite ioread32_iowrite32_same. apply Hbit. }
    destruct E as (d2 & tr2 & E & Hdone & Hclear).
    rewrite (file_read_from_sleep k count d d2 tr2 Hpos Hok E), Hdone.
    eexists; eexists. split; [reflexivity |]. exact Hclear.
  - intros Hlast Hcopy.
    destruct (run_asyncs_frame l (write_announced k count d))
      as (d1 & tr1 & E1 & _).
    assert (E : exists d2 tr2,
               run_asyncs (meanwhile k) (write_announced k count d) =
                 Returned tt d2 tr2 /\
               write_complete d2 = S (write_complete d1) /\
               Z.testbit (ioread32 (regs d2) PCIEP_WRITE_BUFFER_READY) 0 = false).
    { rewrite Hlast, run_asyncs_app. unfold bind at 1. rewrite E1.
      cbn [run_asyncs run_async]. unfold xilinx_pciep_write_irq_handler. run.
      eexists; eexists. split; [reflexivity |]. split; [reflexivity |].
      cbn [regs set_regs set_read_complete set_write_complete].
      rewrite ioread32_iowrite32_same. apply Hbit. }
    destruct E as (d2 & tr2 & E & Hdone & Hclear).
    rewrite (file_write_from_sleep k count d d2 tr2 Hpos Hok Hcopy E), Hdone.
    eexists; eexists. split; [reflexivity |]. exact Hclear.
Qed.

(** A device that sets the ready bits again and raises the host-done
    interrupt before the direction's own interrupt. *)
Lemma woken_submit_finds_ready_clear_witness :
  let early := [IrqHostDone; DeviceStore PCIEP_READ_BUFFER_READY 1;
                DeviceStore PCIEP_WRITE_BUFFER_READY 1] in
  let kr := kernel_with (0xffff800012340000, 0x80001000) 0 (early ++ [IrqRead]) in
  let kw := kernel_with (0xffff800012340000, 0x80001000) 0 (early ++ [IrqWrite]) in
  let d := fresh_data (fun _ => 0) in
  0 < 512 /\
  IS_ERR_OR_NULL (fst (alloc_result kr)) = false /\
  meanwhile kr = early ++ [IrqRead] /\
  meanwhile kw = early ++ [IrqWrite] /\
  to_int (copy_left kw) = 0 /\
  (exists d' tr,
     pciep_driver_file_read kr 512 d = Returned (to_int (copy_left kr)) d' tr /\
     Z.testbit (ioread32 (regs d') PCIEP_READ_BUFFER_READY) 0 = false) /\
  (exists d' tr,
     pciep_driver_file_write kw 512 d = Returned 0 d' tr /\
     Z.testbit (ioread32 (regs d') PCIEP_WRITE_BUFFER_READY) 0 = false).
Proof.
  intros early kr kw d.
  assert (H1 : 0 < 512) by lia.
  assert (H2 : IS_ERR_OR_NULL (fst (alloc_result kr)) = false) by reflexivity.
  assert (H3 : meanwhile kr = early ++ [IrqRead]) by reflexivity.
  assert (H4 : meanwhile kw = early ++ [IrqWrite]) by reflexivity.
  assert (H5 : to_int (copy_left kw) = 0) by reflexivity.
  exact (conj H1 (conj H2 (conj H3 (conj H4 (conj H5
           (conj (proj1 (woken_submit_finds_ready_clear kr 512 d early H1 H2) H3)
                 (proj2 (woken_submit_finds_ready_clear kw 512 d early H1 H2)
                    H4 H5))))))).
Defined.



(** The interrupts of the other direction and of host-done wake nobody: a
    read with no completion pending blocks when only those fire, and
    returns when its own fires, and so for a write. *)
Lemma submit_returns_when_signalled_witness :
  let other := kernel_with (0xffff800012340000, 0x80001000) 0
                 [IrqWrite; IrqHostDone] in
  let own := kernel_with (0xffff800012340000, 0x80001000) 0
               [IrqHostDone; IrqRead] in
  let d := fresh_data (fun _ => 0) in
  0 < 512 /\
  IS_ERR_OR_NULL (fst (alloc_result other)) = false /\
  to_int (copy_left other) = 0 /\
  ~ (0 < read_complete d + signals ReadComplete (meanwhile other))%nat /\
  ~ result_of (pciep_driver_file_read other 512 d) <> None /\
  (0 < read_complete d + signals ReadComplete (meanwhile own))%nat /\
  result_of (pciep_driver_file_read own 512 d) <> None /\
  (0 < write_complete d + signals WriteComplete (meanwhile other))%nat /\
  result_of (pciep_driver_file_write other 512 d) <> None.
Proof.
  intros other own d.
  assert (H1 : 0 < 512) by lia.
  assert (H2 : IS_ERR_OR_NULL (fst (alloc_result other)) = false)
    by reflexivity.
  assert (H3 : to_int (copy_left other) = 0) by reflexivity.
  destruct (submit_returns_when_signalled other 512 d H1 H2) as (Ro & Wo).
  destruct (submit_returns_when_signalled own 512 d H1 H2) as (Rn & _).
  assert (N : ~ (0 < read_complete d + signals ReadComplete (meanwhile other))%nat).
  { cbn. lia. }
  assert (P : (0 < read_complete d + signals ReadComplete (meanwhile own))%nat).
  { cbn. lia. }
  assert (Q : (0 < write_complete d + signals WriteComplete (meanwhile other))%nat).
  { cbn. lia. }
  exact (conj H1 (conj H2 (conj H3 (conj N
           (conj (fun H => N (proj1 Ro H))
              (conj P (conj (proj2 Rn P)
                 (conj Q (proj2 (Wo H3) Q))))))))).
Defined.

(** ** Open, beyond the registers it zeroes *)

(** Open writes seven registers and nothing else: the two device-address
    registers, the write byte-offset register and every configuration word
    keep their values, and so do the completions (a signal left pending
    from before the open stays pending) and the buffer fields.  Opening
    twice leaves what opening once leaves. *)
Theorem open_frame :
  forall (d : pciep_driver_data),
    let d' := data_of (pciep_driver_file_open d) in
    (forall reg,
       ~ In reg [PCIEP_READ_TRANSFER_DONE; PCIEP_WRITE_TRANSFER_DONE;
                 PCIEP_READ_BUFFER_OFFSET; PCIEP_READ_BUFFER_SIZE;
                 PCIEP_WRITE_BUFFER_SIZE; PCIEP_READ_BUFFER_READY;
                 PCIEP_WRITE_BUFFER_READY] ->
       regs d' reg = regs d reg) /\
    read_complete d' = read_complete d /\
    write_complete d' = write_complete d /\
    same_buffers d d' /\
    filter (fun e => negb (is_reg_write e)) (log_of (pciep_driver_file_open d))
      = [] /\
    (forall reg,
       regs (data_of (pciep_driver_file_open d')) reg = regs d' reg).
Proof.
  intros d d'. subst d'.
  unfold pciep_driver_file_open, pcie_reset_all. run.
  split.
  { intros reg Hreg. cbn [In] in Hreg.
    rewrite !iowrite32_other; [reflexivity | | | | | | |];
      intros ->; apply Hreg; tauto. }
  split; [reflexivity |]. split; [reflexivity |].
  split; [repeat split |]. split; [reflexivity |].
  intros reg. unfold iowrite32.
  destruct (reg =? PCIEP_WRITE_BUFFER_READY); [reflexivity |].
  destruct (reg =? PCIEP_READ_BUFFER_READY); [reflexivity |].
  destruct (reg =? PCIEP_WRITE_BUFFER_SIZE); [reflexivity |].
  destruct (reg =? PCIEP_READ_BUFFER_SIZE); [reflexivity |].
  destruct (reg =? PCIEP_READ_BUFFER_OFFSET); [reflexivity |].
  destruct (reg =? PCIEP_WRITE_TRANSFER_DONE); [reflexivity |].
  destruct (reg =? PCIEP_READ_TRANSFER_DONE); reflexivity.
Qed.

Lemma open_frame_witness :
  let d :=
    mk_driver_data (fun reg => reg + 1) 1 0 false 0 0 0 0 in
  let d' := data_of (pciep_driver_file_open d) in
  ~ In PCIEP_WRITE_BUFFER_ADDR
      [PCIEP_READ_TRANSFER_DONE; PCIEP_WRITE_TRANSFER_DONE;
       PCIEP_READ_BUFFER_OFFSET; PCIEP_READ_BUFFER_SIZE;
       PCIEP_WRITE_BUFFER_SIZE; PCIEP_READ_BUFFER_READY;
       PCIEP_WRITE_BUFFER_READY] /\
  regs d' PCIEP_WRITE_BUFFER_ADDR = regs d PCIEP_WRITE_BUFFER_ADDR /\
  read_complete d' = 1%nat.
Proof.
  intros d d'.
  assert (H : ~ In PCIEP_WRITE_BUFFER_ADDR
                [PCIEP_READ_TRANSFER_DONE; PCIEP_WRITE_TRANSFER_DONE;
                 PCIEP_READ_BUFFER_OFFSET; PCIEP_READ_BUFFER_SIZE;
                 PCIEP_WRITE_BUFFER_SIZE; PCIEP_READ_BUFFER_READY;
                 PCIEP_WRITE_BUFFER_READY]).
  { cbn. intros [E | [E | [E | [E | [E | [E | [E | []]]]]]]]; discriminate E. }
  destruct (open_frame d) as (Hframe & Hrc & _).
  exact (conj H (conj (Hframe _ H) Hrc)).
Defined.

(** ** Creating and destroying a device *)

(** Runs the life-cycle code on the module state. *)
Ltac sys_run :=
  cbv beta iota zeta delta
    [sys_bind sys_ret call get_state update when value_of state_of calls_of];
  cbn [fst snd app].

(** The label [failed] at the three values [done] can have there. *)
Lemma create_failed_early (minor : Z) (s : module_state) :
  pciep_driver_create_failed 0 0 0 minor s = (None, s, []).
Proof. reflexivity. Qed.

Lemma create_failed_minor (this devt minor : Z) (s : module_state) :
  pciep_driver_create_failed (Z.lor 0 DONE_ALLOC_MINOR) this devt minor s =
    (None, s,
     IdaSimpleRemove minor :: if this =? 0 then [] else [Kfree this]).
Proof.
  unfold pciep_driver_create_failed. sys_run.
  change (negb (Z.land (Z.lor 0 DONE_ALLOC_MINOR) DONE_CHRDEV_ADD =? 0))
    with false.
  change (negb (Z.land (Z.lor 0 DONE_ALLOC_MINOR) DONE_DEVICE_CREATE =? 0))
    with false.
  change (negb (Z.land (Z.lor 0 DONE_ALLOC_MINOR) DONE_ALLOC_MINOR =? 0))
    with true.
  destruct (this =? 0); reflexivity.
Qed.

Lemma create_failed_cdev (this devt minor : Z) (s : module_state) :
  pciep_driver_create_failed
    (Z.lor (Z.lor (Z.lor 0 DONE_ALLOC_MINOR) DONE_DEVICE_CREATE) DONE_ALLOC_CMA)
    this devt minor s =
    (None, s,
     DeviceDestroy (pciep_sys_class s) devt :: IdaSimpleRemove minor ::
     if this =? 0 then [] else [Kfree this]).
Proof.
  unfold pciep_driver_create_failed. sys_run.
  change (negb (Z.land (Z.lor (Z.lor (Z.lor 0 DONE_ALLOC_MINOR)
                                 DONE_DEVICE_CREATE) DONE_ALLOC_CMA)
                  DONE_CHRDEV_ADD =? 0)) with false.
  change (negb (Z.land (Z.lor (Z.lor (Z.lor 0 DONE_ALLOC_MINOR)
                                 DONE_DEVICE_CREATE) DONE_ALLOC_CMA)
                  DONE_DEVICE_CREATE =? 0)) with true.
  change (negb (Z.land (Z.lor (Z.lor (Z.lor 0 DONE_ALLOC_MINOR)
                                 DONE_DEVICE_CREATE) DONE_ALLOC_CMA)
                  DONE_ALLOC_MINOR =? 0)) with true.
  destruct (this =? 0); reflexivity.
Qed.

Lemma not_err_not_null (ptr : Z) :
  IS_ERR_OR_NULL ptr = false -> (ptr =? 0) = false.
Proof.
  unfold IS_ERR_OR_NULL. intros H. apply orb_false_elim in H. apply H.
Qed.

(** The minor of a device number built from a minor below 256. *)
Lemma MINOR_MKDEV (ma mi : Z) :
  0 <= mi < DEVICE_MAX_NUM -> MINOR (MKDEV ma mi) = mi.
Proof.
  unfold DEVICE_MAX_NUM, MINOR, MKDEV. intros H.
  rewrite <- (Z.mod_small mi (2 ^ 20)) at 2 by lia.
  apply Z.bits_inj'. intros i Hi.
  rewrite Z.testbit_mod_pow2 by lia.
  rewrite testbit_to_u32, Z.land_spec, testbit_to_u32, Z.lor_spec.
  rewrite Z.shiftl_spec by exact Hi.
  change 0xFFFFF with (Z.ones 20). rewrite Z.testbit_ones_nonneg by lia.
  destruct (Z.ltb_spec i 20) as [Hlow | Hhigh].
  - rewrite (Z.testbit_neg_r ma (i - 20)) by lia.
    destruct (Z.ltb_spec i 32); [| lia].
    cbn [andb orb]. rewrite andb_true_r. reflexivity.
  - rewrite !andb_false_r. reflexivity.
Qed.

(** What [pciep_driver_create] does when every step succeeds. *)
Lemma create_success_run (o : answers) (parent minor size : Z) (s : module_state) :
  create_ok o minor = true ->
  let this := kzalloc_ret o in
  let devt := MKDEV (MAJOR (pciep_device_number s)) minor in
  pciep_driver_create o parent minor size s =
    (Some (mk_driver_object this devt size (device_create_ret o) parent 0 0 0 0),
     s,
     [IdaSimpleGet minor (to_u32 (minor + 1)) (ida_simple_get_ret o);
      Kzalloc this;
      DeviceCreate (pciep_sys_class s) parent devt (MINOR devt)
        (device_create_ret o);
      OfDmaConfigure parent;
      DmaSetMask parent (sizeof_dma_addr_t o * 4);
      DmaSetCoherentMask parent (sizeof_dma_addr_t o * 4);
      CdevInit this;
      CdevAdd this devt MAX_INSTANCES (cdev_add_ret o);
      InitCompletion this ReadComplete;
      InitCompletion this WriteComplete]).
Proof.
  intros H this devt. unfold create_ok in H.
  apply andb_prop in H. destruct H as (H & H5).
  apply andb_prop in H. destruct H as (H & H4).
  apply andb_prop in H. destruct H as (H & H3).
  apply andb_prop in H. destruct H as (H1 & H2).
  apply negb_true_iff in H2, H3, H4.
  unfold pciep_driver_create. rewrite H1. sys_run.
  rewrite H2. sys_run. rewrite H3. sys_run. rewrite H4. sys_run.
  rewrite H5. reflexivity.
Qed.

(** What [pciep_driver_create] does when a step fails. *)
Lemma create_failed_run (o : answers) (parent minor size : Z) (s : module_state) :
  create_ok o minor = false ->
  exists tr,
    pciep_driver_create o parent minor size s = (None, s, tr) /\
    held_after tr = [] /\
    (DEVICE_MAX_NUM <= minor -> tr = []) /\
    forallb (fun c => match c with CdevDel _ => false | _ => true end) tr = true.
Proof.
  intros Hok.
  unfold create_ok in Hok. unfold pciep_driver_create.
  destruct (Z.ltb_spec minor DEVICE_MAX_NUM) as [Hlt | Hge].
  2:{ sys_run. rewrite create_failed_early. eexists.
      split; [reflexivity |]. repeat split. }
  sys_run.
  destruct (ida_simple_get_ret o <? 0) eqn:H2.
  { rewrite create_failed_early. sys_run. eexists.
    split; [reflexivity |].
    unfold held_after. cbn [fold_left hold]. rewrite H2.
    repeat split. intros; lia. }
  sys_run.
  destruct (IS_ERR_OR_NULL (kzalloc_ret o)) eqn:H3.
  { rewrite create_failed_minor. sys_run. eexists.
    split; [reflexivity |]. unfold held_after.
    destruct (kzalloc_ret o =? 0) eqn:Hnull;
      cbn [app fold_left hold give_back resource_eqb forallb andb];
      rewrite ?H2, ?H3; cbn [give_back resource_eqb];
      rewrite ?Z.eqb_refl;
      repeat split; intros; lia. }
  sys_run.
  pose proof (not_err_not_null _ H3) as Hnn.
  destruct (IS_ERR_OR_NULL (device_create_ret o)) eqn:H4.
  { rewrite create_failed_minor, Hnn. sys_run. eexists.
    split; [reflexivity |]. unfold held_after.
    cbn [app fold_left hold give_back resource_eqb forallb andb].
    rewrite ?H2, ?H3, ?H4. cbn [give_back resource_eqb].
    rewrite ?Z.eqb_refl. cbn [give_back resource_eqb].
    rewrite ?Z.eqb_refl.
    repeat split; intros; lia. }
  sys_run.
  destruct (cdev_add_ret o =? 0) eqn:H5.
  { cbn in Hok. discriminate Hok. }
  cbn [negb]. rewrite create_failed_cdev, Hnn. sys_run. eexists.
  split; [reflexivity |]. unfold held_after.
  cbn [app fold_left hold give_back resource_eqb forallb andb].
  rewrite ?H2, ?H3, ?H4, ?H5. cbn [fold_left hold give_back resource_eqb].
  rewrite ?Z.eqb_refl. cbn [fold_left hold give_back resource_eqb].
  rewrite ?Z.eqb_refl. cbn [fold_left hold give_back resource_eqb].
  rewrite ?Z.eqb_refl.
  repeat split; intros; lia.
Qed.

(** A failed [pciep_driver_create] leaks nothing.  The call returns NULL
    exactly when the minor is 256 or more or one of its four acquisitions
    fails; it then has given back, newest first, each thing it had acquired
    (the sysfs device, the minor, the structure), so that nothing stays
    held.  It makes no call at all when the minor is out of range, never
    calls [cdev_del], and never changes the module's variables. *)
Theorem create_failure_leaks_nothing :
  forall (o : answers) (parent minor size : Z) (s : module_state),
    let run := pciep_driver_create o parent minor size s in
    state_of run = s /\
    (value_of run = None <-> create_ok o minor = false) /\
    (value_of run = None -> held_after (calls_of run) = []) /\
    (DEVICE_MAX_NUM <= minor -> calls_of run = []) /\
    forallb (fun c => match c with CdevDel _ => false | _ => true end)
      (calls_of run) = true.
Proof.
  intros o parent minor size s run. subst run.
  destruct (create_ok o minor) eqn:Hok.
  - rewrite (create_success_run o parent minor size s Hok). sys_run.
    unfold create_ok in Hok.
    repeat split; try discriminate; try reflexivity.
    intros Hbig. destruct (Z.ltb_spec minor DEVICE_MAX_NUM); [lia |].
    discriminate Hok.
  - destruct (create_failed_run o parent minor size s Hok)
      as (tr & -> & Hheld & Hbig & Hdel).
    sys_run. repeat split; intros; assumption || reflexivity || auto.
Qed.

(** Creation with a minor out of range, and creation stopped by [cdev_add]
    after everything else was acquired. *)
Lemma create_failure_leaks_nothing_witness :
  let o :=
    mk_answers 0 0xffff888000100000 0xffff888000200000 (-16) 8
      0 (fun _ => 0) (fun _ => 0) (0, 0) 0 0 in
  let s := mk_module_state 0x0F000000 false 0xffff888000300000 None in
  (DEVICE_MAX_NUM <= 300 /\
   calls_of (pciep_driver_create o 0x1000 300 4096 s) = []) /\
  (value_of (pciep_driver_create o 0x1000 0 4096 s) = None /\
   held_after (calls_of (pciep_driver_create o 0x1000 0 4096 s)) = [] /\
   filter is_release (calls_of (pciep_driver_create o 0x1000 0 4096 s)) =
     [DeviceDestroy 0xffff888000300000 0x0F000000;
      IdaSimpleRemove 0;
      Kfree 0xffff888000100000]).
Proof.
  intros o s.
  assert (H1 : DEVICE_MAX_NUM <= 300) by (unfold DEVICE_MAX_NUM; lia).
  assert (H2 : value_of (pciep_driver_create o 0x1000 0 4096 s) = None)
    by reflexivity.
  destruct (create_failure_leaks_nothing o 0x1000 300 4096 s)
    as (_ & _ & _ & Hbig & _).
  destruct (create_failure_leaks_nothing o 0x1000 0 4096 s)
    as (_ & _ & Hclean & _ & _).
  exact (conj (conj H1 (Hbig H1)) (conj H2 (conj (Hclean H2) eq_refl))).
Defined.

(** A created device carries the minor asked for, and [pciep_driver_destroy]
    gives back that minor, the character device and the structure, in this
    order; it has no call for the sysfs device that the creation
    registered, which stays held after the pair. *)
Theorem create_then_destroy_keeps_sysfs_device :
  forall (o : answers) (parent minor size : Z) (s : module_state)
         (this : driver_object),
    0 <= minor ->
    value_of (pciep_driver_create o parent minor size s) = Some this ->
    let made := calls_of (pciep_driver_create o parent minor size s) in
    let gone := pciep_driver_destroy (Some this) s in
    this_addr this = kzalloc_ret o /\
    MINOR (device_number this) = minor /\
    held_after made =
      [CharDevice (this_addr this); SysfsDevice (device_number this);
       Structure (this_addr this); MinorId minor] /\
    value_of gone = 0 /\
    calls_of gone =
      [IdaSimpleRemove minor; CdevDel (this_addr this); Kfree (this_addr this)] /\
    held_after (made ++ calls_of gone) = [SysfsDevice (device_number this)].
Proof.
  intros o parent minor size s this Hminor Hmade made gone. subst made gone.
  destruct (create_ok o minor) eqn:Hok.
  2:{ destruct (create_failed_run o parent minor size s Hok) as (tr & E & _).
      rewrite E in Hmade. discriminate Hmade. }
  rewrite (create_success_run o parent minor size s Hok) in *.
  unfold value_of in Hmade. cbn [fst] in Hmade. injection Hmade as <-.
  unfold create_ok in Hok.
  apply andb_prop in Hok. destruct Hok as (Hok & H5).
  apply andb_prop in Hok. destruct Hok as (Hok & H4).
  apply andb_prop in Hok. destruct Hok as (Hok & H3).
  apply andb_prop in Hok. destruct Hok as (H1 & H2).
  apply negb_true_iff in H2, H3, H4.
  apply Z.ltb_lt in H1.
  assert (Hm : MINOR (MKDEV (MAJOR (pciep_device_number s)) minor) = minor)
    by (apply MINOR_MKDEV; lia).
  unfold pciep_driver_destroy. sys_run.
  cbn [this_addr device_number]. rewrite Hm.
  unfold held_after.
  cbn [app fold_left hold]. rewrite H2, H3, H4, H5.
  cbn [give_back resource_eqb]. rewrite !Z.eqb_refl.
  cbn [give_back resource_eqb andb]. rewrite !Z.eqb_refl.
  repeat split.
Qed.

Lemma create_then_destroy_keeps_sysfs_device_witness :
  let s := mk_module_state 0x0F000000 false 0xffff888000300000 None in
  let made := pciep_driver_create willing_kernel 0x1000 0 4096 s in
  exists this,
    0 <= 0 /\
    value_of made = Some this /\
    held_after (calls_of made ++ calls_of (pciep_driver_destroy (Some this) s)) =
      [SysfsDevice (device_number this)].
Proof.
  intros s made.
  assert (H0 : 0 <= 0) by lia.
  assert (E : exists this, value_of made = Some this)
    by (eexists; reflexivity).
  destruct E as (this & E). exists this.
  destruct (create_then_destroy_keeps_sysfs_device
              willing_kernel 0x1000 0 4096 s this H0 E)
    as (_ & _ & _ & _ & _ & Hheld).
  exact (conj H0 (conj E Hheld)).
Defined.

(** ** Probing and removing a device *)

(** A probe whose device creation fails reports success: it returns 0,
    although it sets no driver data and holds nothing; a later remove of
    the device then fails with [-ENODEV] without a call. *)
Theorem probe_reports_success_when_create_fails :
  forall (o : answers) (pdev : Z) (s : module_state),
    create_ok o 0 = false ->
    let run := pciep_platform_driver_probe o pdev s in
    value_of run = 0 /\
    state_of run = s /\
    calls_of run = calls_of (pciep_driver_create o pdev 0 4096 s) /\
    held_after (calls_of run) = [] /\
    (drvdata s = None ->
     pciep_platform_driver_remove (state_of run) = (- ENODEV, s, [])).
Proof.
  intros o pdev s Hok run. subst run.
  destruct (create_failed_run o pdev 0 4096 s Hok) as (tr & E & Hheld & _).
  unfold pciep_platform_driver_probe. sys_run. rewrite E. sys_run.
  rewrite app_nil_r.
  split; [reflexivity |]. split; [reflexivity |]. split; [reflexivity |].
  split; [exact Hheld |].
  intros Hnone. unfold pciep_platform_driver_remove. sys_run.
  rewrite Hnone. reflexivity.
Qed.

(** A second device probed while minor 0 is taken. *)
Lemma probe_reports_success_when_create_fails_witness :
  let o :=
    mk_answers (-28) 0 0 0 8 0 (fun _ => 0) (fun _ => 0) (0, 0) 0 0 in
  let s := mk_module_state 0x0F000000 true 0xffff888000300000 None in
  create_ok o 0 = false /\
  drvdata s = None /\
  value_of (pciep_platform_driver_probe o 0x1000 s) = 0 /\
  pciep_platform_driver_remove
    (state_of (pciep_platform_driver_probe o 0x1000 s)) = (- ENODEV, s, []).
Proof.
  intros o s.
  assert (H1 : create_ok o 0 = false) by reflexivity.
  assert (H2 : drvdata s = None) by reflexivity.
  destruct (probe_reports_success_when_create_fails o 0x1000 s H1)
    as (Hv & _ & _ & _ & Hremove).
  exact (conj H1 (conj H2 (conj Hv (Hremove H2)))).
Defined.

(** The probe after a successful creation, step by step. *)
Lemma probe_after_create (o : answers) (pdev : Z) (s : module_state) :
  create_ok o 0 = true ->
  let made := calls_of (pciep_driver_create o pdev 0 4096 s) in
  let this := kzalloc_ret o in
  let regs_ptr := devm_ioremap_resource_ret o in
  let irq index := to_int (irq_of_parse_and_map_ret o index) in
  let map index := IrqOfParseAndMap index (irq_of_parse_and_map_ret o index) in
  let request index h :=
    DevmRequestIrq (irq index) h this (devm_request_irq_ret o h) in
  let device :=
    mk_driver_object this (MKDEV (MAJOR (pciep_device_number s)) 0) 4096
      (device_create_ret o) pdev regs_ptr (irq 0) (irq 1) (irq 2) in
  pciep_platform_driver_probe o pdev s =
    if IS_ERR_OR_NULL regs_ptr then
      (to_int (PTR_ERR regs_ptr), s, made ++ [DevmIoremapResource regs_ptr])
    else if irq 0 <? 0 then
      (irq 0, s, made ++ [DevmIoremapResource regs_ptr; map 0])
    else if devm_request_irq_ret o ReadHandler <? 0 then
      (0, s, made ++ [DevmIoremapResource regs_ptr; map 0;
                      request 0 ReadHandler])
    else if irq 1 <? 0 then
      (irq 1, s, made ++ [DevmIoremapResource regs_ptr; map 0;
                          request 0 ReadHandler; map 1])
    else if devm_request_irq_ret o WriteHandler <? 0 then
      (0, s, made ++ [DevmIoremapResource regs_ptr; map 0;
                      request 0 ReadHandler; map 1; request 1 WriteHandler])
    else if irq 2 <? 0 then
      (irq 2, s, made ++ [DevmIoremapResource regs_ptr; map 0;
                          request 0 ReadHandler; map 1; request 1 WriteHandler;
                          map 2])
    else if devm_request_irq_ret o HostDoneHandler <? 0 then
      (0, s, made ++ [DevmIoremapResource regs_ptr; map 0;
                      request 0 ReadHandler; map 1; request 1 WriteHandler;
                      map 2; request 2 HostDoneHandler])
    else
      (0, set_drvdata (Some device) s,
       made ++ [DevmIoremapResource regs_ptr; map 0; request 0 ReadHandler;
                map 1; request 1 WriteHandler; map 2;
                request 2 HostDoneHandler]).
Proof.
  intros Hok made this regs_ptr irq map request device.
  subst made this regs_ptr irq map request device. cbv beta.
  pose proof Hok as Hok'. unfold create_ok in Hok'.
  apply andb_prop in Hok'. destruct Hok' as (Hok' & _).
  apply andb_prop in Hok'. destruct Hok' as (Hok' & _).
  apply andb_prop in Hok'. destruct Hok' as (_ & H3).
  apply negb_true_iff in H3.
  unfold pciep_platform_driver_probe. sys_run.
  rewrite (create_success_run o pdev 0 4096 s Hok). sys_run.
  cbn [this_addr io_regs rd_irq wr_irq host_done_irq set_io_regs set_rd_irq
       set_wr_irq set_host_done_irq device_number size sys_dev dma_dev].
  rewrite H3.
  destruct (IS_ERR_OR_NULL (devm_ioremap_resource_ret o)); sys_run;
    [reflexivity |].
  destruct (to_int (irq_of_parse_and_map_ret o 0) <? 0); sys_run;
    [reflexivity |].
  destruct (devm_request_irq_ret o ReadHandler <? 0); sys_run;
    [reflexivity |].
  destruct (to_int (irq_of_parse_and_map_ret o 1) <? 0); sys_run;
    [reflexivity |].
  destruct (devm_request_irq_ret o WriteHandler <? 0); sys_run;
    [reflexivity |].
  destruct (to_int (irq_of_parse_and_map_ret o 2) <? 0); sys_run;
    [reflexivity |].
  destruct (devm_request_irq_ret o HostDoneHandler <? 0); sys_run;
    reflexivity.
Qed.

Lemma held_after_app (tr1 tr2 : list kcall) :
  held_after (tr1 ++ tr2) = fold_left hold tr2 (held_after tr1).
Proof. unfold held_after. apply fold_left_app. Qed.

Lemma held_after_create (o : answers) (parent minor size : Z) (s : module_state) :
  create_ok o minor = true ->
  held_after (calls_of (pciep_driver_create o parent minor size s)) =
    [CharDevice (kzalloc_ret o);
     SysfsDevice (MKDEV (MAJOR (pciep_device_number s)) minor);
     Structure (kzalloc_ret o); MinorId minor] /\
  filter is_release (calls_of (pciep_driver_create o parent minor size s)) = [].
Proof.
  intros Hok. rewrite (create_success_run o parent minor size s Hok).
  unfold create_ok in Hok.
  apply andb_prop in Hok. destruct Hok as (Hok & H5).
  apply andb_prop in Hok. destruct Hok as (Hok & H4).
  apply andb_prop in Hok. destruct Hok as (Hok & H3).
  apply andb_prop in Hok. destruct Hok as (_ & H2).
  apply negb_true_iff in H2, H3, H4.
  sys_run. unfold held_after. cbn [fold_left hold].
  rewrite H2, H3, H4, H5. split; reflexivity.
Qed.

(** A probe that fails after the device was created keeps the device: it
    calls no release, so minor 0, the structure, the sysfs device and the
    character device stay held, and it sets no driver data.  When the step
    that failed is the installation of an interrupt handler, the probe
    returns 0. *)
Theorem probe_failure_keeps_device :
  forall (o : answers) (pdev : Z) (s : module_state),
    create_ok o 0 = true ->
    probe_steps_ok o = false ->
    let run := pciep_platform_driver_probe o pdev s in
    state_of run = s /\
    filter is_release (calls_of run) = [] /\
    held_after (calls_of run) =
      [CharDevice (kzalloc_ret o);
       SysfsDevice (MKDEV (MAJOR (pciep_device_number s)) 0);
       Structure (kzalloc_ret o); MinorId 0] /\
    (IS_ERR_OR_NULL (devm_ioremap_resource_ret o) = false ->
     (forall index, In index [0; 1; 2] ->
        0 <= to_int (irq_of_parse_and_map_ret o index)) ->
     value_of run = 0).
Proof.
  intros o pdev s Hok Hsteps run. subst run.
  destruct (held_after_create o pdev 0 4096 s Hok) as (Hheld & Hrel).
  unfold calls_of in Hheld, Hrel.
  rewrite (probe_after_create o pdev s Hok).
  unfold probe_steps_ok in Hsteps.
  destruct (IS_ERR_OR_NULL (devm_ioremap_resource_ret o)) eqn:T1;
    [sys_run; rewrite held_after_app, filter_app, Hheld, Hrel;
     repeat split; intros; discriminate |].
  destruct (to_int (irq_of_parse_and_map_ret o 0) <? 0) eqn:T2;
    [sys_run; rewrite held_after_app, filter_app, Hheld, Hrel;
     repeat split; intros _ Hirq;
     apply Z.ltb_lt in T2; specialize (Hirq 0 ltac:(cbn; tauto)); lia |].
  destruct (devm_request_irq_ret o ReadHandler <? 0) eqn:T3;
    [sys_run; rewrite held_after_app, filter_app, Hheld, Hrel;
     repeat split |].
  destruct (to_int (irq_of_parse_and_map_ret o 1) <? 0) eqn:T4;
    [sys_run; rewrite held_after_app, filter_app, Hheld, Hrel;
     repeat split; intros _ Hirq;
     apply Z.ltb_lt in T4; specialize (Hirq 1 ltac:(cbn; tauto)); lia |].
  destruct (devm_request_irq_ret o WriteHandler <? 0) eqn:T5;
    [sys_run; rewrite held_after_app, filter_app, Hheld, Hrel;
     repeat split |].
  destruct (to_int (irq_of_parse_and_map_ret o 2) <? 0) eqn:T6;
    [sys_run; rewrite held_after_app, filter_app, Hheld, Hrel;
     repeat split; intros _ Hirq;
     apply Z.ltb_lt in T6; specialize (Hirq 2 ltac:(cbn; tauto)); lia |].
  destruct (devm_request_irq_ret o HostDoneHandler <? 0) eqn:T7;
    [sys_run; rewrite held_after_app, filter_app, Hheld, Hrel;
     repeat split |].
  cbn in Hsteps. discriminate Hsteps.
Qed.

(** A probe stopped by the installation of the write handler. *)
Lemma probe_failure_keeps_device_witness :
  let o :=
    mk_answers 0 0xffff888000100000 0xffff888000200000 0 8
      0xffff000010000000 (fun index => 40 + index)
      (fun h => match h with WriteHandler => -16 | _ => 0 end)
      (0, 0) 0 0 in
  let s := mk_module_state 0x0F000000 true 0xffff888000300000 None in
  let run := pciep_platform_driver_probe o 0x1000 s in
  create_ok o 0 = true /\
  probe_steps_ok o = false /\
  IS_ERR_OR_NULL (devm_ioremap_resource_ret o) = false /\
  (forall index, In index [0; 1; 2] ->
     0 <= to_int (irq_of_parse_and_map_ret o index)) /\
  value_of run = 0 /\
  drvdata (state_of run) = None /\
  held_after (calls_of run) =
    [CharDevice 0xffff888000100000; SysfsDevice 0x0F000000;
     Structure 0xffff888000100000; MinorId 0].
Proof.
  intros o s run.
  assert (H1 : create_ok o 0 = true) by reflexivity.
  assert (H2 : probe_steps_ok o = false) by reflexivity.
  assert (H3 : IS_ERR_OR_NULL (devm_ioremap_resource_ret o) = false)
    by reflexivity.
  assert (H4 : forall index, In index [0; 1; 2] ->
                 0 <= to_int (irq_of_parse_and_map_ret o index)).
  { intros index [<- | [<- | [<- | []]]]; discriminate. }
  destruct (probe_failure_keeps_device o 0x1000 s H1 H2)
    as (Hs & _ & Hheld & Hzero).
  assert (Hd : drvdata (state_of run) = None).
  { subst run. rewrite Hs. reflexivity. }
  exact (conj H1 (conj H2 (conj H3 (conj H4
           (conj (Hzero H3 H4) (conj Hd Hheld)))))).
Defined.

(** A probe in which every step succeeds returns 0 and records the device:
    the mapped registers and the three interrupt numbers, with the read
    handler installed on line index 0, the write handler on index 1 and the
    host-done handler on index 2, each mapped just before.  Removing the
    device afterwards returns 0, clears the driver data and gives back the
    minor, the character device and the structure; the sysfs device stays
    held. *)
Theorem probe_then_remove :
  forall (o : answers) (pdev : Z) (s : module_state),
    create_ok o 0 = true ->
    probe_steps_ok o = true ->
    let run := pciep_platform_driver_probe o pdev s in
    let this := kzalloc_ret o in
    let irq index := to_int (irq_of_parse_and_map_ret o index) in
    let gone := pciep_platform_driver_remove (state_of run) in
    value_of run = 0 /\
    drvdata (state_of run) =
      Some (mk_driver_object this (MKDEV (MAJOR (pciep_device_number s)) 0)
              4096 (device_create_ret o) pdev (devm_ioremap_resource_ret o)
              (irq 0) (irq 1) (irq 2)) /\
    (exists made,
       calls_of run =
         made ++
         [DevmIoremapResource (devm_ioremap_resource_ret o);
          IrqOfParseAndMap 0 (irq_of_parse_and_map_ret o 0);
          DevmRequestIrq (irq 0) ReadHandler this
            (devm_request_irq_ret o ReadHandler);
          IrqOfParseAndMap 1 (irq_of_parse_and_map_ret o 1);
          DevmRequestIrq (irq 1) WriteHandler this
            (devm_request_irq_ret o WriteHandler);
          IrqOfParseAndMap 2 (irq_of_parse_and_map_ret o 2);
          DevmRequestIrq (irq 2) HostDoneHandler this
            (devm_request_irq_ret o HostDoneHandler)]) /\
    value_of gone = 0 /\
    drvdata (state_of gone) = None /\
    calls_of gone = [IdaSimpleRemove 0; CdevDel this; Kfree this] /\
    held_after (calls_of run ++ calls_of gone) =
      [SysfsDevice (MKDEV (MAJOR (pciep_device_number s)) 0)].
Proof.
  intros o pdev s Hok Hsteps run this irq gone. subst run this irq gone.
  cbv beta.
  destruct (held_after_create o pdev 0 4096 s Hok) as (Hheld & _).
  unfold calls_of in Hheld.
  rewrite (probe_after_create o pdev s Hok).
  unfold probe_steps_ok in Hsteps.
  apply andb_prop in Hsteps. destruct Hsteps as (Hsteps & T7).
  apply andb_prop in Hsteps. destruct Hsteps as (Hsteps & T6).
  apply andb_prop in Hsteps. destruct Hsteps as (Hsteps & T5).
  apply andb_prop in Hsteps. destruct Hsteps as (Hsteps & T4).
  apply andb_prop in Hsteps. destruct Hsteps as (Hsteps & T3).
  apply andb_prop in Hsteps. destruct Hsteps as (T1 & T2).
  apply negb_true_iff in T1, T2, T3, T4, T5, T6, T7.
  rewrite T1, T2, T3, T4, T5, T6, T7. sys_run.
  unfold pciep_platform_driver_remove, pciep_driver_destroy. sys_run.
  cbn [drvdata set_drvdata device_number this_addr].
  rewrite (MINOR_MKDEV _ 0) by (unfold DEVICE_MAX_NUM; lia).
  sys_run. cbn [Z.eqb negb]. sys_run. cbn [drvdata set_drvdata].
  split; [reflexivity |]. split; [reflexivity |].
  split; [eexists; reflexivity |].
  split; [reflexivity |]. split; [reflexivity |]. split; [reflexivity |].
  rewrite !held_after_app, Hheld.
  cbn [fold_left hold give_back resource_eqb]. rewrite !Z.eqb_refl.
  cbn [give_back resource_eqb andb]. rewrite ?Z.eqb_refl. reflexivity.
Qed.

Lemma probe_then_remove_witness :
  let s := mk_module_state 0x0F000000 true 0xffff888000300000 None in
  let run := pciep_platform_driver_probe willing_kernel 0x1000 s in
  create_ok willing_kernel 0 = true /\
  probe_steps_ok willing_kernel = true /\
  value_of run = 0 /\
  value_of (pciep_platform_driver_remove (state_of run)) = 0 /\
  held_after
    (calls_of run ++ calls_of (pciep_platform_driver_remove (state_of run))) =
    [SysfsDevice 0x0F000000].
Proof.
  intros s run.
  assert (H1 : create_ok willing_kernel 0 = true) by reflexivity.
  assert (H2 : probe_steps_ok willing_kernel = true) by reflexivity.
  destruct (probe_then_remove willing_kernel 0x1000 s H1 H2)
    as (Hv & _ & _ & Hg & _ & _ & Hheld).
  exact (conj H1 (conj H2 (conj Hv (conj Hg Hheld)))).
Defined.

(** ** Loading and unloading the module *)

(** What [pciep_module_init] does, by the answers it gets. *)
Lemma module_init_run (o : answers) (s : module_state) :
  let ret_ := fst (alloc_chrdev_region_ret o) in
  let dev := snd (alloc_chrdev_region_ret o) in
  let class := class_create_ret o in
  let reg := platform_driver_register_ret o in
  let region := [IdaInit; AllocChrdevRegion 0 MAX_INSTANCES ret_ dev] in
  pciep_module_init o s =
    if negb (ret_ =? 0) then
      (ret_, set_pciep_device_number 0 (set_pciep_device_number dev s),
       region ++
       (if pciep_platform_driver_done s then [PlatformDriverUnregister] else []) ++
       [IdaDestroy])
    else if IS_ERR_OR_NULL class then
      (to_int (PTR_ERR class),
       set_pciep_sys_class 0
         (set_pciep_sys_class class (set_pciep_device_number dev s)),
       region ++ [ClassCreate class] ++
       (if pciep_platform_driver_done s then [PlatformDriverUnregister] else []) ++
       (if negb (dev =? 0) then [UnregisterChrdevRegion dev 0] else []) ++
       [IdaDestroy])
    else
      (0,
       (if negb (reg =? 0) then fun x => x
        else set_pciep_platform_driver_done true)
         (set_pciep_sys_class class (set_pciep_device_number dev s)),
       region ++ [ClassCreate class; PlatformDriverRegister reg]).
Proof.
  intros ret_ dev class reg region. subst ret_ dev class reg region.
  unfold pciep_module_init, pciep_module_exit.
  destruct (alloc_chrdev_region_ret o) as [ret_ dev]. cbn [fst snd].
  sys_run.
  destruct (negb (ret_ =? 0)); sys_run.
  { cbn [pciep_platform_driver_done pciep_device_number
         set_pciep_device_number].
    destruct (pciep_platform_driver_done s); reflexivity. }
  destruct (IS_ERR_OR_NULL (class_create_ret o)); sys_run.
  { cbn [pciep_platform_driver_done pciep_device_number
         set_pciep_device_number set_pciep_sys_class].
    destruct (pciep_platform_driver_done s), (negb (dev =? 0)); reflexivity. }
  destruct (negb (platform_driver_register_ret o =? 0)); reflexivity.
Qed.

(** A module load that cannot allocate its device numbers returns the
    allocation's error, having only initialised and destroyed the minor
    allocator, and holds nothing.  A load that cannot create the device
    class returns the class pointer read as an error code, which is 0 for a
    null pointer; its only call that releases is
    [unregister_chrdev_region] with a count of 0, which gives nothing
    back, so the [MAX_INSTANCES] device numbers it allocated stay held. *)
Theorem module_init_failure_keeps_device_numbers :
  forall (o : answers) (s : module_state),
    pciep_platform_driver_done s = false ->
    let ret_ := fst (alloc_chrdev_region_ret o) in
    let dev := snd (alloc_chrdev_region_ret o) in
    let class := class_create_ret o in
    let run := pciep_module_init o s in
    (ret_ <> 0 ->
     value_of run = ret_ /\
     calls_of run =
       [IdaInit; AllocChrdevRegion 0 MAX_INSTANCES ret_ dev; IdaDestroy] /\
     pciep_device_number (state_of run) = 0 /\
     held_after (calls_of run) = [])
    /\
    (ret_ = 0 -> dev <> 0 -> IS_ERR_OR_NULL class = true ->
     value_of run = to_int (PTR_ERR class) /\
     (class = 0 -> value_of run = 0) /\
     calls_of run =
       [IdaInit; AllocChrdevRegion 0 MAX_INSTANCES 0 dev; ClassCreate class;
        UnregisterChrdevRegion dev 0; IdaDestroy] /\
     filter is_release (calls_of run) = [UnregisterChrdevRegion dev 0] /\
     pciep_sys_class (state_of run) = 0 /\
     pciep_device_number (state_of run) = dev /\
     held_after (calls_of run) = [ChrdevRegion dev MAX_INSTANCES]).
Proof.
  intros o s Hdone ret_ dev class run. subst run.
  rewrite module_init_run. fold ret_ dev class. rewrite Hdone.
  split.
  - intros Hret. apply Z.eqb_neq in Hret. rewrite Hret. cbn [negb]. sys_run.
    split; [reflexivity |]. split; [reflexivity |]. split; [reflexivity |].
    unfold held_after. cbn [fold_left hold]. rewrite Hret. reflexivity.
  - intros Hret Hdev Hclass. rewrite Hret. cbn [Z.eqb negb].
    rewrite Hclass. apply Z.eqb_neq in Hdev. rewrite Hdev. cbn [negb].
    sys_run.
    split; [reflexivity |].
    split; [intros ->; reflexivity |].
    split; [reflexivity |]. split; [reflexivity |]. split; [reflexivity |].
    split; [reflexivity |].
    unfold held_after. cbn [fold_left hold Z.eqb Z.ltb Z.compare].
    rewrite Hclass. reflexivity.
Qed.

(** A load that cannot allocate device numbers, and one that gets a null
    device class. *)
Lemma module_init_failure_keeps_device_numbers_witness :
  let busy :=
    mk_answers 0 0 0 0 8 0 (fun _ => 0) (fun _ => 0) (-16, 0) 0 0 in
  let no_class :=
    mk_answers 0 0 0 0 8 0 (fun _ => 0) (fun _ => 0) (0, 0x0F000000) 0 0 in
  pciep_platform_driver_done unloaded = false /\
  (fst (alloc_chrdev_region_ret busy) <> 0 /\
   value_of (pciep_module_init busy unloaded) = -16 /\
   held_after (calls_of (pciep_module_init busy unloaded)) = []) /\
  (fst (alloc_chrdev_region_ret no_class) = 0 /\
   snd (alloc_chrdev_region_ret no_class) <> 0 /\
   IS_ERR_OR_NULL (class_create_ret no_class) = true /\
   value_of (pciep_module_init no_class unloaded) = 0 /\
   held_after (calls_of (pciep_module_init no_class unloaded)) =
     [ChrdevRegion 0x0F000000 4]).
Proof.
  intros busy no_class.
  assert (H0 : pciep_platform_driver_done unloaded = false) by reflexivity.
  assert (H1 : fst (alloc_chrdev_region_ret busy) <> 0) by discriminate.
  assert (H2 : fst (alloc_chrdev_region_ret no_class) = 0) by reflexivity.
  assert (H3 : snd (alloc_chrdev_region_ret no_class) <> 0) by discriminate.
  assert (H4 : IS_ERR_OR_NULL (class_create_ret no_class) = true)
    by reflexivity.
  destruct (proj1 (module_init_failure_keeps_device_numbers busy unloaded H0) H1)
    as (B1 & _ & _ & B2).
  destruct (proj2 (module_init_failure_keeps_device_numbers no_class unloaded H0)
              H2 H3 H4) as (_ & N1 & _ & _ & _ & _ & N2).
  exact (conj H0 (conj (conj H1 (conj B1 B2))
           (conj H2 (conj H3 (conj H4 (conj (N1 eq_refl) N2)))))).
Defined.

(** A load that gets its device numbers and its class returns 0 whether or
    not the platform driver could be registered, and remembers which.  The
    unload then unregisters the platform driver only if it was registered,
    calls [unregister_chrdev_region] with a count of 0 and destroys the
    minor allocator.  It has no call for the device class, and the count of
    0 gives no device number back: after the unload the class and the
    [MAX_INSTANCES] device numbers are still held. *)
Theorem module_init_then_exit :
  forall (o : answers) (s : module_state),
    pciep_platform_driver_done s = false ->
    fst (alloc_chrdev_region_ret o) = 0 ->
    snd (alloc_chrdev_region_ret o) <> 0 ->
    IS_ERR_OR_NULL (class_create_ret o) = false ->
    let dev := snd (alloc_chrdev_region_ret o) in
    let class := class_create_ret o in
    let registered := platform_driver_register_ret o =? 0 in
    let loaded := pciep_module_init o s in
    let unloaded := pciep_module_exit (state_of loaded) in
    value_of loaded = 0 /\
    pciep_platform_driver_done (state_of loaded) = registered /\
    pciep_device_number (state_of loaded) = dev /\
    pciep_sys_class (state_of loaded) = class /\
    calls_of unloaded =
      (if registered then [PlatformDriverUnregister] else []) ++
      [UnregisterChrdevRegion dev 0; IdaDestroy] /\
    held_after (calls_of loaded) =
      (if registered then [PlatformDriver] else []) ++
      [DeviceClass class; ChrdevRegion dev MAX_INSTANCES] /\
    held_after (calls_of loaded ++ calls_of unloaded) =
      [DeviceClass class; ChrdevRegion dev MAX_INSTANCES].
Proof.
  intros o s Hdone Hret Hdev Hclass dev class registered loaded unloaded0.
  subst loaded unloaded0 registered dev class.
  rewrite module_init_run. cbv zeta. rewrite Hret, Hclass.
  cbn [Z.eqb negb]. apply Z.eqb_neq in Hdev.
  unfold pciep_module_exit.
  destruct (platform_driver_register_ret o =? 0) eqn:Hreg; cbn [negb];
    sys_run;
    cbn [pciep_platform_driver_done pciep_device_number pciep_sys_class
         set_pciep_platform_driver_done set_pciep_sys_class
         set_pciep_device_number];
    rewrite ?Hdone, Hdev; cbn [negb]; sys_run;
    (split; [reflexivity |]); (split; [reflexivity |]);
    (split; [reflexivity |]); (split; [reflexivity |]);
    (split; [reflexivity |]);
    unfold held_after; cbn [fold_left hold Z.eqb Z.ltb Z.compare];
    rewrite Hclass, Hreg; cbn [give_back resource_eqb app];
    split; reflexivity.
Qed.

(** A load in which the platform driver cannot be registered, unloaded. *)
Lemma module_init_then_exit_witness :
  let o :=
    mk_answers 0 0 0 0 8 0 (fun _ => 0) (fun _ => 0) (0, 0x0F000000)
      0xffff888000300000 (-12) in
  let loaded := pciep_module_init o unloaded in
  pciep_platform_driver_done unloaded = false /\
  fst (alloc_chrdev_region_ret o) = 0 /\
  snd (alloc_chrdev_region_ret o) <> 0 /\
  IS_ERR_OR_NULL (class_create_ret o) = false /\
  value_of loaded = 0 /\
  pciep_platform_driver_done (state_of loaded) = false /\
  calls_of (pciep_module_exit (state_of loaded)) =
    [UnregisterChrdevRegion 0x0F000000 0; IdaDestroy] /\
  held_after (calls_of loaded ++ calls_of (pciep_module_exit (state_of loaded))) =
    [DeviceClass 0xffff888000300000; ChrdevRegion 0x0F000000 4].
Proof.
  intros o loaded.
  assert (H0 : pciep_platform_driver_done unloaded = false) by reflexivity.
  assert (H1 : fst (alloc_chrdev_region_ret o) = 0) by reflexivity.
  assert (H2 : snd (alloc_chrdev_region_ret o) <> 0) by discriminate.
  assert (H3 : IS_ERR_OR_NULL (class_create_ret o) = false) by reflexivity.
  destruct (module_init_then_exit o unloaded H0 H1 H2 H3)
    as (Hv & Hd & _ & _ & Hc & _ & Hh).
  exact (conj H0 (conj H1 (conj H2 (conj H3 (conj Hv (conj Hd (conj Hc Hh))))))).
Defined.
